(** * Outlook MCP adapter: a shallow embedding and its properties

    The development follows the repository's modules:
    - [Py]      : the Python values the code manipulates (JSON data, dicts,
                  truthiness, exceptions);
    - [Schema]  : [remove_null_from_schema] of [src/main.py];
    - [Graph]   : [OutlookClient] of [src/client.py];
    - [Tools]   : the tool functions of [src/tools/*.py], over any client
                  that offers [is_authenticated] and [request];
    - [Dispatch]: [get_client] and [create_dynamic_wrapper] of [src/main.py].
*)

From Stdlib Require Import List String Ascii ZArith Bool Lia.
From Stdlib Require Import DecimalString DecimalNat DecimalZ.
Import ListNotations.
Local Open Scope string_scope.
Local Open Scope list_scope.

Set Warnings "-register-all".

(* ================================================================== *)
(** * Python values *)
(* ================================================================== *)

Module Py.

(** JSON data as Python sees it after [json.load]: numbers are integers
    here.  A dict is its list of items in insertion order; its keys are
    values too, since [dict.update] can create keys that are not strings. *)
Inductive pyval : Type :=
| PNone
| PBool (b : bool)
| PInt (n : Z)
| PStr (s : string)
| PList (l : list pyval)
| PDict (d : list (pyval * pyval)).

Definition pydict := list (pyval * pyval).

(** An exception instance: its class name and [str(e)]. *)
Record exn : Type := Exn { exn_class : string; exn_msg : string }.

(** The classes of the builtin hierarchy that do not derive from
    [Exception]. *)
Definition BASE_EXCEPTIONS : list string :=
  ["BaseException"; "BaseExceptionGroup"; "GeneratorExit"; "KeyboardInterrupt";
   "SystemExit"].

(** [isinstance(e, Exception)] *)
Definition is_Exception (e : exn) : bool :=
  negb (existsb (String.eqb (exn_class e)) BASE_EXCEPTIONS).

Inductive result (A : Type) : Type :=
| Ok (a : A)
| Raise (e : exn).
Arguments Ok {A} a.
Arguments Raise {A} e.

Definition is_ok {A} (r : result A) : bool :=
  match r with Ok _ => true | Raise _ => false end.

(** ** Strings *)

Definition str_of_nat (n : nat) : string := NilZero.string_of_uint (Nat.to_uint n).
Definition str_of_Z (z : Z) : string := NilZero.string_of_int (Z.to_int z).

(** [sep.join(parts)] *)
Fixpoint join (sep : string) (parts : list string) : string :=
  match parts with
  | [] => EmptyString
  | [p] => p
  | p :: rest => p ++ sep ++ join sep rest
  end.

(** [sub in s] on strings *)
Fixpoint contains (sub s : string) : bool :=
  String.prefix sub s ||
  match s with
  | EmptyString => false
  | String _ s' => contains sub s'
  end.

Definition lower_ascii (c : ascii) : ascii :=
  let n := nat_of_ascii c in
  if (65 <=? n)%nat && (n <=? 90)%nat then ascii_of_nat (n + 32) else c.

(** [s.lower()], on the ASCII letters *)
Fixpoint lower (s : string) : string :=
  match s with
  | EmptyString => EmptyString
  | String c s' => String (lower_ascii c) (lower s')
  end.

(** The one-character string holding a double quote. *)
Definition dquote : string := String (ascii_of_nat 34) EmptyString.

(** [str(b)] for a bool *)
Definition str_of_bool (b : bool) : string := if b then "True" else "False".

Definition chars (s : string) : list string :=
  map (fun c => String c EmptyString) (list_ascii_of_string s).

(** ** Truthiness, type names, comparison with a string literal *)

Definition truthy (v : pyval) : bool :=
  match v with
  | PNone => false
  | PBool b => b
  | PInt n => negb (n =? 0)%Z
  | PStr s => negb (s =? EmptyString)
  | PList l => match l with [] => false | _ => true end
  | PDict d => match d with [] => false | _ => true end
  end.

Definition str_truthy (s : string) : bool := negb (s =? EmptyString).
Definition opt_str_truthy (o : option string) : bool :=
  match o with Some s => str_truthy s | None => false end.
Definition opt_list_truthy {A} (o : option (list A)) : bool :=
  match o with Some (_ :: _) => true | _ => false end.
Definition opt_bool_truthy (o : option bool) : bool :=
  match o with Some b => b | None => false end.

Definition type_name (v : pyval) : string :=
  match v with
  | PNone => "NoneType"
  | PBool _ => "bool"
  | PInt _ => "int"
  | PStr _ => "str"
  | PList _ => "list"
  | PDict _ => "dict"
  end.

(** [v == "lit"] *)
Definition eq_str (v : pyval) (lit : string) : bool :=
  match v with PStr s => (s =? lit) | _ => false end.

Definition is_dict (v : pyval) : bool := match v with PDict _ => true | _ => false end.
Definition is_list (v : pyval) : bool := match v with PList _ => true | _ => false end.
Definition is_none (v : pyval) : bool := match v with PNone => true | _ => false end.

(** ** Dicts *)

(** Equality of two hashable keys: [True == 1] and [False == 0]. *)
Definition key_eqb (k1 k2 : pyval) : bool :=
  match k1, k2 with
  | PNone, PNone => true
  | PStr a, PStr b => (a =? b)
  | PBool a, PBool b => Bool.eqb a b
  | PInt a, PInt b => (a =? b)%Z
  | PBool a, PInt b | PInt b, PBool a => ((if a then 1 else 0) =? b)%Z
  | _, _ => false
  end.

Definition hashable (k : pyval) : bool :=
  match k with PList _ | PDict _ => false | _ => true end.

(** [d.get(k)], as an option *)
Fixpoint dict_find (k : pyval) (d : pydict) : option pyval :=
  match d with
  | [] => None
  | (k', v) :: rest => if key_eqb k' k then Some v else dict_find k rest
  end.

(** [k in d] *)
Definition dict_has (k : pyval) (d : pydict) : bool :=
  match dict_find k d with Some _ => true | None => false end.

(** [d[k] = v]: an existing key keeps its place, a new one goes last. *)
Fixpoint dict_set (k v : pyval) (d : pydict) : pydict :=
  match d with
  | [] => [(k, v)]
  | (k', v') :: rest =>
      if key_eqb k' k then (k', v) :: rest else (k', v') :: dict_set k v rest
  end.

(** [d.get(k, default)] *)
Definition dict_get (k : string) (default : pyval) (d : pydict) : pyval :=
  match dict_find (PStr k) d with Some v => v | None => default end.

(** The pair a [dict.update] reads from one element of a sequence. *)
Definition seq2 (i : nat) (item : pyval) : result (pyval * pyval) :=
  let wrong_length (n : nat) :=
    Raise (Exn "ValueError"
             ("dictionary update sequence element #" ++ str_of_nat i ++
              " has length " ++ str_of_nat n ++ "; 2 is required")) in
  match item with
  | PList [k; v] => Ok (k, v)
  | PList l => wrong_length (List.length l)
  | PStr s =>
      match chars s with
      | [a; b] => Ok (PStr a, PStr b)
      | l => wrong_length (List.length l)
      end
  | PDict [(k1, _); (k2, _)] => Ok (k1, k2)
  | PDict d => wrong_length (List.length d)
  | _ =>
      Raise (Exn "TypeError"
               ("cannot convert dictionary update sequence element #" ++
                str_of_nat i ++ " to a sequence"))
  end.

Fixpoint update_from_seq (i : nat) (items : list pyval) (d : pydict) : result pydict :=
  match items with
  | [] => Ok d
  | item :: rest =>
      match seq2 i item with
      | Raise e => Raise e
      | Ok (k, v) =>
          if hashable k then update_from_seq (S i) rest (dict_set k v d)
          else Raise (Exn "TypeError" ("unhashable type: '" ++ type_name k ++ "'"))
      end
  end.

(** [d.update(other)] *)
Definition dict_update (d : pydict) (other : pyval) : result pydict :=
  match other with
  | PDict items => Ok (fold_left (fun acc kv => dict_set (fst kv) (snd kv) acc) items d)
  | PList items => update_from_seq 0 items d
  | PStr s => update_from_seq 0 (map PStr (chars s)) d
  | _ => Raise (Exn "TypeError" ("'" ++ type_name other ++ "' object is not iterable"))
  end.

(** A dict literal with string keys. *)
Definition kv (k : string) (v : pyval) : pyval * pyval := (PStr k, v).

(** ** State and exceptions

    A Python call that may raise and that changes the state it runs in. *)
Definition SE (S A : Type) : Type := S -> result A * S.

Definition ret {S A} (a : A) : SE S A := fun s => (Ok a, s).
Definition raise {S A} (e : exn) : SE S A := fun s => (Raise e, s).
Definition lift {S A} (r : result A) : SE S A := fun s => (r, s).
Definition bind {S A B} (m : SE S A) (k : A -> SE S B) : SE S B :=
  fun s => match m s with
           | (Ok a, s') => k a s'
           | (Raise e, s') => (Raise e, s')
           end.
(** [try: body  except Exception as e: handler]: an exception that is not
    an instance of [Exception] passes through. *)
Definition try_except {S A} (body : SE S A) (handler : exn -> SE S A) : SE S A :=
  fun s => match body s with
           | (Ok a, s') => (Ok a, s')
           | (Raise e, s') => if is_Exception e then handler e s' else (Raise e, s')
           end.
Definition get_state {S} : SE S S := fun s => (Ok s, s).
Definition put_state {S} (s : S) : SE S unit := fun _ => (Ok tt, s).

Declare Scope py_scope.
Delimit Scope py_scope with py.
Notation "x <- m ;; k" := (bind m (fun x => k))
  (at level 61, m at next level, right associativity) : py_scope.
Notation "m ;;; k" := (bind m (fun _ => k))
  (at level 61, right associativity) : py_scope.

(** Keyword arguments of a call, in the order given. *)
Definition kwargs := list (string * pyval).

Fixpoint kw_find (k : string) (kw : kwargs) : option pyval :=
  match kw with
  | [] => None
  | (k', v) :: rest => if (k' =? k) then Some v else kw_find k rest
  end.

Fixpoint kw_remove (k : string) (kw : kwargs) : kwargs :=
  match kw with
  | [] => []
  | (k', v) :: rest => if (k' =? k) then kw_remove k rest else (k', v) :: kw_remove k rest
  end.

End Py.
Import Py.

(* ================================================================== *)
(** * Schema sanitization ([src/main.py]) *)
(* ================================================================== *)

Module Schema.

(** The branches of an [anyOf] that are kept:
    [[v for v in value if not (isinstance(v, dict) and v.get("type") == "null")]] *)
Definition not_null_branch (v : pyval) : bool :=
  negb (match v with
        | PDict d => eq_str (dict_get "type" PNone d) "null"
        | _ => false
        end).

(** ["null" in value] for a list *)
Definition has_null_string (l : list pyval) : bool :=
  existsb (fun v => eq_str v "null") l.

Definition list_items (v : pyval) : list pyval :=
  match v with PList l => l | _ => [] end.

Fixpoint remove_null_from_schema (schema : pyval) : result pyval :=
  match schema with
  | PDict items =>
      let fix loop (items : pydict) (new_schema : pydict) {struct items} : result pydict :=
        match items with
        | [] => Ok new_schema
        | (key, value) :: rest =>
            if eq_str key "anyOf" && is_list value then
              match filter not_null_branch (list_items value) with
              | [] => loop rest new_schema
              | [only] =>
                  match dict_update new_schema only with
                  | Ok merged => loop rest merged
                  | Raise e => Raise e
                  end
              | filtered => loop rest (dict_set key (PList filtered) new_schema)
              end
            else if eq_str key "type" && is_list value && has_null_string (list_items value) then
              match filter (fun v => negb (eq_str v "null")) (list_items value) with
              | [only] => loop rest (dict_set (PStr "type") only new_schema)
              | filtered => loop rest (dict_set (PStr "type") (PList filtered) new_schema)
              end
            else if eq_str key "type" && eq_str value "null" then loop rest new_schema
            else if eq_str key "default" && is_none value then loop rest new_schema
            else if is_dict value || is_list value then
              match remove_null_from_schema value with
              | Ok value' => loop rest (dict_set key value' new_schema)
              | Raise e => Raise e
              end
            else loop rest (dict_set key value new_schema)
        end in
      match loop items [] with
      | Ok new_schema => Ok (PDict new_schema)
      | Raise e => Raise e
      end
  | PList l =>
      let fix each (l : list pyval) : result (list pyval) :=
        match l with
        | [] => Ok []
        | item :: rest =>
            match remove_null_from_schema item with
            | Raise e => Raise e
            | Ok item' =>
                match each rest with
                | Ok rest' => Ok (item' :: rest')
                | Raise e => Raise e
                end
            end
        end in
      match each l with
      | Ok l' => Ok (PList l')
      | Raise e => Raise e
      end
  | _ => Ok schema
  end.

(** ** Nullable-type markers *)

(** An item of a dict that marks a nullable type: [type] equal to ["null"],
    a list-valued [type] with ["null"] in it, an [anyOf] with a branch whose
    [type] is ["null"], or a [default] that is [None]. *)
Definition marker_item (key value : pyval) : bool :=
  (eq_str key "type" && eq_str value "null")
  || (eq_str key "type" && is_list value && has_null_string (list_items value))
  || (eq_str key "anyOf" && is_list value
      && negb (forallb not_null_branch (list_items value)))
  || (eq_str key "default" && is_none value).

(** A marker somewhere in a schema. *)
Fixpoint has_null_marker (schema : pyval) : bool :=
  match schema with
  | PDict items =>
      (fix any (items : pydict) : bool :=
         match items with
         | [] => false
         | (key, value) :: rest =>
             marker_item key value || has_null_marker value || any rest
         end) items
  | PList l =>
      (fix any (l : list pyval) : bool :=
         match l with
         | [] => false
         | item :: rest => has_null_marker item || any rest
         end) l
  | _ => false
  end.

End Schema.

(* ================================================================== *)
(** * The Graph request client ([src/client.py]) *)
(* ================================================================== *)

Module Graph.
Local Open Scope py_scope.

Definition GRAPH_API_ENDPOINT : string := "https://graph.microsoft.com/v1.0".

(** The one field of [OutlookClient] that changes after construction. *)
Record OutlookClient : Type := { access_token : option string }.

(** A call [requests.request(method, url, headers=headers, **kwargs)]. *)
Record Request : Type := {
  rq_method : string;
  rq_url : string;
  rq_headers : pydict;
  rq_kwargs : kwargs
}.

(** What the client reads of a [requests.Response]. *)
Record Response : Type := {
  status_code : Z;
  reason : string;
  url : string;
  content : string
}.

(** The traffic so far, and how often the identity library was asked for
    a token. *)
Record World : Type := {
  exchanges : list (Request * result Response);
  msal_calls : nat
}.

(** The libraries and the network behind the client.  Each answer may
    depend on everything that happened before.  Of a token result only the
    ["access_token"] entry is read: [acquire_token_silent] answers [None]
    for Python's [None], [Some None] for a dict without that entry and
    [Some (Some t)] for a dict that holds the token [t];
    [acquire_token_by_device_flow] always answers a dict. *)
Record Env : Type := {
  OUTLOOK_CLIENT_ID : option string;               (* os.getenv *)
  create_msal_app : World -> result unit;          (* msal.PublicClientApplication(..) *)
  http : World -> Request -> result Response;      (* requests.request *)
  json : Response -> result pyval;                 (* response.json() *)
  get_accounts : World -> list pyval;
  acquire_token_silent : World -> pyval -> result (option (option string));
  initiate_device_flow : World -> result pydict;
  acquire_token_by_device_flow : World -> pydict -> result (option string);
  save_token_cache : World -> result unit
}.

Definition G (A : Type) : Type := SE (OutlookClient * World) A.

Definition asked (w : World) : World :=
  {| exchanges := exchanges w; msal_calls := S (msal_calls w) |}.

Section Client.
Variable env : Env.

Definition is_authenticated (self : OutlookClient) : bool :=
  match access_token self with Some _ => true | None => false end.

Definition _load_cached_token : G bool :=
  fun '(self, w) =>
    match get_accounts env w with
    | [] => (Ok false, (self, w))
    | account :: _ =>
        match acquire_token_silent env w account with
        | Raise e => (Raise e, (self, asked w))
        | Ok (Some (Some token)) => (Ok true, ({| access_token := Some token |}, asked w))
        | Ok _ => (Ok false, (self, asked w))
        end
    end.

(** [OutlookClient()]: the new object, or the exception of [__init__]. *)
Definition new_client (w : World) : result OutlookClient * World :=
  match OUTLOOK_CLIENT_ID env with
  | Some id =>
      if str_truthy id then
        match create_msal_app env w with
        | Raise e => (Raise e, w)
        | Ok _ =>
            match _load_cached_token ({| access_token := None |}, w) with
            | (Ok _, (self, w')) => (Ok self, w')
            | (Raise e, (_, w')) => (Raise e, w')
            end
        end
      else (Raise (Exn "ValueError" "OUTLOOK_CLIENT_ID environment variable is required"), w)
  | None => (Raise (Exn "ValueError" "OUTLOOK_CLIENT_ID environment variable is required"), w)
  end.

(** The device code flow; what it prints is not modelled. *)
Definition authenticate_interactive : G bool :=
  fun '(self, w) =>
    match initiate_device_flow env w with
    | Raise e => (Raise e, (self, asked w))
    | Ok flow =>
        let w := asked w in
        if negb (dict_has (PStr "user_code") flow) then (Ok false, (self, w))
        else if negb (dict_has (PStr "verification_uri") flow) then
          (Raise (Exn "KeyError" "'verification_uri'"), (self, w))
        else
          match acquire_token_by_device_flow env w flow with
          | Raise e => (Raise e, (self, asked w))
          | Ok (Some token) =>
              let self := {| access_token := Some token |} in
              match save_token_cache env (asked w) with
              | Ok _ => (Ok true, (self, asked w))
              | Raise e => (Raise e, (self, asked w))
              end
          | Ok None => (Ok false, (self, asked w))
          end
    end.

Definition get_headers : G pydict :=
  fun '(self, w) =>
    match access_token self with
    | Some token =>
        if str_truthy token then
          (Ok [kv "Authorization" (PStr ("Bearer " ++ token));
               kv "Content-Type" (PStr "application/json")], (self, w))
        else
          (Raise (Exn "Exception" "Not authenticated. Call authenticate_interactive() first."),
           (self, w))
    | None =>
        (Raise (Exn "Exception" "Not authenticated. Call authenticate_interactive() first."),
         (self, w))
    end.

(** [requests.request(...)]: the exchange is recorded, answered or not. *)
Definition send (rq : Request) : G Response :=
  fun '(self, w) =>
    let answer := http env w rq in
    (answer, (self, {| exchanges := exchanges w ++ [(rq, answer)];
                       msal_calls := msal_calls w |})).

(** [Response.raise_for_status] of the [requests] library: an [HTTPError]
    for a status from 400 to 599, nothing otherwise. *)
Definition raise_for_status (r : Response) : G unit :=
  let msg (kind : string) :=
    (str_of_Z (status_code r) ++ " " ++ kind ++ " Error: " ++ reason r ++
     " for url: " ++ url r)%string in
  if ((400 <=? status_code r) && (status_code r <? 500))%Z then
    raise (Exn "HTTPError" (msg "Client"))
  else if ((500 <=? status_code r) && (status_code r <? 600))%Z then
    raise (Exn "HTTPError" (msg "Server"))
  else ret tt.

Definition request (method endpoint : string) (kw : kwargs) : G pyval :=
  let url := (GRAPH_API_ENDPOINT ++ endpoint)%string in
  headers <- get_headers ;;
  headers <- match kw_find "headers" kw with
             | Some custom_headers =>
                 if truthy custom_headers then lift (dict_update headers custom_headers)
                 else ret headers
             | None => ret headers
             end ;;
  let kw := kw_remove "headers" kw in
  response <- send {| rq_method := method; rq_url := url;
                      rq_headers := headers; rq_kwargs := kw |} ;;
  response <- (if (status_code response =? 401)%Z then
                 reloaded <- _load_cached_token ;;
                 if (reloaded : bool) then
                   headers <- get_headers ;;
                   send {| rq_method := method; rq_url := url;
                           rq_headers := headers; rq_kwargs := kw |}
                 else
                   raise (Exn "Exception" "Authentication expired. Please re-authenticate.")
               else ret response) ;;
  raise_for_status response ;;;
  if str_truthy (content response) then lift (json env response) else ret (PDict []).

(** What is left of [request] once a response is there. *)
Definition finish (response : Response) : G pyval :=
  raise_for_status response ;;;
  if str_truthy (content response) then lift (json env response) else ret (PDict []).

Definition get (endpoint : string) (kw : kwargs) : G pyval := request "GET" endpoint kw.
Definition post (endpoint : string) (kw : kwargs) : G pyval := request "POST" endpoint kw.
Definition patch (endpoint : string) (kw : kwargs) : G pyval := request "PATCH" endpoint kw.
Definition delete (endpoint : string) (kw : kwargs) : G pyval := request "DELETE" endpoint kw.

End Client.

(** ** What a call of [request] leaves behind *)

Definition bearer (token : string) : pyval := PStr ("Bearer " ++ token).

(** The [Authorization] header of a request. *)
Definition authorization (rq : Request) : option pyval :=
  dict_find (PStr "Authorization") (rq_headers rq).

(** The exchanges made between two worlds. *)
Definition new_exchanges (before after : World) : list (Request * result Response) :=
  skipn (List.length (exchanges before)) (exchanges after).

(** The world after one more exchange. *)
Definition after_exchange (w : World) (rq : Request) (answer : result Response) : World :=
  {| exchanges := exchanges w ++ [(rq, answer)]; msal_calls := msal_calls w |}.

(** The statuses for which [raise_for_status] raises. *)
Definition is_error_status (status : Z) : bool :=
  ((400 <=? status) && (status <? 600))%Z.

(** The caller passes no headers, or empty ones, or a dict of headers
    without an [Authorization] entry. *)
Definition keeps_authorization (kw : kwargs) : Prop :=
  match kw_find "headers" kw with
  | None => True
  | Some custom_headers =>
      truthy custom_headers = false
      \/ exists d, custom_headers = PDict d /\ dict_find (PStr "Authorization") d = None
  end.

End Graph.

(* ================================================================== *)
(** * The tool functions ([src/tools/*.py]) *)
(* ================================================================== *)

Module Tools.
Local Open Scope py_scope.

(** What a tool function needs around it: the [client] object it is given
    (any object with [is_authenticated] and the request methods), the local
    files, and the Python library calls it makes. *)
Record Runtime : Type := {
  Client : Type;
  is_authenticated : Client -> bool;
  request : string -> string -> kwargs -> Client -> result pyval * Client;
  Files : Type;
  path_exists : string -> Files -> bool;            (* os.path.exists *)
  read_file : string -> Files -> result string;     (* open(p, "rb").read() *)
  write_file : string -> string -> Files -> result unit * Files;
                                                    (* open(p, "wb").write(b) *)
  b64encode : string -> string;                     (* base64.b64encode(b).decode("utf-8") *)
  b64decode : pyval -> result string;               (* base64.b64decode *)
  encode_utf8 : string -> result string;            (* s.encode("utf-8") *)
  int_of_str : string -> result Z;                  (* int(s) *)
  str_of_container : pyval -> string                (* str(v) of a list or dict *)
}.

(** The uniform return value [{"successful": .., "data": .., "error": ..}];
    [error = None] when the dict has no ["error"] key. *)
Record Envelope : Type := {
  successful : bool;
  data : pyval;
  error : option string
}.

(** [{"successful": True, "data": d}] *)
Definition success (d : pyval) : Envelope :=
  {| successful := true; data := d; error := None |}.

(** [{"successful": False, "data": {}, "error": msg}] *)
Definition failure (msg : string) : Envelope :=
  {| successful := false; data := PDict []; error := Some msg |}.

Definition NOT_AUTHENTICATED : string := "Not authenticated. Please authenticate first.".

(** One call of a request method of the client, with what came back. *)
Record Call : Type := {
  call_method : string;
  call_endpoint : string;
  call_kwargs : kwargs;
  call_outcome : result pyval
}.

(** ** Building requests *)

(** [x if x else default] for an optional string *)
Definition or_else (o : option string) (default : string) : string :=
  match o with
  | Some s => if str_truthy s then s else default
  | None => default
  end.

(** [d if d else None] for a dict *)
Definition or_none (d : pydict) : pyval :=
  match d with [] => PNone | _ => PDict d end.

Definition strs (l : list string) : pyval := PList (map PStr l).
Definition dicts (l : list pydict) : pyval := PList (map PDict l).

(** [if x is not None: d[k] = f(x)] *)
Definition set_given {A} (k : string) (o : option A) (f : A -> pyval) (d : pydict) : pydict :=
  match o with Some a => dict_set (PStr k) (f a) d | None => d end.

(** [if x: d[k] = x] for an optional string *)
Definition set_str (k : string) (o : option string) (d : pydict) : pydict :=
  match o with
  | Some s => if str_truthy s then dict_set (PStr k) (PStr s) d else d
  | None => d
  end.

(** [if x: d[k] = f(x)] for an optional list *)
Definition set_list {A} (k : string) (o : option (list A)) (f : list A -> pyval)
    (d : pydict) : pydict :=
  match o with
  | Some ((_ :: _) as l) => dict_set (PStr k) (f l) d
  | _ => d
  end.

(** [if x: d[k] = ",".join(x)] *)
Definition set_joined (k : string) (o : option (list string)) (d : pydict) : pydict :=
  set_list k o (fun l => PStr (join "," l)) d.

(** [[{"emailAddress": {"address": email}} for email in emails]] *)
Definition recipients (emails : list string) : pyval :=
  PList (map (fun email => PDict [kv "emailAddress" (PDict [kv "address" (PStr email)])])
             emails).

(** [[{"emailAddress": a.get("emailAddress", {}), "type": a.get("type", "required")}
      for a in attendees]] *)
Definition attendee_entries (attendees : list pydict) : pyval :=
  PList (map (fun a => PDict [kv "emailAddress" (dict_get "emailAddress" (PDict []) a);
                              kv "type" (dict_get "type" (PStr "required") a)])
             attendees).

(** [{"@odata.type": "#microsoft.graph.fileAttachment", "name": attachment.get("name"), ...}] *)
Definition file_attachment (attachment : pydict) : pyval :=
  PDict [kv "@odata.type" (PStr "#microsoft.graph.fileAttachment");
         kv "name" (dict_get "name" PNone attachment);
         kv "contentType" (dict_get "contentType" (PStr "application/octet-stream") attachment);
         kv "contentBytes" (dict_get "contentBytes" PNone attachment)].

(** [if x: parts.append(f(x))] for an optional string *)
Definition add_str (o : option string) (f : string -> string) (parts : list string)
    : list string :=
  match o with
  | Some s => if str_truthy s then parts ++ [f s] else parts
  | None => parts
  end.

(** [if x is not None: parts.append(f(x))] *)
Definition add_given {A} (o : option A) (f : A -> string) (parts : list string)
    : list string :=
  match o with Some a => parts ++ [f a] | None => parts end.

(** [v.get(k, default)] on any value *)
Definition py_get (v : pyval) (k : string) (default : pyval) : result pyval :=
  match v with
  | PDict d => Ok (dict_get k default d)
  | _ => Raise (Exn "AttributeError"
                  ("'" ++ type_name v ++ "' object has no attribute 'get'"))
  end.

(** [k in v] for a string [k] *)
Definition py_in (k : string) (v : pyval) : result bool :=
  match v with
  | PDict d => Ok (dict_has (PStr k) d)
  | PList l => Ok (existsb (fun x => eq_str x k) l)
  | PStr s => Ok (contains k s)
  | _ => Raise (Exn "TypeError"
                  ("argument of type '" ++ type_name v ++ "' is not iterable"))
  end.

(** [v[k]] for a string [k] *)
Definition py_item (v : pyval) (k : string) : result pyval :=
  match v with
  | PDict d =>
      match dict_find (PStr k) d with
      | Some x => Ok x
      | None => Raise (Exn "KeyError" ("'" ++ k ++ "'"))
      end
  | PList _ => Raise (Exn "TypeError" "list indices must be integers or slices, not str")
  | PStr _ => Raise (Exn "TypeError" "string indices must be integers, not 'str'")
  | _ => Raise (Exn "TypeError" ("'" ++ type_name v ++ "' object is not subscriptable"))
  end.

Section WithRuntime.
Variable R : Runtime.

(** [str(v)], as an f-string renders a value *)
Definition str_of (v : pyval) : string :=
  match v with
  | PStr s => s
  | PNone => "None"
  | PBool b => str_of_bool b
  | PInt n => str_of_Z n
  | _ => str_of_container R v
  end.

Record State : Type := {
  client : Client R;
  files : Files R;
  calls : list Call
}.

Definition M (A : Type) : Type := SE State A.

Definition authenticated : M bool :=
  fun st => (Ok (is_authenticated R (client st)), st).

Definition client_request (method endpoint : string) (kw : kwargs) : M pyval :=
  fun st =>
    let '(outcome, client') := request R method endpoint kw (client st) in
    (outcome,
     {| client := client'; files := files st;
        calls := calls st ++ [{| call_method := method; call_endpoint := endpoint;
                                 call_kwargs := kw; call_outcome := outcome |}] |}).

Definition client_get := client_request "GET".
Definition client_post := client_request "POST".
Definition client_patch := client_request "PATCH".
Definition client_delete := client_request "DELETE".

Definition os_path_exists (path : string) : M bool :=
  fun st => (Ok (path_exists R path (files st)), st).

Definition open_read (path : string) : M string :=
  fun st => (read_file R path (files st), st).

Definition open_write (path bytes : string) : M unit :=
  fun st =>
    let '(outcome, files') := write_file R path bytes (files st) in
    (outcome, {| client := client st; files := files'; calls := calls st |}).

(** [except Exception as e: return {"successful": False, "data": {}, "error": str(e)}] *)
Definition on_exception (e : exn) : M Envelope := ret (failure (exn_msg e)).

Local Open Scope string_scope.

(** ** [mail_tools.py] *)

Definition add_mail_attachment_try
    (message_id name odata_type contentBytes : string)
    (contentId contentLocation contentType : option string)
    (isInline : option bool) (item : option pydict) (user_id : option string)
    : M Envelope :=
  auth <- authenticated ;;
  if negb auth then ret (failure NOT_AUTHENTICATED) else
  let attachment_data :=
    [kv "@odata.type" (PStr odata_type); kv "name" (PStr name);
     kv "contentBytes" (PStr contentBytes)] in
  let attachment_data := set_given "contentId" contentId PStr attachment_data in
  let attachment_data := set_given "contentLocation" contentLocation PStr attachment_data in
  let attachment_data := set_given "contentType" contentType PStr attachment_data in
  let attachment_data := set_given "isInline" isInline PBool attachment_data in
  let attachment_data := set_given "item" item PDict attachment_data in
  let user := or_else user_id "me" in
  let endpoint := "/" ++ user ++ "/messages/" ++ message_id ++ "/attachments" in
  result <- client_post endpoint [("json", PDict attachment_data)] ;;
  ret (success result).

Definition add_mail_attachment
    (message_id name odata_type contentBytes : string)
    (contentId contentLocation contentType : option string)
    (isInline : option bool) (item : option pydict) (user_id : option string)
    : M Envelope :=
  try_except
    (add_mail_attachment_try message_id name odata_type contentBytes contentId
       contentLocation contentType isInline item user_id)
    on_exception.

Definition create_draft_try
    (subject body : string) (to_recipients : list string)
    (cc_recipients bcc_recipients : option (list string))
    (is_html : option bool) (conversation_id : option string)
    (attachment : option pydict) : M Envelope :=
  auth <- authenticated ;;
  if negb auth then ret (failure NOT_AUTHENTICATED) else
  let draft_data :=
    [kv "subject" (PStr subject);
     kv "body" (PDict [kv "contentType" (PStr (if opt_bool_truthy is_html then "HTML" else "Text"));
                       kv "content" (PStr body)]);
     kv "toRecipients" (recipients to_recipients)] in
  let draft_data := set_list "ccRecipients" cc_recipients recipients draft_data in
  let draft_data := set_list "bccRecipients" bcc_recipients recipients draft_data in
  let draft_data := set_str "conversationId" conversation_id draft_data in
  let endpoint := "/me/messages" in
  result <- client_post endpoint [("json", PDict draft_data)] ;;
  match attachment with
  | Some ((_ :: _) as attachment) =>
      id <- lift (py_get result "id" PNone) ;;
      if truthy id then
        message_id <- lift (py_item result "id") ;;
        let attachment_data := file_attachment attachment in
        let attachment_endpoint := "/me/messages/" ++ str_of message_id ++ "/attachments" in
        client_post attachment_endpoint [("json", attachment_data)] ;;;
        ret (success result)
      else ret (success result)
  | _ => ret (success result)
  end.

Definition create_draft
    (subject body : string) (to_recipients : list string)
    (cc_recipients bcc_recipients : option (list string))
    (is_html : option bool) (conversation_id : option string)
    (attachment : option pydict) : M Envelope :=
  try_except
    (create_draft_try subject body to_recipients cc_recipients bcc_recipients is_html
       conversation_id attachment)
    on_exception.

(** The ["message"] part of a reply: CC and BCC recipients, when given. *)
Definition reply_message_updates (cc_emails bcc_emails : option (list string)) : pydict :=
  let message_updates := [] in
  let message_updates := set_list "ccRecipients" cc_emails recipients message_updates in
  set_list "bccRecipients" bcc_emails recipients message_updates.

Definition create_draft_reply_try
    (message_id : string) (comment : option string)
    (cc_emails bcc_emails : option (list string)) (user_id : option string)
    : M Envelope :=
  auth <- authenticated ;;
  if negb auth then ret (failure NOT_AUTHENTICATED) else
  let reply_data := set_str "comment" comment [] in
  let message_updates := reply_message_updates cc_emails bcc_emails in
  let reply_data :=
    match message_updates with
    | [] => reply_data
    | _ => dict_set (PStr "message") (PDict message_updates) reply_data
    end in
  let user := or_else user_id "me" in
  let endpoint := "/" ++ user ++ "/messages/" ++ message_id ++ "/createReply" in
  result <- client_post endpoint [("json", or_none reply_data)] ;;
  ret (success result).

Definition create_draft_reply
    (message_id : string) (comment : option string)
    (cc_emails bcc_emails : option (list string)) (user_id : option string)
    : M Envelope :=
  try_except (create_draft_reply_try message_id comment cc_emails bcc_emails user_id)
    on_exception.

Definition get_message_try (message_id : string) (select user_id : option string)
    : M Envelope :=
  auth <- authenticated ;;
  if negb auth then ret (failure NOT_AUTHENTICATED) else
  let params := set_str "$select" select [] in
  let user := or_else user_id "me" in
  let endpoint := "/" ++ user ++ "/messages/" ++ message_id in
  result <- client_get endpoint [("params", or_none params)] ;;
  ret (success result).

Definition get_message (message_id : string) (select user_id : option string)
    : M Envelope :=
  try_except (get_message_try message_id select user_id) on_exception.

Definition move_message_try (message_id destination_id : string) (user_id : option string)
    : M Envelope :=
  auth <- authenticated ;;
  if negb auth then ret (failure NOT_AUTHENTICATED) else
  let move_data := [kv "destinationId" (PStr destination_id)] in
  let user := or_else user_id "me" in
  let endpoint := "/" ++ user ++ "/messages/" ++ message_id ++ "/move" in
  result <- client_post endpoint [("json", PDict move_data)] ;;
  ret (success result).

Definition move_message (message_id destination_id : string) (user_id : option string)
    : M Envelope :=
  try_except (move_message_try message_id destination_id user_id) on_exception.

Definition reply_email_try
    (message_id comment : string) (cc_emails bcc_emails : option (list string))
    (user_id : option string) : M Envelope :=
  auth <- authenticated ;;
  if negb auth then ret (failure NOT_AUTHENTICATED) else
  let reply_data := [kv "comment" (PStr comment)] in
  let message_updates := reply_message_updates cc_emails bcc_emails in
  let reply_data :=
    match message_updates with
    | [] => reply_data
    | _ => dict_set (PStr "message") (PDict message_updates) reply_data
    end in
  let user := or_else user_id "me" in
  let endpoint := "/" ++ user ++ "/messages/" ++ message_id ++ "/reply" in
  client_post endpoint [("json", PDict reply_data)] ;;;
  ret (success (PDict [kv "message" (PStr "Reply sent successfully")])).

Definition reply_email
    (message_id comment : string) (cc_emails bcc_emails : option (list string))
    (user_id : option string) : M Envelope :=
  try_except (reply_email_try message_id comment cc_emails bcc_emails user_id)
    on_exception.

(** [filter_parts] of [search_messages] *)
Definition search_filter_parts
    (query : string) (fromEmail subject : option string) (hasAttachments : option bool)
    : list string :=
  let in_subject_or_body :=
    "(contains(subject, '" ++ query ++ "') or contains(bodyPreview, '" ++ query ++ "'))" in
  let in_subject (subject : string) := "contains(subject, '" ++ subject ++ "')" in
  let filter_parts :=
    match subject with
    | Some subject =>
        if str_truthy query && str_truthy subject then
          [in_subject_or_body; in_subject subject]
        else if str_truthy query then [in_subject_or_body]
        else if str_truthy subject then [in_subject subject]
        else []
    | None => if str_truthy query then [in_subject_or_body] else []
    end in
  let filter_parts :=
    add_str fromEmail (fun a => "from/emailAddress/address eq '" ++ a ++ "'") filter_parts in
  add_given hasAttachments (fun b => "hasAttachments eq " ++ lower (str_of_bool b))
    filter_parts.

Definition search_messages_try
    (query : string) (fromEmail subject : option string) (hasAttachments : option bool)
    (from_index size : option Z) (enable_top_results : option bool) : M Envelope :=
  auth <- authenticated ;;
  if negb auth then ret (failure NOT_AUTHENTICATED) else
  let params := [] in
  let filter_parts := search_filter_parts query fromEmail subject hasAttachments in
  let params :=
    match filter_parts with
    | [] => params
    | _ => dict_set (PStr "$filter") (PStr (join " and " filter_parts)) params
    end in
  let params := set_given "$top" size PInt params in
  let params := set_given "$skip" from_index PInt params in
  let endpoint := "/me/messages" in
  result <- client_get endpoint [("params", or_none params)] ;;
  ret (success result).

Definition search_messages
    (query : string) (fromEmail subject : option string) (hasAttachments : option bool)
    (from_index size : option Z) (enable_top_results : option bool) : M Envelope :=
  try_except
    (search_messages_try query fromEmail subject hasAttachments from_index size
       enable_top_results)
    on_exception.

Definition NOT_A_DRAFT : string :=
  "Cannot update received message. Only draft messages can be updated. Please use a draft message ID or create a draft first using outlook_create_draft.".

Definition BAD_BODY : string :=
  "Body must be a dict with 'contentType' and 'content' fields, e.g., {'contentType': 'text', 'content': 'Hello'}".

Definition NOTHING_TO_UPDATE : string :=
  "At least one field (subject, body, to_recipients, cc_recipients, bcc_recipients, or importance) must be provided to update.".

(** The draft check at the start of [update_email]: [Some] envelope when the
    function returns there, [None] when it goes on; an exception of the
    check is passed over. *)
Definition update_email_draft_check (check_endpoint : string) : M (option Envelope) :=
  try_except
    (message_info <- client_get check_endpoint [] ;;
     is_draft <- lift (py_get message_info "isDraft" (PBool false)) ;;
     if negb (truthy is_draft) then ret (Some (failure NOT_A_DRAFT)) else ret None)
    (fun check_error => ret None).

Definition update_email_try
    (message_id : string) (subject : option string) (body : option pyval)
    (to_recipients cc_recipients bcc_recipients : option (list string))
    (importance user_id : option string) : M Envelope :=
  auth <- authenticated ;;
  if negb auth then ret (failure NOT_AUTHENTICATED) else
  let user := or_else user_id "me" in
  let check_endpoint := "/" ++ user ++ "/messages/" ++ message_id ++ "?$select=isDraft" in
  checked <- update_email_draft_check check_endpoint ;;
  match checked with
  | Some envelope => ret envelope
  | None =>
      let message_data := set_given "subject" subject PStr [] in
      let body_ok :=
        match body with
        | None => true
        | Some (PDict d) => dict_has (PStr "contentType") d && dict_has (PStr "content") d
        | Some _ => false
        end in
      if negb body_ok then ret (failure BAD_BODY) else
      let message_data := set_given "body" body (fun b => b) message_data in
      let message_data := set_given "toRecipients" to_recipients recipients message_data in
      let message_data := set_given "ccRecipients" cc_recipients recipients message_data in
      let message_data := set_given "bccRecipients" bcc_recipients recipients message_data in
      let message_data := set_given "importance" importance PStr message_data in
      match message_data with
      | [] => ret (failure NOTHING_TO_UPDATE)
      | _ =>
          let endpoint := "/" ++ user ++ "/messages/" ++ message_id in
          result <- client_patch endpoint [("json", PDict message_data)] ;;
          ret (success result)
      end
  end.

(** The [except] clause of [update_email]. *)
Definition update_email_except (e : exn) : M Envelope :=
  let error_msg := exn_msg e in
  if (contains "400" error_msg || contains "Bad Request" error_msg)
     && (contains "draft" (lower error_msg) || contains "cannot" (lower error_msg))
  then ret (failure ("Cannot update this message. Only draft messages can be updated. Error: "
                     ++ error_msg))
  else ret (failure error_msg).

Definition update_email
    (message_id : string) (subject : option string) (body : option pyval)
    (to_recipients cc_recipients bcc_recipients : option (list string))
    (importance user_id : option string) : M Envelope :=
  try_except
    (update_email_try message_id subject body to_recipients cc_recipients bcc_recipients
       importance user_id)
    update_email_except.

Definition send_email_try
    (subject body to_email : string) (to_name : option string)
    (cc_emails bcc_emails : option (list string)) (is_html : option bool)
    (attachment : option pydict) (save_to_sent_items : option bool)
    (user_id : option string) : M Envelope :=
  auth <- authenticated ;;
  if negb auth then ret (failure NOT_AUTHENTICATED) else
  let message :=
    [kv "subject" (PStr subject);
     kv "body" (PDict [kv "contentType" (PStr (if opt_bool_truthy is_html then "HTML" else "Text"));
                       kv "content" (PStr body)]);
     kv "toRecipients"
        (PList [PDict [kv "emailAddress"
                          (PDict [kv "address" (PStr to_email);
                                  kv "name" (PStr (or_else to_name to_email))])]])] in
  let message := set_list "ccRecipients" cc_emails recipients message in
  let message := set_list "bccRecipients" bcc_emails recipients message in
  let message :=
    match attachment with
    | Some ((_ :: _) as attachment) =>
        dict_set (PStr "attachments") (PList [file_attachment attachment]) message
    | _ => message
    end in
  let send_data := [kv "message" (PDict message)] in
  let send_data := set_given "saveToSentItems" save_to_sent_items PBool send_data in
  let user := or_else user_id "me" in
  let endpoint := "/" ++ user ++ "/sendMail" in
  client_post endpoint [("json", PDict send_data)] ;;;
  ret (success (PDict [kv "message" (PStr "Email sent successfully")])).

Definition send_email
    (subject body to_email : string) (to_name : option string)
    (cc_emails bcc_emails : option (list string)) (is_html : option bool)
    (attachment : option pydict) (save_to_sent_items : option bool)
    (user_id : option string) : M Envelope :=
  try_except
    (send_email_try subject body to_email to_name cc_emails bcc_emails is_html attachment
       save_to_sent_items user_id)
    on_exception.

(** ** [list_tools.py] *)

Definition list_calendars_try
    (select : option (list string)) (filter : option string)
    (orderby : option (list string)) (top skip : option Z) (user_id : option string)
    : M Envelope :=
  auth <- authenticated ;;
  if negb auth then ret (failure NOT_AUTHENTICATED) else
  let params := set_joined "$select" select [] in
  let params := set_str "$filter" filter params in
  let params := set_joined "$orderby" orderby params in
  let params := set_given "$top" top PInt params in
  let params := set_given "$skip" skip PInt params in
  let user := or_else user_id "me" in
  let endpoint := "/" ++ user ++ "/calendars" in
  result <- client_get endpoint [("params", or_none params)] ;;
  ret (success result).

Definition list_calendars
    (select : option (list string)) (filter : option string)
    (orderby : option (list string)) (top skip : option Z) (user_id : option string)
    : M Envelope :=
  try_except (list_calendars_try select filter orderby top skip user_id) on_exception.

Definition list_event_attachments_try
    (event_id : string) (select : option (list string)) (filter : option string)
    (orderby : option (list string)) (top skip : option Z) (user_id : option string)
    : M Envelope :=
  auth <- authenticated ;;
  if negb auth then ret (failure NOT_AUTHENTICATED) else
  let params := set_joined "$select" select [] in
  let params := set_str "$filter" filter params in
  let params := set_joined "$orderby" orderby params in
  let params := set_given "$top" top PInt params in
  let params := set_given "$skip" skip PInt params in
  let user := or_else user_id "me" in
  let endpoint := "/" ++ user ++ "/events/" ++ event_id ++ "/attachments" in
  result <- client_get endpoint [("params", or_none params)] ;;
  ret (success result).

Definition list_event_attachments
    (event_id : string) (select : option (list string)) (filter : option string)
    (orderby : option (list string)) (top skip : option Z) (user_id : option string)
    : M Envelope :=
  try_except (list_event_attachments_try event_id select filter orderby top skip user_id)
    on_exception.

Definition list_outlook_attachments_try (message_id : string) (user_id : option string)
    : M Envelope :=
  auth <- authenticated ;;
  if negb auth then ret (failure NOT_AUTHENTICATED) else
  let user := or_else user_id "me" in
  let endpoint := "/" ++ user ++ "/messages/" ++ message_id ++ "/attachments" in
  let params :=
    [kv "$select" (PStr "id,name,contentType,size,isInline,lastModifiedDateTime")] in
  result <- client_get endpoint [("params", PDict params)] ;;
  ret (success result).

Definition list_outlook_attachments (message_id : string) (user_id : option string)
    : M Envelope :=
  try_except (list_outlook_attachments_try message_id user_id) on_exception.

Definition list_reminders_try (startDateTime endDateTime : string) (userId : option string)
    : M Envelope :=
  auth <- authenticated ;;
  if negb auth then ret (failure NOT_AUTHENTICATED) else
  let user := or_else userId "me" in
  let endpoint :=
    "/" ++ user ++ "/reminderView(startDateTime='" ++ startDateTime ++
    "',endDateTime='" ++ endDateTime ++ "')" in
  result <- client_get endpoint [] ;;
  ret (success result).

Definition list_reminders (startDateTime endDateTime : string) (userId : option string)
    : M Envelope :=
  try_except (list_reminders_try startDateTime endDateTime userId) on_exception.

Definition list_contacts_try
    (contact_folder_id filter : option string) (orderby select : option (list string))
    (top : option Z) (user_id : option string) : M Envelope :=
  auth <- authenticated ;;
  if negb auth then ret (failure NOT_AUTHENTICATED) else
  let params := set_str "$filter" filter [] in
  let params := set_joined "$orderby" orderby params in
  let params := set_joined "$select" select params in
  let params := set_given "$top" top PInt params in
  let user := or_else user_id "me" in
  let endpoint :=
    match contact_folder_id with
    | Some folder =>
        if str_truthy folder then "/" ++ user ++ "/contactFolders/" ++ folder ++ "/contacts"
        else "/" ++ user ++ "/contacts"
    | None => "/" ++ user ++ "/contacts"
    end in
  result <- client_get endpoint [("params", or_none params)] ;;
  ret (success result).

Definition list_contacts
    (contact_folder_id filter : option string) (orderby select : option (list string))
    (top : option Z) (user_id : option string) : M Envelope :=
  try_except (list_contacts_try contact_folder_id filter orderby select top user_id)
    on_exception.

Definition list_events_try
    (expand_recurring_events : option bool) (filter : option string)
    (orderby select : option (list string)) (skip : option Z) (timezone : option string)
    (top : option Z) (user_id : option string) : M Envelope :=
  auth <- authenticated ;;
  if negb auth then ret (failure NOT_AUTHENTICATED) else
  let params := set_str "$filter" filter [] in
  let params := set_joined "$orderby" orderby params in
  let params := set_joined "$select" select params in
  let params := set_given "$skip" skip PInt params in
  let params := set_given "$top" top PInt params in
  let user := or_else user_id "me" in
  let endpoint := "/" ++ user ++ "/events" in
  let headers :=
    match timezone with
    | Some tz =>
        if str_truthy tz then
          [kv "Prefer" (PStr ("outlook.timezone=" ++ dquote ++ tz ++ dquote))]
        else []
    | None => []
    end in
  result <- client_get endpoint [("params", or_none params); ("headers", or_none headers)] ;;
  ret (success result).

Definition list_events
    (expand_recurring_events : option bool) (filter : option string)
    (orderby select : option (list string)) (skip : option Z) (timezone : option string)
    (top : option Z) (user_id : option string) : M Envelope :=
  try_except
    (list_events_try expand_recurring_events filter orderby select skip timezone top user_id)
    on_exception.

Definition list_mail_folders_try (include_hidden_folders : option bool)
    (user_id : option string) : M Envelope :=
  auth <- authenticated ;;
  if negb auth then ret (failure NOT_AUTHENTICATED) else
  let params :=
    if opt_bool_truthy include_hidden_folders
    then dict_set (PStr "includeHiddenFolders") (PStr "true") []
    else [] in
  let user := or_else user_id "me" in
  let endpoint := "/" ++ user ++ "/mailFolders" in
  result <- client_get endpoint [("params", or_none params)] ;;
  ret (success result).

Definition list_mail_folders (include_hidden_folders : option bool)
    (user_id : option string) : M Envelope :=
  try_except (list_mail_folders_try include_hidden_folders user_id) on_exception.

(** [filter_parts] of [list_messages] *)
Definition list_messages_filter_parts
    (categories : option (list string)) (conversationId from_address : option string)
    (has_attachments : option bool) (importance : option string) (is_read : option bool)
    (received_date_time_ge received_date_time_gt received_date_time_le
     received_date_time_lt sent_date_time_gt sent_date_time_lt : option string)
    (subject subject_contains subject_endswith subject_startswith : option string)
    : list string :=
  let filter_parts := [] in
  let filter_parts :=
    add_str conversationId (fun x => "conversationId eq '" ++ x ++ "'") filter_parts in
  let filter_parts :=
    add_str from_address (fun x => "from/emailAddress/address eq '" ++ x ++ "'")
      filter_parts in
  let filter_parts :=
    add_given has_attachments (fun b => "hasAttachments eq " ++ lower (str_of_bool b))
      filter_parts in
  let filter_parts :=
    add_str importance (fun x => "importance eq '" ++ x ++ "'") filter_parts in
  let filter_parts :=
    add_given is_read (fun b => "isRead eq " ++ lower (str_of_bool b)) filter_parts in
  let filter_parts :=
    add_str received_date_time_ge (fun x => "receivedDateTime ge " ++ x) filter_parts in
  let filter_parts :=
    add_str received_date_time_gt (fun x => "receivedDateTime gt " ++ x) filter_parts in
  let filter_parts :=
    add_str received_date_time_le (fun x => "receivedDateTime le " ++ x) filter_parts in
  let filter_parts :=
    add_str received_date_time_lt (fun x => "receivedDateTime lt " ++ x) filter_parts in
  let filter_parts :=
    add_str sent_date_time_gt (fun x => "sentDateTime gt " ++ x) filter_parts in
  let filter_parts :=
    add_str sent_date_time_lt (fun x => "sentDateTime lt " ++ x) filter_parts in
  let filter_parts :=
    add_str subject (fun x => "subject eq '" ++ x ++ "'") filter_parts in
  let filter_parts :=
    add_str subject_contains (fun x => "contains(subject, '" ++ x ++ "')") filter_parts in
  let filter_parts :=
    add_str subject_startswith (fun x => "startswith(subject, '" ++ x ++ "')")
      filter_parts in
  let filter_parts :=
    add_str subject_endswith (fun x => "endswith(subject, '" ++ x ++ "')") filter_parts in
  match categories with
  | Some ((_ :: _) as categories) =>
      let cat_filters :=
        map (fun cat => "categories/any(c:c eq '" ++ cat ++ "')") categories in
      (filter_parts ++ cat_filters)%list
  | _ => filter_parts
  end.

Definition list_messages_try
    (folder : option string) (categories : option (list string))
    (conversationId from_address : option string) (has_attachments : option bool)
    (importance : option string) (is_read : option bool) (orderby : option (list string))
    (received_date_time_ge received_date_time_gt received_date_time_le
     received_date_time_lt : option string)
    (select : option (list string)) (sent_date_time_gt sent_date_time_lt : option string)
    (skip : option Z)
    (subject subject_contains subject_endswith subject_startswith : option string)
    (top : option Z) (user_id : option string) : M Envelope :=
  auth <- authenticated ;;
  if negb auth then ret (failure NOT_AUTHENTICATED) else
  let filter_parts :=
    list_messages_filter_parts categories conversationId from_address has_attachments
      importance is_read received_date_time_ge received_date_time_gt
      received_date_time_le received_date_time_lt sent_date_time_gt sent_date_time_lt
      subject subject_contains subject_endswith subject_startswith in
  let params :=
    match filter_parts with
    | [] => []
    | _ => dict_set (PStr "$filter") (PStr (join " and " filter_parts)) []
    end in
  let params := set_joined "$orderby" orderby params in
  let params := set_joined "$select" select params in
  let params := set_given "$skip" skip PInt params in
  let params := set_given "$top" top PInt params in
  let user := or_else user_id "me" in
  let endpoint :=
    match folder with
    | Some folder =>
        if str_truthy folder then "/" ++ user ++ "/mailFolders/" ++ folder ++ "/messages"
        else "/" ++ user ++ "/messages"
    | None => "/" ++ user ++ "/messages"
    end in
  result <- client_get endpoint [("params", or_none params)] ;;
  ret (success result).

Definition list_messages
    (folder : option string) (categories : option (list string))
    (conversationId from_address : option string) (has_attachments : option bool)
    (importance : option string) (is_read : option bool) (orderby : option (list string))
    (received_date_time_ge received_date_time_gt received_date_time_le
     received_date_time_lt : option string)
    (select : option (list string)) (sent_date_time_gt sent_date_time_lt : option string)
    (skip : option Z)
    (subject subject_contains subject_endswith subject_startswith : option string)
    (top : option Z) (user_id : option string) : M Envelope :=
  try_except
    (list_messages_try folder categories conversationId from_address has_attachments
       importance is_read orderby received_date_time_ge received_date_time_gt
       received_date_time_le received_date_time_lt select sent_date_time_gt
       sent_date_time_lt skip subject subject_contains subject_endswith
       subject_startswith top user_id)
    on_exception.

(** ** [attachment_tools.py] *)

Definition NO_CONTENT_BYTES : string :=
  "Attachment does not contain downloadable content (contentBytes). It may be a link or embedded item.".

Definition download_outlook_attachment_try
    (message_id attachment_id file_name : string) (user_id : option string)
    : M Envelope :=
  auth <- authenticated ;;
  if negb auth then ret (failure NOT_AUTHENTICATED) else
  let user := or_else user_id "me" in
  let endpoint :=
    "/" ++ user ++ "/messages/" ++ message_id ++ "/attachments/" ++ attachment_id in
  result <- client_get endpoint [] ;;
  has_content <- lift (py_in "contentBytes" result) ;;
  if negb has_content then ret (failure NO_CONTENT_BYTES) else
  encoded <- lift (py_item result "contentBytes") ;;
  content_bytes <- lift (b64decode R encoded) ;;
  open_write file_name content_bytes ;;;
  content_type <- lift (py_get result "contentType" (PStr "unknown")) ;;
  name <- lift (py_get result "name" (PStr file_name)) ;;
  ret (success (PDict [kv "file_name" (PStr file_name);
                       kv "size" (PInt (Z.of_nat (String.length content_bytes)));
                       kv "content_type" content_type;
                       kv "name" name])).

Definition download_outlook_attachment
    (message_id attachment_id file_name : string) (user_id : option string)
    : M Envelope :=
  try_except (download_outlook_attachment_try message_id attachment_id file_name user_id)
    on_exception.

(** ** [folder_tools.py] *)

Definition create_mail_folder_try (displayName : string) (isHidden : option bool)
    (user_id : option string) : M Envelope :=
  auth <- authenticated ;;
  if negb auth then ret (failure NOT_AUTHENTICATED) else
  let folder_data := [kv "displayName" (PStr displayName)] in
  let folder_data := set_given "isHidden" isHidden PBool folder_data in
  let user := or_else user_id "me" in
  let endpoint := "/" ++ user ++ "/mailFolders" in
  result <- client_post endpoint [("json", PDict folder_data)] ;;
  ret (success result).

Definition create_mail_folder (displayName : string) (isHidden : option bool)
    (user_id : option string) : M Envelope :=
  try_except (create_mail_folder_try displayName isHidden user_id) on_exception.

Definition delete_mail_folder_try (folder_id : string) (user_id : option string)
    : M Envelope :=
  auth <- authenticated ;;
  if negb auth then ret (failure NOT_AUTHENTICATED) else
  let user := or_else user_id "me" in
  let endpoint := "/" ++ user ++ "/mailFolders/" ++ folder_id in
  result <- client_delete endpoint [] ;;
  ret (success (if truthy result then result else PDict [kv "deleted" (PBool true)])).

Definition delete_mail_folder (folder_id : string) (user_id : option string)
    : M Envelope :=
  try_except (delete_mail_folder_try folder_id user_id) on_exception.

(** ** [calendar_tools.py] *)

Definition create_calendar_try (name : string) (color hexColor user_id : option string)
    : M Envelope :=
  auth <- authenticated ;;
  if negb auth then ret (failure NOT_AUTHENTICATED) else
  let calendar_data := [kv "name" (PStr name)] in
  let calendar_data := set_given "color" color PStr calendar_data in
  let calendar_data := set_given "hexColor" hexColor PStr calendar_data in
  let user := or_else user_id "me" in
  let endpoint := "/" ++ user ++ "/calendars" in
  result <- client_post endpoint [("json", PDict calendar_data)] ;;
  ret (success result).

Definition create_calendar (name : string) (color hexColor user_id : option string)
    : M Envelope :=
  try_except (create_calendar_try name color hexColor user_id) on_exception.

(** How [add_event_attachment] settles the content: [file_path], then
    [text_content], then [contentBytes].  [inl] is an envelope returned at
    once, [inr] the value of [final_content_bytes]. *)
Definition event_attachment_content
    (contentBytes file_path text_content : option string)
    : M (Envelope + option string) :=
  match file_path with
  | Some file_path =>
      present <- os_path_exists file_path ;;
      if negb present then ret (inl (failure ("File not found: " ++ file_path))) else
      try_except
        (file_content <- open_read file_path ;;
         ret (inr (Some (b64encode R file_content))))
        (fun file_error =>
           ret (inl (failure ("Error reading file: " ++ exn_msg file_error))))
  | None =>
      match text_content with
      | Some text_content =>
          encoded <- lift (encode_utf8 R text_content) ;;
          ret (inr (Some (b64encode R encoded)))
      | None => ret (inr contentBytes)
      end
  end.

Definition add_event_attachment_try
    (event_id name odata_type : string) (contentBytes file_path text_content : option string)
    (item : option pydict) (user_id : option string) : M Envelope :=
  auth <- authenticated ;;
  if negb auth then ret (failure NOT_AUTHENTICATED) else
  let attachment_data := [kv "@odata.type" (PStr odata_type); kv "name" (PStr name)] in
  content <- event_attachment_content contentBytes file_path text_content ;;
  match content with
  | inl envelope => ret envelope
  | inr final_content_bytes =>
      let attachment_data :=
        set_given "contentBytes" final_content_bytes PStr attachment_data in
      let attachment_data := set_given "item" item PDict attachment_data in
      let user := or_else user_id "me" in
      let endpoint := "/" ++ user ++ "/events/" ++ event_id ++ "/attachments" in
      result <- client_post endpoint [("json", PDict attachment_data)] ;;
      ret (success result)
  end.

Definition add_event_attachment
    (event_id name odata_type : string) (contentBytes file_path text_content : option string)
    (item : option pydict) (user_id : option string) : M Envelope :=
  try_except
    (add_event_attachment_try event_id name odata_type contentBytes file_path text_content
       item user_id)
    on_exception.

Definition create_event_try
    (subject body start_datetime end_datetime time_zone : string)
    (location : option string) (attendees_info : option (list pydict))
    (categories : option (list string)) (is_html is_online_meeting : option bool)
    (online_meeting_provider show_as user_id : option string) : M Envelope :=
  auth <- authenticated ;;
  if negb auth then ret (failure NOT_AUTHENTICATED) else
  let event_data :=
    [kv "subject" (PStr subject);
     kv "body" (PDict [kv "contentType" (PStr (if opt_bool_truthy is_html then "HTML" else "Text"));
                       kv "content" (PStr body)]);
     kv "start" (PDict [kv "dateTime" (PStr start_datetime); kv "timeZone" (PStr time_zone)]);
     kv "end" (PDict [kv "dateTime" (PStr end_datetime); kv "timeZone" (PStr time_zone)])] in
  let event_data :=
    set_given "location" location (fun l => PDict [kv "displayName" (PStr l)]) event_data in
  let event_data := set_given "attendees" attendees_info attendee_entries event_data in
  let event_data := set_given "categories" categories strs event_data in
  let event_data := set_given "isOnlineMeeting" is_online_meeting PBool event_data in
  let event_data :=
    set_given "onlineMeetingProvider" online_meeting_provider PStr event_data in
  let event_data := set_given "showAs" show_as PStr event_data in
  let user := or_else user_id "me" in
  let endpoint := "/" ++ user ++ "/events" in
  result <- client_post endpoint [("json", PDict event_data)] ;;
  ret (success result).

Definition create_event
    (subject body start_datetime end_datetime time_zone : string)
    (location : option string) (attendees_info : option (list pydict))
    (categories : option (list string)) (is_html is_online_meeting : option bool)
    (online_meeting_provider show_as user_id : option string) : M Envelope :=
  try_except
    (create_event_try subject body start_datetime end_datetime time_zone location
       attendees_info categories is_html is_online_meeting online_meeting_provider show_as
       user_id)
    on_exception.

Definition delete_event_try (event_id : string) (send_notifications : option bool)
    (user_id : option string) : M Envelope :=
  auth <- authenticated ;;
  if negb auth then ret (failure NOT_AUTHENTICATED) else
  let user := or_else user_id "me" in
  let endpoint := "/" ++ user ++ "/events/" ++ event_id in
  let headers :=
    match send_notifications with
    | Some false => [kv "Prefer" (PStr "outlook.notification-handling=suppress")]
    | _ => []
    end in
  client_delete endpoint [("headers", or_none headers)] ;;;
  ret (success (PDict [kv "message" (PStr "Event deleted successfully")])).

Definition delete_event (event_id : string) (send_notifications : option bool)
    (user_id : option string) : M Envelope :=
  try_except (delete_event_try event_id send_notifications user_id) on_exception.

Definition get_event_try (event_id : string) (user_id : option string) : M Envelope :=
  auth <- authenticated ;;
  if negb auth then ret (failure NOT_AUTHENTICATED) else
  let user := or_else user_id "me" in
  let endpoint := "/" ++ user ++ "/events/" ++ event_id in
  result <- client_get endpoint [] ;;
  ret (success result).

Definition get_event (event_id : string) (user_id : option string) : M Envelope :=
  try_except (get_event_try event_id user_id) on_exception.

(** [{"dateTime": .., "timeZone": ..}] with the entries that are given;
    [None] when the event's start (or end) is not touched. *)
Definition time_update (datetime time_zone : option string) : option pydict :=
  match datetime, time_zone with
  | None, None => None
  | _, _ => Some (set_given "timeZone" time_zone PStr (set_given "dateTime" datetime PStr []))
  end.

Definition update_calendar_event_try
    (event_id : string) (subject : option string) (body : option pydict)
    (start_datetime end_datetime time_zone : option string) (location : option pydict)
    (attendees : option (list pydict)) (categories : option (list string))
    (show_as user_id : option string) : M Envelope :=
  auth <- authenticated ;;
  if negb auth then ret (failure NOT_AUTHENTICATED) else
  let event_data := set_given "subject" subject PStr [] in
  let event_data := set_given "body" body PDict event_data in
  let event_data := set_given "start" (time_update start_datetime time_zone) PDict event_data in
  let event_data := set_given "end" (time_update end_datetime time_zone) PDict event_data in
  let event_data := set_given "location" location PDict event_data in
  let event_data := set_given "attendees" attendees attendee_entries event_data in
  let event_data := set_given "categories" categories strs event_data in
  let event_data := set_given "showAs" show_as PStr event_data in
  let user := or_else user_id "me" in
  let endpoint := "/" ++ user ++ "/events/" ++ event_id in
  result <- client_patch endpoint [("json", PDict event_data)] ;;
  ret (success result).

Definition update_calendar_event
    (event_id : string) (subject : option string) (body : option pydict)
    (start_datetime end_datetime time_zone : option string) (location : option pydict)
    (attendees : option (list pydict)) (categories : option (list string))
    (show_as user_id : option string) : M Envelope :=
  try_except
    (update_calendar_event_try event_id subject body start_datetime end_datetime time_zone
       location attendees categories show_as user_id)
    on_exception.

Definition get_schedule_try
    (Schedules : list string) (StartTime EndTime : pydict)
    (availabilityViewInterval : option string) : M Envelope :=
  auth <- authenticated ;;
  if negb auth then ret (failure NOT_AUTHENTICATED) else
  let schedule_data :=
    [kv "schedules" (strs Schedules); kv "startTime" (PDict StartTime);
     kv "endTime" (PDict EndTime)] in
  schedule_data <-
    match availabilityViewInterval with
    | Some interval =>
        minutes <- lift (int_of_str R interval) ;;
        ret (dict_set (PStr "availabilityViewInterval") (PInt minutes) schedule_data)
    | None => ret schedule_data
    end ;;
  let endpoint := "/me/calendar/getSchedule" in
  result <- client_post endpoint [("json", PDict schedule_data)] ;;
  ret (success result).

Definition get_schedule
    (Schedules : list string) (StartTime EndTime : pydict)
    (availabilityViewInterval : option string) : M Envelope :=
  try_except (get_schedule_try Schedules StartTime EndTime availabilityViewInterval)
    on_exception.

(** ** [rule_tools.py] *)

Definition create_email_rule_try
    (displayName : string) (conditions actions : pydict) (isEnabled : option bool)
    (sequence : option Z) : M Envelope :=
  auth <- authenticated ;;
  if negb auth then ret (failure NOT_AUTHENTICATED) else
  let rule_data :=
    [kv "displayName" (PStr displayName); kv "conditions" (PDict conditions);
     kv "actions" (PDict actions)] in
  let rule_data := set_given "isEnabled" isEnabled PBool rule_data in
  let rule_data := set_given "sequence" sequence PInt rule_data in
  let endpoint := "/me/mailFolders/inbox/messageRules" in
  result <- client_post endpoint [("json", PDict rule_data)] ;;
  ret (success result).

Definition create_email_rule
    (displayName : string) (conditions actions : pydict) (isEnabled : option bool)
    (sequence : option Z) : M Envelope :=
  try_except (create_email_rule_try displayName conditions actions isEnabled sequence)
    on_exception.

(** ** [category_tools.py] *)

Definition get_master_categories_try
    (select : option (list string)) (filter : option string)
    (orderby : option (list string)) (top skip : option Z) (user_id : option string)
    : M Envelope :=
  auth <- authenticated ;;
  if negb auth then ret (failure NOT_AUTHENTICATED) else
  let params := set_joined "$select" select [] in
  let params := set_str "$filter" filter params in
  let params := set_joined "$orderby" orderby params in
  let params := set_given "$top" top PInt params in
  let params := set_given "$skip" skip PInt params in
  let user := or_else user_id "me" in
  let endpoint := "/" ++ user ++ "/outlook/masterCategories" in
  result <- client_get endpoint [("params", or_none params)] ;;
  ret (success result).

Definition get_master_categories
    (select : option (list string)) (filter : option string)
    (orderby : option (list string)) (top skip : option Z) (user_id : option string)
    : M Envelope :=
  try_except (get_master_categories_try select filter orderby top skip user_id)
    on_exception.

Definition create_master_category_try (displayName : string) (color : option string)
    : M Envelope :=
  auth <- authenticated ;;
  if negb auth then ret (failure NOT_AUTHENTICATED) else
  let category_data := [kv "displayName" (PStr displayName)] in
  let category_data := set_given "color" color PStr category_data in
  let endpoint := "/me/outlook/masterCategories" in
  result <- client_post endpoint [("json", PDict category_data)] ;;
  ret (success result).

Definition create_master_category (displayName : string) (color : option string)
    : M Envelope :=
  try_except (create_master_category_try displayName color) on_exception.

(** ** [profile_tools.py] *)

Definition get_profile_try (user_id : option string) : M Envelope :=
  auth <- authenticated ;;
  if negb auth then ret (failure NOT_AUTHENTICATED) else
  let user := or_else user_id "me" in
  let endpoint := "/" ++ user in
  result <- client_get endpoint [] ;;
  ret (success result).

Definition get_profile (user_id : option string) : M Envelope :=
  try_except (get_profile_try user_id) on_exception.

(** ** [settings_tools.py] *)

Definition get_mailbox_settings_try (select expand : option (list string))
    (user_id : option string) : M Envelope :=
  auth <- authenticated ;;
  if negb auth then ret (failure NOT_AUTHENTICATED) else
  let params := set_joined "$select" select [] in
  let params := set_joined "$expand" expand params in
  let user := or_else user_id "me" in
  let endpoint := "/" ++ user ++ "/mailboxSettings" in
  result <- client_get endpoint [("params", or_none params)] ;;
  ret (success result).

Definition get_mailbox_settings (select expand : option (list string))
    (user_id : option string) : M Envelope :=
  try_except (get_mailbox_settings_try select expand user_id) on_exception.

Definition get_mail_delta_try
    (folder_id : option string) (select expand : option (list string))
    (filter : option string) (orderby : option (list string)) (search : option string)
    (top skip : option Z) (count : option bool) (delta_token skip_token user_id : option string)
    : M Envelope :=
  auth <- authenticated ;;
  if negb auth then ret (failure NOT_AUTHENTICATED) else
  let params := set_joined "$select" select [] in
  let params := set_joined "$expand" expand params in
  let params := set_str "$filter" filter params in
  let params := set_joined "$orderby" orderby params in
  let params := set_str "$search" search params in
  let params := set_given "$top" top PInt params in
  let params := set_given "$skip" skip PInt params in
  let params := set_given "$count" count (fun b => PStr (lower (str_of_bool b))) params in
  let params := set_str "$deltatoken" delta_token params in
  let params := set_str "$skiptoken" skip_token params in
  let user := or_else user_id "me" in
  let folder := or_else folder_id "inbox" in
  let endpoint := "/" ++ user ++ "/mailFolders/" ++ folder ++ "/messages/delta" in
  result <- client_get endpoint [("params", or_none params)] ;;
  ret (success result).

Definition get_mail_delta
    (folder_id : option string) (select expand : option (list string))
    (filter : option string) (orderby : option (list string)) (search : option string)
    (top skip : option Z) (count : option bool) (delta_token skip_token user_id : option string)
    : M Envelope :=
  try_except
    (get_mail_delta_try folder_id select expand filter orderby search top skip count
       delta_token skip_token user_id)
    on_exception.

Definition get_mail_tips_try (EmailAddresses : list string) (MailTipsOptions : string)
    (user_id : option string) : M Envelope :=
  auth <- authenticated ;;
  if negb auth then ret (failure NOT_AUTHENTICATED) else
  let payload :=
    [kv "EmailAddresses" (strs EmailAddresses); kv "MailTipsOptions" (PStr MailTipsOptions)] in
  let user := or_else user_id "me" in
  let endpoint := "/" ++ user ++ "/getMailTips" in
  result <- client_post endpoint [("json", PDict payload)] ;;
  ret (success result).

Definition get_mail_tips (EmailAddresses : list string) (MailTipsOptions : string)
    (user_id : option string) : M Envelope :=
  try_except (get_mail_tips_try EmailAddresses MailTipsOptions user_id) on_exception.

Definition get_supported_languages_try (user_id : option string) : M Envelope :=
  auth <- authenticated ;;
  if negb auth then ret (failure NOT_AUTHENTICATED) else
  let user := or_else user_id "me" in
  let endpoint := "/" ++ user ++ "/outlook/supportedLanguages" in
  result <- client_get endpoint [] ;;
  ret (success result).

Definition get_supported_languages (user_id : option string) : M Envelope :=
  try_except (get_supported_languages_try user_id) on_exception.

Definition get_supported_time_zones_try (timeZoneStandard : option string) : M Envelope :=
  auth <- authenticated ;;
  if negb auth then ret (failure NOT_AUTHENTICATED) else
  let params := set_str "TimeZoneStandard" timeZoneStandard [] in
  let endpoint := "/me/outlook/supportedTimeZones" in
  result <- client_get endpoint [("params", or_none params)] ;;
  ret (success result).

Definition get_supported_time_zones (timeZoneStandard : option string) : M Envelope :=
  try_except (get_supported_time_zones_try timeZoneStandard) on_exception.

Definition update_mailbox_settings_try
    (automaticRepliesSetting language : option pydict) (timeZone : option string)
    (workingHours : option pydict) : M Envelope :=
  auth <- authenticated ;;
  if negb auth then ret (failure NOT_AUTHENTICATED) else
  let settings_data := set_given "automaticRepliesSetting" automaticRepliesSetting PDict [] in
  let settings_data := set_given "language" language PDict settings_data in
  let settings_data := set_given "timeZone" timeZone PStr settings_data in
  let settings_data := set_given "workingHours" workingHours PDict settings_data in
  let endpoint := "/me/mailboxSettings" in
  result <- client_patch endpoint [("json", PDict settings_data)] ;;
  ret (success result).

Definition update_mailbox_settings
    (automaticRepliesSetting language : option pydict) (timeZone : option string)
    (workingHours : option pydict) : M Envelope :=
  try_except
    (update_mailbox_settings_try automaticRepliesSetting language timeZone workingHours)
    on_exception.

(** ** [contact_tools.py] *)

Definition create_contact_try
    (givenName surname displayName : option string)
    (emailAddresses : option (list pydict)) (businessPhones : option (list string))
    (mobilePhone homePhone companyName department jobTitle officeLocation birthday
       : option string)
    (categories : option (list string)) (notes user_id : option string) : M Envelope :=
  auth <- authenticated ;;
  if negb auth then ret (failure NOT_AUTHENTICATED) else
  let contact_data := set_given "givenName" givenName PStr [] in
  let contact_data := set_given "surname" surname PStr contact_data in
  let contact_data := set_given "displayName" displayName PStr contact_data in
  let contact_data := set_given "emailAddresses" emailAddresses dicts contact_data in
  let contact_data := set_given "businessPhones" businessPhones strs contact_data in
  let contact_data := set_given "mobilePhone" mobilePhone PStr contact_data in
  let contact_data :=
    set_given "homePhones" homePhone (fun p => PList [PStr p]) contact_data in
  let contact_data := set_given "companyName" companyName PStr contact_data in
  let contact_data := set_given "department" department PStr contact_data in
  let contact_data := set_given "jobTitle" jobTitle PStr contact_data in
  let contact_data := set_given "officeLocation" officeLocation PStr contact_data in
  let contact_data := set_given "birthday" birthday PStr contact_data in
  let contact_data := set_given "categories" categories strs contact_data in
  let contact_data := set_given "personalNotes" notes PStr contact_data in
  let user := or_else user_id "me" in
  let endpoint := "/" ++ user ++ "/contacts" in
  result <- client_post endpoint [("json", PDict contact_data)] ;;
  ret (success result).

Definition create_contact
    (givenName surname displayName : option string)
    (emailAddresses : option (list pydict)) (businessPhones : option (list string))
    (mobilePhone homePhone companyName department jobTitle officeLocation birthday
       : option string)
    (categories : option (list string)) (notes user_id : option string) : M Envelope :=
  try_except
    (create_contact_try givenName surname displayName emailAddresses businessPhones
       mobilePhone homePhone companyName department jobTitle officeLocation birthday
       categories notes user_id)
    on_exception.

Definition get_contact_try (contact_id : string) (user_id : option string) : M Envelope :=
  auth <- authenticated ;;
  if negb auth then ret (failure NOT_AUTHENTICATED) else
  let user := or_else user_id "me" in
  let endpoint := "/" ++ user ++ "/contacts/" ++ contact_id in
  result <- client_get endpoint [] ;;
  ret (success result).

Definition get_contact (contact_id : string) (user_id : option string) : M Envelope :=
  try_except (get_contact_try contact_id user_id) on_exception.

Definition get_contact_folders_try
    (select : option (list string)) (filter : option string)
    (orderby : option (list string)) (top skip : option Z) (expand : option (list string))
    (user_id : option string) : M Envelope :=
  auth <- authenticated ;;
  if negb auth then ret (failure NOT_AUTHENTICATED) else
  let params := set_joined "$select" select [] in
  let params := set_str "$filter" filter params in
  let params := set_joined "$orderby" orderby params in
  let params := set_given "$top" top PInt params in
  let params := set_given "$skip" skip PInt params in
  let params := set_joined "$expand" expand params in
  let user := or_else user_id "me" in
  let endpoint := "/" ++ user ++ "/contactFolders" in
  result <- client_get endpoint [("params", or_none params)] ;;
  ret (success result).

Definition get_contact_folders
    (select : option (list string)) (filter : option string)
    (orderby : option (list string)) (top skip : option Z) (expand : option (list string))
    (user_id : option string) : M Envelope :=
  try_except (get_contact_folders_try select filter orderby top skip expand user_id)
    on_exception.

Definition delete_contact_try (contact_id : string) (user_id : option string)
    : M Envelope :=
  auth <- authenticated ;;
  if negb auth then ret (failure NOT_AUTHENTICATED) else
  let user := or_else user_id "me" in
  let endpoint := "/" ++ user ++ "/contacts/" ++ contact_id in
  client_delete endpoint [] ;;;
  ret (success (PDict [kv "message" (PStr "Contact deleted successfully")])).

Definition delete_contact (contact_id : string) (user_id : option string) : M Envelope :=
  try_except (delete_contact_try contact_id user_id) on_exception.

Definition update_contact_try
    (contact_id : string) (givenName surname displayName : option string)
    (emailAddresses : option (list pydict)) (businessPhones : option (list string))
    (mobilePhone : option string) (homePhones : option (list string))
    (companyName department jobTitle officeLocation birthday : option string)
    (categories : option (list string)) (notes user_id : option string) : M Envelope :=
  auth <- authenticated ;;
  if negb auth then ret (failure NOT_AUTHENTICATED) else
  let contact_data := set_given "givenName" givenName PStr [] in
  let contact_data := set_given "surname" surname PStr contact_data in
  let contact_data := set_given "displayName" displayName PStr contact_data in
  let contact_data := set_given "emailAddresses" emailAddresses dicts contact_data in
  let contact_data := set_given "businessPhones" businessPhones strs contact_data in
  let contact_data := set_given "mobilePhone" mobilePhone PStr contact_data in
  let contact_data := set_given "homePhones" homePhones strs contact_data in
  let contact_data := set_given "companyName" companyName PStr contact_data in
  let contact_data := set_given "department" department PStr contact_data in
  let contact_data := set_given "jobTitle" jobTitle PStr contact_data in
  let contact_data := set_given "officeLocation" officeLocation PStr contact_data in
  let contact_data := set_given "birthday" birthday PStr contact_data in
  let contact_data := set_given "categories" categories strs contact_data in
  let contact_data := set_given "personalNotes" notes PStr contact_data in
  let user := or_else user_id "me" in
  let endpoint := "/" ++ user ++ "/contacts/" ++ contact_id in
  result <- client_patch endpoint [("json", PDict contact_data)] ;;
  ret (success result).

Definition update_contact
    (contact_id : string) (givenName surname displayName : option string)
    (emailAddresses : option (list pydict)) (businessPhones : option (list string))
    (mobilePhone : option string) (homePhones : option (list string))
    (companyName department jobTitle officeLocation birthday : option string)
    (categories : option (list string)) (notes user_id : option string) : M Envelope :=
  try_except
    (update_contact_try contact_id givenName surname displayName emailAddresses
       businessPhones mobilePhone homePhones companyName department jobTitle officeLocation
       birthday categories notes user_id)
    on_exception.

Definition create_contact_folder_try (displayName : string)
    (parentFolderId user_id : option string) : M Envelope :=
  auth <- authenticated ;;
  if negb auth then ret (failure NOT_AUTHENTICATED) else
  let folder_data := [kv "displayName" (PStr displayName)] in
  let folder_data := set_given "parentFolderId" parentFolderId PStr folder_data in
  let user := or_else user_id "me" in
  let endpoint := "/" ++ user ++ "/contactFolders" in
  result <- client_post endpoint [("json", PDict folder_data)] ;;
  ret (success result).

Definition create_contact_folder (displayName : string)
    (parentFolderId user_id : option string) : M Envelope :=
  try_except (create_contact_folder_try displayName parentFolderId user_id) on_exception.

(** ** All tool functions

    A call of a tool function: which one, and its arguments other than
    [client]. *)
Inductive tool_call : Type :=
| Call_add_mail_attachment (message_id name odata_type contentBytes : string)
    (contentId contentLocation contentType : option string) (isInline : option bool)
    (item : option pydict) (user_id : option string)
| Call_create_draft (subject body : string) (to_recipients : list string)
    (cc_recipients bcc_recipients : option (list string)) (is_html : option bool)
    (conversation_id : option string) (attachment : option pydict)
| Call_create_draft_reply (message_id : string) (comment : option string)
    (cc_emails bcc_emails : option (list string)) (user_id : option string)
| Call_get_message (message_id : string) (select user_id : option string)
| Call_move_message (message_id destination_id : string) (user_id : option string)
| Call_reply_email (message_id comment : string)
    (cc_emails bcc_emails : option (list string)) (user_id : option string)
| Call_search_messages (query : string) (fromEmail subject : option string)
    (hasAttachments : option bool) (from_index size : option Z)
    (enable_top_results : option bool)
| Call_update_email (message_id : string) (subject : option string)
    (body : option pyval)
    (to_recipients cc_recipients bcc_recipients : option (list string))
    (importance user_id : option string)
| Call_send_email (subject body to_email : string) (to_name : option string)
    (cc_emails bcc_emails : option (list string)) (is_html : option bool)
    (attachment : option pydict) (save_to_sent_items : option bool)
    (user_id : option string)
| Call_list_calendars (select : option (list string)) (filter : option string)
    (orderby : option (list string)) (top skip : option Z) (user_id : option string)
| Call_list_event_attachments (event_id : string) (select : option (list string))
    (filter : option string) (orderby : option (list string)) (top skip : option Z)
    (user_id : option string)
| Call_list_outlook_attachments (message_id : string) (user_id : option string)
| Call_list_reminders (startDateTime endDateTime : string) (userId : option string)
| Call_list_contacts (contact_folder_id filter : option string)
    (orderby select : option (list string)) (top : option Z) (user_id : option string)
| Call_list_events (expand_recurring_events : option bool) (filter : option string)
    (orderby select : option (list string)) (skip : option Z) (timezone : option string)
    (top : option Z) (user_id : option string)
| Call_list_mail_folders (include_hidden_folders : option bool)
    (user_id : option string)
| Call_list_messages (folder : option string) (categories : option (list string))
    (conversationId from_address : option string) (has_attachments : option bool)
    (importance : option string) (is_read : option bool)
    (orderby : option (list string))
    (received_date_time_ge received_date_time_gt received_date_time_le received_date_time_lt : option string)
    (select : option (list string))
    (sent_date_time_gt sent_date_time_lt : option string) (skip : option Z)
    (subject subject_contains subject_endswith subject_startswith : option string)
    (top : option Z) (user_id : option string)
| Call_download_outlook_attachment (message_id attachment_id file_name : string)
    (user_id : option string)
| Call_create_mail_folder (displayName : string) (isHidden : option bool)
    (user_id : option string)
| Call_delete_mail_folder (folder_id : string) (user_id : option string)
| Call_create_calendar (name : string) (color hexColor user_id : option string)
| Call_add_event_attachment (event_id name odata_type : string)
    (contentBytes file_path text_content : option string) (item : option pydict)
    (user_id : option string)
| Call_create_event (subject body start_datetime end_datetime time_zone : string)
    (location : option string) (attendees_info : option (list pydict))
    (categories : option (list string)) (is_html is_online_meeting : option bool)
    (online_meeting_provider show_as user_id : option string)
| Call_delete_event (event_id : string) (send_notifications : option bool)
    (user_id : option string)
| Call_get_event (event_id : string) (user_id : option string)
| Call_update_calendar_event (event_id : string) (subject : option string)
    (body : option pydict) (start_datetime end_datetime time_zone : option string)
    (location : option pydict) (attendees : option (list pydict))
    (categories : option (list string)) (show_as user_id : option string)
| Call_get_schedule (Schedules : list string) (StartTime EndTime : pydict)
    (availabilityViewInterval : option string)
| Call_create_email_rule (displayName : string) (conditions actions : pydict)
    (isEnabled : option bool) (sequence : option Z)
| Call_get_master_categories (select : option (list string)) (filter : option string)
    (orderby : option (list string)) (top skip : option Z) (user_id : option string)
| Call_create_master_category (displayName : string) (color : option string)
| Call_get_profile (user_id : option string)
| Call_get_mailbox_settings (select expand : option (list string))
    (user_id : option string)
| Call_get_mail_delta (folder_id : option string) (select expand : option (list string))
    (filter : option string) (orderby : option (list string)) (search : option string)
    (top skip : option Z) (count : option bool)
    (delta_token skip_token user_id : option string)
| Call_get_mail_tips (EmailAddresses : list string) (MailTipsOptions : string)
    (user_id : option string)
| Call_get_supported_languages (user_id : option string)
| Call_get_supported_time_zones (timeZoneStandard : option string)
| Call_update_mailbox_settings (automaticRepliesSetting language : option pydict)
    (timeZone : option string) (workingHours : option pydict)
| Call_create_contact (givenName surname displayName : option string)
    (emailAddresses : option (list pydict)) (businessPhones : option (list string))
    (mobilePhone homePhone companyName department jobTitle officeLocation birthday : option string)
    (categories : option (list string)) (notes user_id : option string)
| Call_get_contact (contact_id : string) (user_id : option string)
| Call_get_contact_folders (select : option (list string)) (filter : option string)
    (orderby : option (list string)) (top skip : option Z)
    (expand : option (list string)) (user_id : option string)
| Call_delete_contact (contact_id : string) (user_id : option string)
| Call_update_contact (contact_id : string)
    (givenName surname displayName : option string)
    (emailAddresses : option (list pydict)) (businessPhones : option (list string))
    (mobilePhone : option string) (homePhones : option (list string))
    (companyName department jobTitle officeLocation birthday : option string)
    (categories : option (list string)) (notes user_id : option string)
| Call_create_contact_folder (displayName : string)
    (parentFolderId user_id : option string).

(** The [try] block of the tool function. *)
Definition tool_try (tc : tool_call) : M Envelope :=
  match tc with
  | Call_add_mail_attachment a0 a1 a2 a3 a4 a5 a6 a7 a8 a9 =>
      add_mail_attachment_try a0 a1 a2 a3 a4 a5 a6 a7 a8 a9
  | Call_create_draft a0 a1 a2 a3 a4 a5 a6 a7 =>
      create_draft_try a0 a1 a2 a3 a4 a5 a6 a7
  | Call_create_draft_reply a0 a1 a2 a3 a4 =>
      create_draft_reply_try a0 a1 a2 a3 a4
  | Call_get_message a0 a1 a2 =>
      get_message_try a0 a1 a2
  | Call_move_message a0 a1 a2 =>
      move_message_try a0 a1 a2
  | Call_reply_email a0 a1 a2 a3 a4 =>
      reply_email_try a0 a1 a2 a3 a4
  | Call_search_messages a0 a1 a2 a3 a4 a5 a6 =>
      search_messages_try a0 a1 a2 a3 a4 a5 a6
  | Call_update_email a0 a1 a2 a3 a4 a5 a6 a7 =>
      update_email_try a0 a1 a2 a3 a4 a5 a6 a7
  | Call_send_email a0 a1 a2 a3 a4 a5 a6 a7 a8 a9 =>
      send_email_try a0 a1 a2 a3 a4 a5 a6 a7 a8 a9
  | Call_list_calendars a0 a1 a2 a3 a4 a5 =>
      list_calendars_try a0 a1 a2 a3 a4 a5
  | Call_list_event_attachments a0 a1 a2 a3 a4 a5 a6 =>
      list_event_attachments_try a0 a1 a2 a3 a4 a5 a6
  | Call_list_outlook_attachments a0 a1 =>
      list_outlook_attachments_try a0 a1
  | Call_list_reminders a0 a1 a2 =>
      list_reminders_try a0 a1 a2
  | Call_list_contacts a0 a1 a2 a3 a4 a5 =>
      list_contacts_try a0 a1 a2 a3 a4 a5
  | Call_list_events a0 a1 a2 a3 a4 a5 a6 a7 =>
      list_events_try a0 a1 a2 a3 a4 a5 a6 a7
  | Call_list_mail_folders a0 a1 =>
      list_mail_folders_try a0 a1
  | Call_list_messages a0 a1 a2 a3 a4 a5 a6 a7 a8 a9 a10 a11 a12 a13 a14 a15 a16 a17 a18
      a19 a20 a21 =>
      list_messages_try a0 a1 a2 a3 a4 a5 a6 a7 a8 a9 a10 a11 a12 a13 a14 a15 a16 a17
        a18 a19 a20 a21
  | Call_download_outlook_attachment a0 a1 a2 a3 =>
      download_outlook_attachment_try a0 a1 a2 a3
  | Call_create_mail_folder a0 a1 a2 =>
      create_mail_folder_try a0 a1 a2
  | Call_delete_mail_folder a0 a1 =>
      delete_mail_folder_try a0 a1
  | Call_create_calendar a0 a1 a2 a3 =>
      create_calendar_try a0 a1 a2 a3
  | Call_add_event_attachment a0 a1 a2 a3 a4 a5 a6 a7 =>
      add_event_attachment_try a0 a1 a2 a3 a4 a5 a6 a7
  | Call_create_event a0 a1 a2 a3 a4 a5 a6 a7 a8 a9 a10 a11 a12 =>
      create_event_try a0 a1 a2 a3 a4 a5 a6 a7 a8 a9 a10 a11 a12
  | Call_delete_event a0 a1 a2 =>
      delete_event_try a0 a1 a2
  | Call_get_event a0 a1 =>
      get_event_try a0 a1
  | Call_update_calendar_event a0 a1 a2 a3 a4 a5 a6 a7 a8 a9 a10 =>
      update_calendar_event_try a0 a1 a2 a3 a4 a5 a6 a7 a8 a9 a10
  | Call_get_schedule a0 a1 a2 a3 =>
      get_schedule_try a0 a1 a2 a3
  | Call_create_email_rule a0 a1 a2 a3 a4 =>
      create_email_rule_try a0 a1 a2 a3 a4
  | Call_get_master_categories a0 a1 a2 a3 a4 a5 =>
      get_master_categories_try a0 a1 a2 a3 a4 a5
  | Call_create_master_category a0 a1 =>
      create_master_category_try a0 a1
  | Call_get_profile a0 =>
      get_profile_try a0
  | Call_get_mailbox_settings a0 a1 a2 =>
      get_mailbox_settings_try a0 a1 a2
  | Call_get_mail_delta a0 a1 a2 a3 a4 a5 a6 a7 a8 a9 a10 a11 =>
      get_mail_delta_try a0 a1 a2 a3 a4 a5 a6 a7 a8 a9 a10 a11
  | Call_get_mail_tips a0 a1 a2 =>
      get_mail_tips_try a0 a1 a2
  | Call_get_supported_languages a0 =>
      get_supported_languages_try a0
  | Call_get_supported_time_zones a0 =>
      get_supported_time_zones_try a0
  | Call_update_mailbox_settings a0 a1 a2 a3 =>
      update_mailbox_settings_try a0 a1 a2 a3
  | Call_create_contact a0 a1 a2 a3 a4 a5 a6 a7 a8 a9 a10 a11 a12 a13 a14 =>
      create_contact_try a0 a1 a2 a3 a4 a5 a6 a7 a8 a9 a10 a11 a12 a13 a14
  | Call_get_contact a0 a1 =>
      get_contact_try a0 a1
  | Call_get_contact_folders a0 a1 a2 a3 a4 a5 a6 =>
      get_contact_folders_try a0 a1 a2 a3 a4 a5 a6
  | Call_delete_contact a0 a1 =>
      delete_contact_try a0 a1
  | Call_update_contact a0 a1 a2 a3 a4 a5 a6 a7 a8 a9 a10 a11 a12 a13 a14 a15 =>
      update_contact_try a0 a1 a2 a3 a4 a5 a6 a7 a8 a9 a10 a11 a12 a13 a14 a15
  | Call_create_contact_folder a0 a1 a2 =>
      create_contact_folder_try a0 a1 a2
  end.

(** Its [except] clause. *)
Definition tool_except (tc : tool_call) : exn -> M Envelope :=
  match tc with
  | Call_update_email _ _ _ _ _ _ _ _ => update_email_except
  | _ => on_exception
  end.

(** The tool function, called. *)
Definition run_tool (tc : tool_call) : M Envelope :=
  match tc with
  | Call_add_mail_attachment a0 a1 a2 a3 a4 a5 a6 a7 a8 a9 =>
      add_mail_attachment a0 a1 a2 a3 a4 a5 a6 a7 a8 a9
  | Call_create_draft a0 a1 a2 a3 a4 a5 a6 a7 =>
      create_draft a0 a1 a2 a3 a4 a5 a6 a7
  | Call_create_draft_reply a0 a1 a2 a3 a4 =>
      create_draft_reply a0 a1 a2 a3 a4
  | Call_get_message a0 a1 a2 =>
      get_message a0 a1 a2
  | Call_move_message a0 a1 a2 =>
      move_message a0 a1 a2
  | Call_reply_email a0 a1 a2 a3 a4 =>
      reply_email a0 a1 a2 a3 a4
  | Call_search_messages a0 a1 a2 a3 a4 a5 a6 =>
      search_messages a0 a1 a2 a3 a4 a5 a6
  | Call_update_email a0 a1 a2 a3 a4 a5 a6 a7 =>
      update_email a0 a1 a2 a3 a4 a5 a6 a7
  | Call_send_email a0 a1 a2 a3 a4 a5 a6 a7 a8 a9 =>
      send_email a0 a1 a2 a3 a4 a5 a6 a7 a8 a9
  | Call_list_calendars a0 a1 a2 a3 a4 a5 =>
      list_calendars a0 a1 a2 a3 a4 a5
  | Call_list_event_attachments a0 a1 a2 a3 a4 a5 a6 =>
      list_event_attachments a0 a1 a2 a3 a4 a5 a6
  | Call_list_outlook_attachments a0 a1 =>
      list_outlook_attachments a0 a1
  | Call_list_reminders a0 a1 a2 =>
      list_reminders a0 a1 a2
  | Call_list_contacts a0 a1 a2 a3 a4 a5 =>
      list_contacts a0 a1 a2 a3 a4 a5
  | Call_list_events a0 a1 a2 a3 a4 a5 a6 a7 =>
      list_events a0 a1 a2 a3 a4 a5 a6 a7
  | Call_list_mail_folders a0 a1 =>
      list_mail_folders a0 a1
  | Call_list_messages a0 a1 a2 a3 a4 a5 a6 a7 a8 a9 a10 a11 a12 a13 a14 a15 a16 a17 a18
      a19 a20 a21 =>
      list_messages a0 a1 a2 a3 a4 a5 a6 a7 a8 a9 a10 a11 a12 a13 a14 a15 a16 a17 a18
        a19 a20 a21
  | Call_download_outlook_attachment a0 a1 a2 a3 =>
      download_outlook_attachment a0 a1 a2 a3
  | Call_create_mail_folder a0 a1 a2 =>
      create_mail_folder a0 a1 a2
  | Call_delete_mail_folder a0 a1 =>
      delete_mail_folder a0 a1
  | Call_create_calendar a0 a1 a2 a3 =>
      create_calendar a0 a1 a2 a3
  | Call_add_event_attachment a0 a1 a2 a3 a4 a5 a6 a7 =>
      add_event_attachment a0 a1 a2 a3 a4 a5 a6 a7
  | Call_create_event a0 a1 a2 a3 a4 a5 a6 a7 a8 a9 a10 a11 a12 =>
      create_event a0 a1 a2 a3 a4 a5 a6 a7 a8 a9 a10 a11 a12
  | Call_delete_event a0 a1 a2 =>
      delete_event a0 a1 a2
  | Call_get_event a0 a1 =>
      get_event a0 a1
  | Call_update_calendar_event a0 a1 a2 a3 a4 a5 a6 a7 a8 a9 a10 =>
      update_calendar_event a0 a1 a2 a3 a4 a5 a6 a7 a8 a9 a10
  | Call_get_schedule a0 a1 a2 a3 =>
      get_schedule a0 a1 a2 a3
  | Call_create_email_rule a0 a1 a2 a3 a4 =>
      create_email_rule a0 a1 a2 a3 a4
  | Call_get_master_categories a0 a1 a2 a3 a4 a5 =>
      get_master_categories a0 a1 a2 a3 a4 a5
  | Call_create_master_category a0 a1 =>
      create_master_category a0 a1
  | Call_get_profile a0 =>
      get_profile a0
  | Call_get_mailbox_settings a0 a1 a2 =>
      get_mailbox_settings a0 a1 a2
  | Call_get_mail_delta a0 a1 a2 a3 a4 a5 a6 a7 a8 a9 a10 a11 =>
      get_mail_delta a0 a1 a2 a3 a4 a5 a6 a7 a8 a9 a10 a11
  | Call_get_mail_tips a0 a1 a2 =>
      get_mail_tips a0 a1 a2
  | Call_get_supported_languages a0 =>
      get_supported_languages a0
  | Call_get_supported_time_zones a0 =>
      get_supported_time_zones a0
  | Call_update_mailbox_settings a0 a1 a2 a3 =>
      update_mailbox_settings a0 a1 a2 a3
  | Call_create_contact a0 a1 a2 a3 a4 a5 a6 a7 a8 a9 a10 a11 a12 a13 a14 =>
      create_contact a0 a1 a2 a3 a4 a5 a6 a7 a8 a9 a10 a11 a12 a13 a14
  | Call_get_contact a0 a1 =>
      get_contact a0 a1
  | Call_get_contact_folders a0 a1 a2 a3 a4 a5 a6 =>
      get_contact_folders a0 a1 a2 a3 a4 a5 a6
  | Call_delete_contact a0 a1 =>
      delete_contact a0 a1
  | Call_update_contact a0 a1 a2 a3 a4 a5 a6 a7 a8 a9 a10 a11 a12 a13 a14 a15 =>
      update_contact a0 a1 a2 a3 a4 a5 a6 a7 a8 a9 a10 a11 a12 a13 a14 a15
  | Call_create_contact_folder a0 a1 a2 =>
      create_contact_folder a0 a1 a2
  end.

(** Its name, as [tools/__init__.py] exports it. *)
Definition tool_name (tc : tool_call) : string :=
  match tc with
  | Call_add_mail_attachment _ _ _ _ _ _ _ _ _ _ => "add_mail_attachment"
  | Call_create_draft _ _ _ _ _ _ _ _ => "create_draft"
  | Call_create_draft_reply _ _ _ _ _ => "create_draft_reply"
  | Call_get_message _ _ _ => "get_message"
  | Call_move_message _ _ _ => "move_message"
  | Call_reply_email _ _ _ _ _ => "reply_email"
  | Call_search_messages _ _ _ _ _ _ _ => "search_messages"
  | Call_update_email _ _ _ _ _ _ _ _ => "update_email"
  | Call_send_email _ _ _ _ _ _ _ _ _ _ => "send_email"
  | Call_list_calendars _ _ _ _ _ _ => "list_calendars"
  | Call_list_event_attachments _ _ _ _ _ _ _ => "list_event_attachments"
  | Call_list_outlook_attachments _ _ => "list_outlook_attachments"
  | Call_list_reminders _ _ _ => "list_reminders"
  | Call_list_contacts _ _ _ _ _ _ => "list_contacts"
  | Call_list_events _ _ _ _ _ _ _ _ => "list_events"
  | Call_list_mail_folders _ _ => "list_mail_folders"
  | Call_list_messages _ _ _ _ _ _ _ _ _ _ _ _ _ _ _ _ _ _ _ _ _ _ => "list_messages"
  | Call_download_outlook_attachment _ _ _ _ => "download_outlook_attachment"
  | Call_create_mail_folder _ _ _ => "create_mail_folder"
  | Call_delete_mail_folder _ _ => "delete_mail_folder"
  | Call_create_calendar _ _ _ _ => "create_calendar"
  | Call_add_event_attachment _ _ _ _ _ _ _ _ => "add_event_attachment"
  | Call_create_event _ _ _ _ _ _ _ _ _ _ _ _ _ => "create_event"
  | Call_delete_event _ _ _ => "delete_event"
  | Call_get_event _ _ => "get_event"
  | Call_update_calendar_event _ _ _ _ _ _ _ _ _ _ _ => "update_calendar_event"
  | Call_get_schedule _ _ _ _ => "get_schedule"
  | Call_create_email_rule _ _ _ _ _ => "create_email_rule"
  | Call_get_master_categories _ _ _ _ _ _ => "get_master_categories"
  | Call_create_master_category _ _ => "create_master_category"
  | Call_get_profile _ => "get_profile"
  | Call_get_mailbox_settings _ _ _ => "get_mailbox_settings"
  | Call_get_mail_delta _ _ _ _ _ _ _ _ _ _ _ _ => "get_mail_delta"
  | Call_get_mail_tips _ _ _ => "get_mail_tips"
  | Call_get_supported_languages _ => "get_supported_languages"
  | Call_get_supported_time_zones _ => "get_supported_time_zones"
  | Call_update_mailbox_settings _ _ _ _ => "update_mailbox_settings"
  | Call_create_contact _ _ _ _ _ _ _ _ _ _ _ _ _ _ _ => "create_contact"
  | Call_get_contact _ _ => "get_contact"
  | Call_get_contact_folders _ _ _ _ _ _ _ => "get_contact_folders"
  | Call_delete_contact _ _ => "delete_contact"
  | Call_update_contact _ _ _ _ _ _ _ _ _ _ _ _ _ _ _ _ => "update_contact"
  | Call_create_contact_folder _ _ _ => "create_contact_folder"
  end.

(** ** Statements about a call *)

(** Every value that [m] returns satisfies [P]. *)
Definition returns {A} (P : A -> Prop) (m : M A) : Prop :=
  forall st a st', m st = (Ok a, st') -> P a.

(** [m] only adds requests, and each request it adds satisfies [P]. *)
Definition traced {A} (P : Call -> Prop) (m : M A) : Prop :=
  forall st, exists l, calls (snd (m st)) = (calls st ++ l)%list /\ Forall P l.

End WithRuntime.

Arguments returns {R A} P m.
Arguments traced {R A} P m.

(** ** What a request carries for a parameter *)

(** The requests made between two states. *)
Definition new_calls {R : Runtime} (before after : State R) : list Call :=
  skipn (List.length (calls R before)) (calls R after).

Inductive place : Type := InJson | InParams | InHeaders.

(** The [json=], [params=] or [headers=] argument of a call; [None] when
    the call has no such argument. *)
Definition argument (c : Call) (p : place) : pyval :=
  let name := match p with
              | InJson => "json"
              | InParams => "params"
              | InHeaders => "headers"
              end in
  match kw_find name (call_kwargs c) with Some v => v | None => PNone end.

(** The values under key [k] of a dict, or of the dicts of a list. *)
Definition at_key (k : string) (v : pyval) : list pyval :=
  let of_dict (d : pydict) :=
    match dict_find (PStr k) d with Some x => [x] | None => [] end in
  match v with
  | PDict d => of_dict d
  | PList l => flat_map (fun x => match x with PDict d => of_dict d | _ => [] end) l
  | _ => []
  end.

(** The values at the end of a path of keys; none when the path is absent. *)
Fixpoint reach (path : list string) (v : pyval) : list pyval :=
  match path with
  | [] => [v]
  | k :: path' => flat_map (reach path') (at_key k v)
  end.

(** Whether an optional parameter was given a value. *)
Definition given {A} (o : option A) : bool :=
  match o with Some _ => true | None => false end.

(** When an entry of a request may be written: whatever the optional
    parameters are; only when one of some optional parameters is given; or
    always, with a fallback value when its optional parameter is not
    given.  A parameter comes as its name and whether it is given. *)
Inductive presence : Type :=
| Always
| Given (params : list (string * bool))
| Fallback (param : string * bool).

Definition written (p : presence) : bool :=
  match p with
  | Always | Fallback _ => true
  | Given params => existsb snd params
  end.

Definition is_fallback (p : presence) : bool :=
  match p with Fallback _ => true | _ => false end.


(** What a [json=], [params=] or [headers=] argument may be: any value;
    [None]; [None] or a value of another shape; a dict all of whose keys
    are among some fields, each with its presence and the shape of its
    value; a list of items of one shape; or clauses joined by a separator,
    each of which begins with one of some heads. *)
Inductive shape : Type :=
| Anything
| Nothing
| NoneOr (s : shape)
| Keys (fields : list (string * presence * shape))
| Each (item : shape)
| Clauses (sep : string) (heads : list (string * presence)).

(** [s] begins with [head]. *)
Fixpoint begins (head s : string) : bool :=
  match head with
  | EmptyString => true
  | String c head' =>
      match s with
      | EmptyString => false
      | String c' s' => Ascii.eqb c c' && begins head' s'
      end
  end.

(** A clause begins with one of the heads, and every head it begins with
    may be written. *)
Definition clause_ok (heads : list (string * presence)) (part : string) : bool :=
  existsb (fun h => begins (fst h) part) heads
  && forallb (fun h => implb (begins (fst h) part) (written (snd h))) heads.

Section Entry.
Variable fits : shape -> pyval -> Prop.

(** The entry is one of the fields: its key is the field's, the field may
    be written, its value has the field's shape and, for a field with a
    fallback, is not [None]. *)
Fixpoint entry_ok (fields : list (string * presence * shape)) (e : pyval * pyval) : Prop :=
  match fields with
  | [] => False
  | (key, p, s) :: rest =>
      (fst e = PStr key
       /\ written p = true
       /\ (is_fallback p = true -> snd e <> PNone)
       /\ fits s (snd e))
      \/ entry_ok rest e
  end.

End Entry.

Fixpoint fits (s : shape) (v : pyval) : Prop :=
  match s with
  | Anything => True
  | Nothing => v = PNone
  | NoneOr s' => v = PNone \/ fits s' v
  | Keys fields => exists d, v = PDict d /\ Forall (entry_ok fits fields) d
  | Each s' => exists l, v = PList l /\ Forall (fits s') l
  | Clauses sep heads =>
      exists parts, v = PStr (join sep parts) /\ forallb (clause_ok heads) parts = true
  end.








(** The shape of one request of a tool function: when it may be made, and
    what its three arguments may be. *)
Record request_shape : Type := {
  rs_when : presence;
  rs_json : shape;
  rs_params : shape;
  rs_headers : shape
}.

Definition shape_at (s : request_shape) (p : place) : shape :=
  match p with
  | InJson => rs_json s
  | InParams => rs_params s
  | InHeaders => rs_headers s
  end.



(** The requests of each tool function, from [src/tools/*.py]: every key
    the function can write, with the optional parameters it is written
    for. *)
Definition request_shapes (tc : tool_call) : list request_shape :=
  match tc with
  | Call_add_mail_attachment _ _ _ _ contentId contentLocation contentType isInline item _ =>
      [ {| rs_when := Always;
           rs_json := Keys [("@odata.type", Always, Anything);
                            ("name", Always, Anything);
                            ("contentBytes", Always, Anything);
                            ("contentId", Given [("contentId", given contentId)], Anything);
                            ("contentLocation", Given [("contentLocation", given contentLocation)], Anything);
                            ("contentType", Given [("contentType", given contentType)], Anything);
                            ("isInline", Given [("isInline", given isInline)], Anything);
                            ("item", Given [("item", given item)], Anything)];
           rs_params := Nothing;
           rs_headers := Nothing |} ]
  | Call_create_draft _ _ _ cc_recipients bcc_recipients is_html conversation_id attachment =>
      [ {| rs_when := Always;
           rs_json := Keys [("subject", Always, Anything);
                            ("body", Always, Keys [("contentType", Fallback ("is_html", given is_html), Anything);
                                    ("content", Always, Anything)]);
                            ("toRecipients", Always, Anything);
                            ("ccRecipients", Given [("cc_recipients", given cc_recipients)], Anything);
                            ("bccRecipients", Given [("bcc_recipients", given bcc_recipients)], Anything);
                            ("conversationId", Given [("conversation_id", given conversation_id)], Anything)];
           rs_params := Nothing;
           rs_headers := Nothing |}
      ; {| rs_when := Given [("attachment", given attachment)];
           rs_json := Keys [("@odata.type", Always, Anything);
                            ("name", Given [("attachment", given attachment)], Anything);
                            ("contentType", Given [("attachment", given attachment)], Anything);
                            ("contentBytes", Given [("attachment", given attachment)], Anything)];
           rs_params := Nothing;
           rs_headers := Nothing |} ]
  | Call_create_draft_reply _ comment cc_emails bcc_emails _ =>
      [ {| rs_when := Always;
           rs_json := NoneOr (Keys [("comment", Given [("comment", given comment)], Anything);
                            ("message", Given [("cc_emails", given cc_emails); ("bcc_emails", given bcc_emails)], Keys [("ccRecipients", Given [("cc_emails", given cc_emails)], Anything);
                                    ("bccRecipients", Given [("bcc_emails", given bcc_emails)], Anything)])]);
           rs_params := Nothing;
           rs_headers := Nothing |} ]
  | Call_get_message _ select _ =>
      [ {| rs_when := Always;
           rs_json := Nothing;
           rs_params := NoneOr (Keys [("$select", Given [("select", given select)], Anything)]);
           rs_headers := Nothing |} ]
  | Call_move_message _ _ _ =>
      [ {| rs_when := Always;
           rs_json := Keys [("destinationId", Always, Anything)];
           rs_params := Nothing;
           rs_headers := Nothing |} ]
  | Call_reply_email _ _ cc_emails bcc_emails _ =>
      [ {| rs_when := Always;
           rs_json := Keys [("comment", Always, Anything);
                            ("message", Given [("cc_emails", given cc_emails); ("bcc_emails", given bcc_emails)], Keys [("ccRecipients", Given [("cc_emails", given cc_emails)], Anything);
                                    ("bccRecipients", Given [("bcc_emails", given bcc_emails)], Anything)])];
           rs_params := Nothing;
           rs_headers := Nothing |} ]
  | Call_search_messages _ fromEmail subject hasAttachments from_index size _ =>
      [ {| rs_when := Always;
           rs_json := Nothing;
           rs_params := NoneOr (Keys [("$filter", Always, Clauses " and " [("(contains(subject, '", Always);
                                         ("contains(subject, '", Given [("subject", given subject)]);
                                         ("from/emailAddress/address eq '", Given [("fromEmail", given fromEmail)]);
                                         ("hasAttachments eq ", Given [("hasAttachments", given hasAttachments)])]);
                              ("$top", Given [("size", given size)], Anything);
                              ("$skip", Given [("from_index", given from_index)], Anything)]);
           rs_headers := Nothing |} ]
  | Call_update_email _ subject body to_recipients cc_recipients bcc_recipients importance _ =>
      [ {| rs_when := Always;
           rs_json := Nothing;
           rs_params := Nothing;
           rs_headers := Nothing |}
      ; {| rs_when := Always;
           rs_json := Keys [("subject", Given [("subject", given subject)], Anything);
                            ("body", Given [("body", given body)], Anything);
                            ("toRecipients", Given [("to_recipients", given to_recipients)], Anything);
                            ("ccRecipients", Given [("cc_recipients", given cc_recipients)], Anything);
                            ("bccRecipients", Given [("bcc_recipients", given bcc_recipients)], Anything);
                            ("importance", Given [("importance", given importance)], Anything)];
           rs_params := Nothing;
           rs_headers := Nothing |} ]
  | Call_send_email _ _ _ to_name cc_emails bcc_emails is_html attachment save_to_sent_items _ =>
      [ {| rs_when := Always;
           rs_json := Keys [("message", Always, Keys [("subject", Always, Anything);
                                    ("body", Always, Keys [("contentType", Fallback ("is_html", given is_html), Anything);
                                            ("content", Always, Anything)]);
                                    ("toRecipients", Always, Each (Keys [("emailAddress", Always, Keys [("address", Always, Anything);
                                                    ("name", Fallback ("to_name", given to_name), Anything)])]));
                                    ("ccRecipients", Given [("cc_emails", given cc_emails)], Anything);
                                    ("bccRecipients", Given [("bcc_emails", given bcc_emails)], Anything);
                                    ("attachments", Given [("attachment", given attachment)], Anything)]);
                            ("saveToSentItems", Given [("save_to_sent_items", given save_to_sent_items)], Anything)];
           rs_params := Nothing;
           rs_headers := Nothing |} ]
  | Call_list_calendars select filter orderby top skip _ =>
      [ {| rs_when := Always;
           rs_json := Nothing;
           rs_params := NoneOr (Keys [("$select", Given [("select", given select)], Anything);
                              ("$filter", Given [("filter", given filter)], Anything);
                              ("$orderby", Given [("orderby", given orderby)], Anything);
                              ("$top", Given [("top", given top)], Anything);
                              ("$skip", Given [("skip", given skip)], Anything)]);
           rs_headers := Nothing |} ]
  | Call_list_event_attachments _ select filter orderby top skip _ =>
      [ {| rs_when := Always;
           rs_json := Nothing;
           rs_params := NoneOr (Keys [("$select", Given [("select", given select)], Anything);
                              ("$filter", Given [("filter", given filter)], Anything);
                              ("$orderby", Given [("orderby", given orderby)], Anything);
                              ("$top", Given [("top", given top)], Anything);
                              ("$skip", Given [("skip", given skip)], Anything)]);
           rs_headers := Nothing |} ]
  | Call_list_outlook_attachments _ _ =>
      [ {| rs_when := Always;
           rs_json := Nothing;
           rs_params := Keys [("$select", Always, Anything)];
           rs_headers := Nothing |} ]
  | Call_list_reminders _ _ _ =>
      [ {| rs_when := Always;
           rs_json := Nothing;
           rs_params := Nothing;
           rs_headers := Nothing |} ]
  | Call_list_contacts _ filter orderby select top _ =>
      [ {| rs_when := Always;
           rs_json := Nothing;
           rs_params := NoneOr (Keys [("$filter", Given [("filter", given filter)], Anything);
                              ("$orderby", Given [("orderby", given orderby)], Anything);
                              ("$select", Given [("select", given select)], Anything);
                              ("$top", Given [("top", given top)], Anything)]);
           rs_headers := Nothing |} ]
  | Call_list_events _ filter orderby select skip timezone top _ =>
      [ {| rs_when := Always;
           rs_json := Nothing;
           rs_params := NoneOr (Keys [("$filter", Given [("filter", given filter)], Anything);
                              ("$orderby", Given [("orderby", given orderby)], Anything);
                              ("$select", Given [("select", given select)], Anything);
                              ("$skip", Given [("skip", given skip)], Anything);
                              ("$top", Given [("top", given top)], Anything)]);
           rs_headers := NoneOr (Keys [("Prefer", Given [("timezone", given timezone)], Anything)]) |} ]
  | Call_list_mail_folders include_hidden_folders _ =>
      [ {| rs_when := Always;
           rs_json := Nothing;
           rs_params := NoneOr (Keys [("includeHiddenFolders", Given [("include_hidden_folders", given include_hidden_folders)], Anything)]);
           rs_headers := Nothing |} ]
  | Call_list_messages _ categories conversationId from_address has_attachments importance is_read orderby received_date_time_ge received_date_time_gt received_date_time_le received_date_time_lt select sent_date_time_gt sent_date_time_lt skip subject subject_contains subject_endswith subject_startswith top _ =>
      [ {| rs_when := Always;
           rs_json := Nothing;
           rs_params := NoneOr (Keys [("$filter", Given [("conversationId", given conversationId); ("from_address", given from_address); ("has_attachments", given has_attachments); ("importance", given importance); ("is_read", given is_read); ("received_date_time_ge", given received_date_time_ge); ("received_date_time_gt", given received_date_time_gt); ("received_date_time_le", given received_date_time_le); ("received_date_time_lt", given received_date_time_lt); ("sent_date_time_gt", given sent_date_time_gt); ("sent_date_time_lt", given sent_date_time_lt); ("subject", given subject); ("subject_contains", given subject_contains); ("subject_startswith", given subject_startswith); ("subject_endswith", given subject_endswith); ("categories", given categories)], Clauses " and " [("conversationId eq '", Given [("conversationId", given conversationId)]);
                                         ("from/emailAddress/address eq '", Given [("from_address", given from_address)]);
                                         ("hasAttachments eq ", Given [("has_attachments", given has_attachments)]);
                                         ("importance eq '", Given [("importance", given importance)]);
                                         ("isRead eq ", Given [("is_read", given is_read)]);
                                         ("receivedDateTime ge ", Given [("received_date_time_ge", given received_date_time_ge)]);
                                         ("receivedDateTime gt ", Given [("received_date_time_gt", given received_date_time_gt)]);
                                         ("receivedDateTime le ", Given [("received_date_time_le", given received_date_time_le)]);
                                         ("receivedDateTime lt ", Given [("received_date_time_lt", given received_date_time_lt)]);
                                         ("sentDateTime gt ", Given [("sent_date_time_gt", given sent_date_time_gt)]);
                                         ("sentDateTime lt ", Given [("sent_date_time_lt", given sent_date_time_lt)]);
                                         ("subject eq '", Given [("subject", given subject)]);
                                         ("contains(subject, '", Given [("subject_contains", given subject_contains)]);
                                         ("startswith(subject, '", Given [("subject_startswith", given subject_startswith)]);
                                         ("endswith(subject, '", Given [("subject_endswith", given subject_endswith)]);
                                         ("categories/any(c:c eq '", Given [("categories", given categories)])]);
                              ("$orderby", Given [("orderby", given orderby)], Anything);
                              ("$select", Given [("select", given select)], Anything);
                              ("$skip", Given [("skip", given skip)], Anything);
                              ("$top", Given [("top", given top)], Anything)]);
           rs_headers := Nothing |} ]
  | Call_download_outlook_attachment _ _ _ _ =>
      [ {| rs_when := Always;
           rs_json := Nothing;
           rs_params := Nothing;
           rs_headers := Nothing |} ]
  | Call_create_mail_folder _ isHidden _ =>
      [ {| rs_when := Always;
           rs_json := Keys [("displayName", Always, Anything);
                            ("isHidden", Given [("isHidden", given isHidden)], Anything)];
           rs_params := Nothing;
           rs_headers := Nothing |} ]
  | Call_delete_mail_folder _ _ =>
      [ {| rs_when := Always;
           rs_json := Nothing;
           rs_params := Nothing;
           rs_headers := Nothing |} ]
  | Call_create_calendar _ color hexColor _ =>
      [ {| rs_when := Always;
           rs_json := Keys [("name", Always, Anything);
                            ("color", Given [("color", given color)], Anything);
                            ("hexColor", Given [("hexColor", given hexColor)], Anything)];
           rs_params := Nothing;
           rs_headers := Nothing |} ]
  | Call_add_event_attachment _ _ _ contentBytes file_path text_content item _ =>
      [ {| rs_when := Always;
           rs_json := Keys [("@odata.type", Always, Anything);
                            ("name", Always, Anything);
                            ("contentBytes", Given [("contentBytes", given contentBytes); ("file_path", given file_path); ("text_content", given text_content)], Anything);
                            ("item", Given [("item", given item)], Anything)];
           rs_params := Nothing;
           rs_headers := Nothing |} ]
  | Call_create_event _ _ _ _ _ location attendees_info categories is_html is_online_meeting online_meeting_provider show_as _ =>
      [ {| rs_when := Always;
           rs_json := Keys [("subject", Always, Anything);
                            ("body", Always, Keys [("contentType", Fallback ("is_html", given is_html), Anything);
                                    ("content", Always, Anything)]);
                            ("start", Always, Anything);
                            ("end", Always, Anything);
                            ("location", Given [("location", given location)], Anything);
                            ("attendees", Given [("attendees_info", given attendees_info)], Anything);
                            ("categories", Given [("categories", given categories)], Anything);
                            ("isOnlineMeeting", Given [("is_online_meeting", given is_online_meeting)], Anything);
                            ("onlineMeetingProvider", Given [("online_meeting_provider", given online_meeting_provider)], Anything);
                            ("showAs", Given [("show_as", given show_as)], Anything)];
           rs_params := Nothing;
           rs_headers := Nothing |} ]
  | Call_delete_event _ send_notifications _ =>
      [ {| rs_when := Always;
           rs_json := Nothing;
           rs_params := Nothing;
           rs_headers := NoneOr (Keys [("Prefer", Given [("send_notifications", given send_notifications)], Anything)]) |} ]
  | Call_get_event _ _ =>
      [ {| rs_when := Always;
           rs_json := Nothing;
           rs_params := Nothing;
           rs_headers := Nothing |} ]
  | Call_update_calendar_event _ subject body start_datetime end_datetime time_zone location attendees categories show_as _ =>
      [ {| rs_when := Always;
           rs_json := Keys [("subject", Given [("subject", given subject)], Anything);
                            ("body", Given [("body", given body)], Anything);
                            ("start", Given [("start_datetime", given start_datetime); ("time_zone", given time_zone)], Keys [("dateTime", Given [("start_datetime", given start_datetime)], Anything);
                                    ("timeZone", Given [("time_zone", given time_zone)], Anything)]);
                            ("end", Given [("end_datetime", given end_datetime); ("time_zone", given time_zone)], Keys [("dateTime", Given [("end_datetime", given end_datetime)], Anything);
                                    ("timeZone", Given [("time_zone", given time_zone)], Anything)]);
                            ("location", Given [("location", given location)], Anything);
                            ("attendees", Given [("attendees", given attendees)], Anything);
                            ("categories", Given [("categories", given categories)], Anything);
                            ("showAs", Given [("show_as", given show_as)], Anything)];
           rs_params := Nothing;
           rs_headers := Nothing |} ]
  | Call_get_schedule _ _ _ availabilityViewInterval =>
      [ {| rs_when := Always;
           rs_json := Keys [("schedules", Always, Anything);
                            ("startTime", Always, Anything);
                            ("endTime", Always, Anything);
                            ("availabilityViewInterval", Given [("availabilityViewInterval", given availabilityViewInterval)], Anything)];
           rs_params := Nothing;
           rs_headers := Nothing |} ]
  | Call_create_email_rule _ _ _ isEnabled sequence =>
      [ {| rs_when := Always;
           rs_json := Keys [("displayName", Always, Anything);
                            ("conditions", Always, Anything);
                            ("actions", Always, Anything);
                            ("isEnabled", Given [("isEnabled", given isEnabled)], Anything);
                            ("sequence", Given [("sequence", given sequence)], Anything)];
           rs_params := Nothing;
           rs_headers := Nothing |} ]
  | Call_get_master_categories select filter orderby top skip _ =>
      [ {| rs_when := Always;
           rs_json := Nothing;
           rs_params := NoneOr (Keys [("$select", Given [("select", given select)], Anything);
                              ("$filter", Given [("filter", given filter)], Anything);
                              ("$orderby", Given [("orderby", given orderby)], Anything);
                              ("$top", Given [("top", given top)], Anything);
                              ("$skip", Given [("skip", given skip)], Anything)]);
           rs_headers := Nothing |} ]
  | Call_create_master_category _ color =>
      [ {| rs_when := Always;
           rs_json := Keys [("displayName", Always, Anything);
                            ("color", Given [("color", given color)], Anything)];
           rs_params := Nothing;
           rs_headers := Nothing |} ]
  | Call_get_profile _ =>
      [ {| rs_when := Always;
           rs_json := Nothing;
           rs_params := Nothing;
           rs_headers := Nothing |} ]
  | Call_get_mailbox_settings select expand _ =>
      [ {| rs_when := Always;
           rs_json := Nothing;
           rs_params := NoneOr (Keys [("$select", Given [("select", given select)], Anything);
                              ("$expand", Given [("expand", given expand)], Anything)]);
           rs_headers := Nothing |} ]
  | Call_get_mail_delta _ select expand filter orderby search top skip count delta_token skip_token _ =>
      [ {| rs_when := Always;
           rs_json := Nothing;
           rs_params := NoneOr (Keys [("$select", Given [("select", given select)], Anything);
                              ("$expand", Given [("expand", given expand)], Anything);
                              ("$filter", Given [("filter", given filter)], Anything);
                              ("$orderby", Given [("orderby", given orderby)], Anything);
                              ("$search", Given [("search", given search)], Anything);
                              ("$top", Given [("top", given top)], Anything);
                              ("$skip", Given [("skip", given skip)], Anything);
                              ("$count", Given [("count", given count)], Anything);
                              ("$deltatoken", Given [("delta_token", given delta_token)], Anything);
                              ("$skiptoken", Given [("skip_token", given skip_token)], Anything)]);
           rs_headers := Nothing |} ]
  | Call_get_mail_tips _ _ _ =>
      [ {| rs_when := Always;
           rs_json := Keys [("EmailAddresses", Always, Anything);
                            ("MailTipsOptions", Always, Anything)];
           rs_params := Nothing;
           rs_headers := Nothing |} ]
  | Call_get_supported_languages _ =>
      [ {| rs_when := Always;
           rs_json := Nothing;
           rs_params := Nothing;
           rs_headers := Nothing |} ]
  | Call_get_supported_time_zones timeZoneStandard =>
      [ {| rs_when := Always;
           rs_json := Nothing;
           rs_params := NoneOr (Keys [("TimeZoneStandard", Given [("timeZoneStandard", given timeZoneStandard)], Anything)]);
           rs_headers := Nothing |} ]
  | Call_update_mailbox_settings automaticRepliesSetting language timeZone workingHours =>
      [ {| rs_when := Always;
           rs_json := Keys [("automaticRepliesSetting", Given [("automaticRepliesSetting", given automaticRepliesSetting)], Anything);
                            ("language", Given [("language", given language)], Anything);
                            ("timeZone", Given [("timeZone", given timeZone)], Anything);
                            ("workingHours", Given [("workingHours", given workingHours)], Anything)];
           rs_params := Nothing;
           rs_headers := Nothing |} ]
  | Call_create_contact givenName surname displayName emailAddresses businessPhones mobilePhone homePhone companyName department jobTitle officeLocation birthday categories notes _ =>
      [ {| rs_when := Always;
           rs_json := Keys [("givenName", Given [("givenName", given givenName)], Anything);
                            ("surname", Given [("surname", given surname)], Anything);
                            ("displayName", Given [("displayName", given displayName)], Anything);
                            ("emailAddresses", Given [("emailAddresses", given emailAddresses)], Anything);
                            ("businessPhones", Given [("businessPhones", given businessPhones)], Anything);
                            ("mobilePhone", Given [("mobilePhone", given mobilePhone)], Anything);
                            ("homePhones", Given [("homePhone", given homePhone)], Anything);
                            ("companyName", Given [("companyName", given companyName)], Anything);
                            ("department", Given [("department", given department)], Anything);
                            ("jobTitle", Given [("jobTitle", given jobTitle)], Anything);
                            ("officeLocation", Given [("officeLocation", given officeLocation)], Anything);
                            ("birthday", Given [("birthday", given birthday)], Anything);
                            ("categories", Given [("categories", given categories)], Anything);
                            ("personalNotes", Given [("notes", given notes)], Anything)];
           rs_params := Nothing;
           rs_headers := Nothing |} ]
  | Call_get_contact _ _ =>
      [ {| rs_when := Always;
           rs_json := Nothing;
           rs_params := Nothing;
           rs_headers := Nothing |} ]
  | Call_get_contact_folders select filter orderby top skip expand _ =>
      [ {| rs_when := Always;
           rs_json := Nothing;
           rs_params := NoneOr (Keys [("$select", Given [("select", given select)], Anything);
                              ("$filter", Given [("filter", given filter)], Anything);
                              ("$orderby", Given [("orderby", given orderby)], Anything);
                              ("$top", Given [("top", given top)], Anything);
                              ("$skip", Given [("skip", given skip)], Anything);
                              ("$expand", Given [("expand", given expand)], Anything)]);
           rs_headers := Nothing |} ]
  | Call_delete_contact _ _ =>
      [ {| rs_when := Always;
           rs_json := Nothing;
           rs_params := Nothing;
           rs_headers := Nothing |} ]
  | Call_update_contact _ givenName surname displayName emailAddresses businessPhones mobilePhone homePhones companyName department jobTitle officeLocation birthday categories notes _ =>
      [ {| rs_when := Always;
           rs_json := Keys [("givenName", Given [("givenName", given givenName)], Anything);
                            ("surname", Given [("surname", given surname)], Anything);
                            ("displayName", Given [("displayName", given displayName)], Anything);
                            ("emailAddresses", Given [("emailAddresses", given emailAddresses)], Anything);
                            ("businessPhones", Given [("businessPhones", given businessPhones)], Anything);
                            ("mobilePhone", Given [("mobilePhone", given mobilePhone)], Anything);
                            ("homePhones", Given [("homePhones", given homePhones)], Anything);
                            ("companyName", Given [("companyName", given companyName)], Anything);
                            ("department", Given [("department", given department)], Anything);
                            ("jobTitle", Given [("jobTitle", given jobTitle)], Anything);
                            ("officeLocation", Given [("officeLocation", given officeLocation)], Anything);
                            ("birthday", Given [("birthday", given birthday)], Anything);
                            ("categories", Given [("categories", given categories)], Anything);
                            ("personalNotes", Given [("notes", given notes)], Anything)];
           rs_params := Nothing;
           rs_headers := Nothing |} ]
  | Call_create_contact_folder _ parentFolderId _ =>
      [ {| rs_when := Always;
           rs_json := Keys [("displayName", Always, Anything);
                            ("parentFolderId", Given [("parentFolderId", given parentFolderId)], Anything)];
           rs_params := Nothing;
           rs_headers := Nothing |} ]
  end.

(** ** Envelopes *)

(** An envelope as a [try] block builds it: a success without an error
    entry, or a failure with empty data and an error text that is not
    empty. *)
Definition well_formed (e : Envelope) : Prop :=
  (successful e = true /\ error e = None)
  \/ (successful e = false /\ data e = PDict []
      /\ exists msg, error e = Some msg /\ msg <> EmptyString).

(** The text [update_email] puts before the text of some exceptions. *)
Definition UPDATE_PREFIX : string :=
  "Cannot update this message. Only draft messages can be updated. Error: ".

(** ** The scenario of [send_email] *)

Definition SENT : pyval := PDict [kv "message" (PStr "Email sent successfully")].


End Tools.

(* ================================================================== *)
(** * The manifest dispatcher ([src/main.py]) *)
(* ================================================================== *)

Module Dispatch.
Import Graph.
Local Open Scope py_scope.
Local Open Scope string_scope.

(** The server process: [state["client"]], when set, and the world. *)
Record Process : Type := {
  state_client : option OutlookClient;
  world : World
}.

(** What a function can be given: data, or the client object of [state]. *)
Inductive arg : Type :=
| Data (v : pyval)
| ClientObject.

(** [inspect.Parameter]: the name, and the default unless it is
    [inspect._empty]. *)
Record param : Type := {
  p_name : string;
  p_default : option pyval
}.

(** A Python function: its metadata, its signature and what a call does
    once the arguments are bound to the parameters. *)
Record pyfunc (Ret : Type) : Type := {
  f_name : string;
  f_doc : option string;
  f_annotations : list (string * string);
  f_params : list param;
  f_body : list (string * arg) -> SE Process Ret
}.
Arguments f_name {Ret} _.
Arguments f_doc {Ret} _.
Arguments f_annotations {Ret} _.
Arguments f_params {Ret} _.
Arguments f_body {Ret} _ _.

Fixpoint lookup {A} (k : string) (l : list (string * A)) : option A :=
  match l with
  | [] => None
  | (k', v) :: rest => if (k' =? k) then Some v else lookup k rest
  end.

Definition names_of {A} (l : list (string * A)) : list string := map fst l.

Definition mem (k : string) (l : list string) : bool := existsb (String.eqb k) l.

(** ** Calling a function *)

(** The leading parameters take the positional arguments. *)
Fixpoint bind_positional (fname : string) (params : list param) (pos : list arg)
    : result (list (string * arg) * list param) :=
  match pos, params with
  | [], _ => Ok ([], params)
  | a :: pos', p :: params' =>
      match bind_positional fname params' pos' with
      | Ok (bound, rest) => Ok ((p_name p, a) :: bound, rest)
      | Raise e => Raise e
      end
  | _ :: _, [] =>
      Raise (Exn "TypeError" (fname ++ "() takes fewer positional arguments than were given"))
  end.

(** Every keyword names a parameter that has no value yet. *)
Fixpoint check_keywords (fname : string) (taken open : list string)
    (kw : list (string * arg)) : result unit :=
  match kw with
  | [] => Ok tt
  | (k, _) :: kw' =>
      if mem k taken then
        Raise (Exn "TypeError" (fname ++ "() got multiple values for argument '" ++ k ++ "'"))
      else if negb (mem k open) then
        Raise (Exn "TypeError" (fname ++ "() got an unexpected keyword argument '" ++ k ++ "'"))
      else check_keywords fname taken open kw'
  end.

(** The remaining parameters take their keyword argument or their default. *)
Fixpoint fill (fname : string) (params : list param) (kw : list (string * arg))
    : result (list (string * arg)) :=
  match params with
  | [] => Ok []
  | p :: params' =>
      let value :=
        match lookup (p_name p) kw with
        | Some a => Some a
        | None => match p_default p with Some d => Some (Data d) | None => None end
        end in
      match value with
      | None =>
          Raise (Exn "TypeError"
                   (fname ++ "() missing 1 required positional argument: '" ++ p_name p ++ "'"))
      | Some a =>
          match fill fname params' kw with
          | Ok bound => Ok ((p_name p, a) :: bound)
          | Raise e => Raise e
          end
      end
  end.

(** The local variables of a call with positional arguments [pos] and
    keyword arguments [kw], in parameter order. *)
Definition bind_arguments (fname : string) (params : list param)
    (pos : list arg) (kw : list (string * arg)) : result (list (string * arg)) :=
  match bind_positional fname params pos with
  | Raise e => Raise e
  | Ok (bound, rest) =>
      match check_keywords fname (names_of bound) (map p_name rest) kw with
      | Raise e => Raise e
      | Ok _ =>
          match fill fname rest kw with
          | Ok filled => Ok (bound ++ filled)%list
          | Raise e => Raise e
          end
      end
  end.

Definition call {Ret} (f : pyfunc Ret) (pos : list arg) (kw : list (string * arg))
    : SE Process Ret :=
  match bind_arguments (f_name f) (f_params f) pos kw with
  | Ok locals => f_body f locals
  | Raise e => raise e
  end.

Section Server.
Variable env : Env.
(** [repr] of a default value, and the value Python gives the expression
    after the [=] of a parameter when it executes a [def]. *)
Variable py_repr : pyval -> string.
Variable py_eval : string -> result pyval.

(** [get_client()]: the client object of [state], built at the first call. *)
Definition get_client : SE Process arg :=
  fun p =>
    match state_client p with
    | Some _ => (Ok ClientObject, p)
    | None =>
        match new_client env (world p) with
        | (Raise e, w) => (Raise e, {| state_client := None; world := w |})
        | (Ok self, w) =>
            if negb (is_authenticated self) then
              match authenticate_interactive env (self, w) with
              | (Ok _, (self, w)) => (Ok ClientObject, {| state_client := Some self; world := w |})
              | (Raise e, (self, w)) => (Raise e, {| state_client := Some self; world := w |})
              end
            else (Ok ClientObject, {| state_client := Some self; world := w |})
        end
    end.

(** ** [create_dynamic_wrapper] *)

(** ["name"] or ["name=repr(default)"] *)
Definition decl_part (p : param) : string :=
  match p_default p with
  | None => p_name p
  | Some d => p_name p ++ "=" ++ py_repr d
  end.

(** [f'{n!r}: {n}'] for a parameter name *)
Definition kwargs_entry (n : string) : string := "'" ++ n ++ "': " ++ n.

Definition newline : string := String (ascii_of_nat 10) EmptyString.

(** The text that is executed. *)
Definition wrapper_source (decl_parts names : list string) : string :=
  "def wrapper(" ++ join ", " decl_parts ++ "):" ++ newline ++
  "    kwargs = {" ++ join ", " (map kwargs_entry names) ++ "}" ++ newline ++
  "    client = __get_client()" ++ newline ++
  "    return __func(client=client, **kwargs)" ++ newline.

(** The text before the first [=] of a declaration, and the text after it. *)
Fixpoint split_decl (part : string) : string * option string :=
  match part with
  | EmptyString => (EmptyString, None)
  | String c rest =>
      if Ascii.eqb c "=" then (EmptyString, Some rest)
      else let '(name, expr) := split_decl rest in (String c name, expr)
  end.

(** Python reading one declaration of the [def] back. *)
Definition read_decl (part : string) : result param :=
  match split_decl part with
  | (name, None) => Ok {| p_name := name; p_default := None |}
  | (name, Some expr) =>
      match py_eval expr with
      | Ok d => Ok {| p_name := name; p_default := Some d |}
      | Raise e => Raise e
      end
  end.

Fixpoint read_decls (parts : list string) : result (list param) :=
  match parts with
  | [] => Ok []
  | part :: rest =>
      match read_decl part with
      | Raise e => Raise e
      | Ok p =>
          match read_decls rest with
          | Ok ps => Ok (p :: ps)
          | Raise e => Raise e
          end
      end
  end.

(** No parameter without a default after one with a default. *)
Fixpoint defaults_last (params : list param) : bool :=
  match params with
  | [] => true
  | p :: rest =>
      match p_default p with
      | Some _ => forallb (fun q => match p_default q with Some _ => true | None => false end) rest
      | None => defaults_last rest
      end
  end.

Fixpoint distinct (names : list string) : bool :=
  match names with
  | [] => true
  | n :: rest => negb (mem n rest) && distinct rest
  end.

(** The parameters of the function that [exec] defines from the
    declarations, or the [SyntaxError] of the [def]. *)
Definition exec_def (decl_parts : list string) : result (list param) :=
  match read_decls decl_parts with
  | Raise e => Raise e
  | Ok params =>
      if negb (distinct (map p_name params)) then
        Raise (Exn "SyntaxError" "duplicate argument in function definition")
      else if negb (defaults_last params) then
        Raise (Exn "SyntaxError" "non-default argument follows default argument")
      else Ok params
  end.

(** [{'n1': n1, ...}] read from the local variables. *)
Fixpoint collect_kwargs (names : list string) (locals : list (string * arg))
    : result (list (string * arg)) :=
  match names with
  | [] => Ok []
  | n :: rest =>
      match lookup n locals with
      | None => Raise (Exn "NameError" ("name '" ++ n ++ "' is not defined"))
      | Some a =>
          match collect_kwargs rest locals with
          | Ok kw => Ok ((n, a) :: kw)
          | Raise e => Raise e
          end
      end
  end.

Definition create_dynamic_wrapper {Ret} (func : pyfunc Ret)
    (description tool_id : option string) : result (pyfunc Ret) :=
  let params := filter (fun p => negb (p_name p =? "client")) (f_params func) in
  let decl_parts := map decl_part params in
  let names := map p_name params in
  match exec_def decl_parts with
  | Raise e => Raise e
  | Ok wrapper_params =>
      Ok {| f_name := match tool_id with
                      | Some id => if str_truthy id then id else f_name func
                      | None => f_name func
                      end;
            f_doc := match description with
                     | Some d => if str_truthy d then Some d else f_doc func
                     | None => f_doc func
                     end;
            f_annotations :=
              filter (fun a => negb (fst a =? "client")) (f_annotations func);
            f_params := wrapper_params;
            f_body := fun locals =>
              kwargs <- lift (collect_kwargs names locals) ;;
              client <- get_client ;;
              call func [] (("client", client) :: kwargs) |}
  end.

End Server.

(** ** The signatures of the tool functions

    Parameter names in order, as [inspect.signature] reports them; every
    default in [src/tools/*.py] is [None]. *)
Definition required (name : string) : param := {| p_name := name; p_default := None |}.
Definition optional (name : string) : param := {| p_name := name; p_default := Some PNone |}.

Definition tool_signatures : list (string * list param) :=
  [ ("add_mail_attachment",
     [required "client"; required "message_id"; required "name"; required "odata_type";
       required "contentBytes"; optional "contentId"; optional "contentLocation";
       optional "contentType"; optional "isInline"; optional "item"; optional "user_id"])
  ; ("create_draft",
     [required "client"; required "subject"; required "body"; required "to_recipients";
       optional "cc_recipients"; optional "bcc_recipients"; optional "is_html";
       optional "conversation_id"; optional "attachment"])
  ; ("create_draft_reply",
     [required "client"; required "message_id"; optional "comment";
       optional "cc_emails"; optional "bcc_emails"; optional "user_id"])
  ; ("get_message",
     [required "client"; required "message_id"; optional "select"; optional "user_id"])
  ; ("move_message",
     [required "client"; required "message_id"; required "destination_id";
       optional "user_id"])
  ; ("reply_email",
     [required "client"; required "message_id"; required "comment";
       optional "cc_emails"; optional "bcc_emails"; optional "user_id"])
  ; ("search_messages",
     [required "client"; required "query"; optional "fromEmail"; optional "subject";
       optional "hasAttachments"; optional "from_index"; optional "size";
       optional "enable_top_results"])
  ; ("send_email",
     [required "client"; required "subject"; required "body"; required "to_email";
       optional "to_name"; optional "cc_emails"; optional "bcc_emails";
       optional "is_html"; optional "attachment"; optional "save_to_sent_items";
       optional "user_id"])
  ; ("update_email",
     [required "client"; required "message_id"; optional "subject"; optional "body";
       optional "to_recipients"; optional "cc_recipients"; optional "bcc_recipients";
       optional "importance"; optional "user_id"])
  ; ("add_event_attachment",
     [required "client"; required "event_id"; required "name"; required "odata_type";
       optional "contentBytes"; optional "file_path"; optional "text_content";
       optional "item"; optional "user_id"])
  ; ("create_calendar",
     [required "client"; required "name"; optional "color"; optional "hexColor";
       optional "user_id"])
  ; ("create_event",
     [required "client"; required "subject"; required "body";
       required "start_datetime"; required "end_datetime"; required "time_zone";
       optional "location"; optional "attendees_info"; optional "categories";
       optional "is_html"; optional "is_online_meeting";
       optional "online_meeting_provider"; optional "show_as"; optional "user_id"])
  ; ("delete_event",
     [required "client"; required "event_id"; optional "send_notifications";
       optional "user_id"])
  ; ("get_event",
     [required "client"; required "event_id"; optional "user_id"])
  ; ("get_schedule",
     [required "client"; required "Schedules"; required "StartTime";
       required "EndTime"; optional "availabilityViewInterval"])
  ; ("update_calendar_event",
     [required "client"; required "event_id"; optional "subject"; optional "body";
       optional "start_datetime"; optional "end_datetime"; optional "time_zone";
       optional "location"; optional "attendees"; optional "categories";
       optional "show_as"; optional "user_id"])
  ; ("create_contact",
     [required "client"; optional "givenName"; optional "surname";
       optional "displayName"; optional "emailAddresses"; optional "businessPhones";
       optional "mobilePhone"; optional "homePhone"; optional "companyName";
       optional "department"; optional "jobTitle"; optional "officeLocation";
       optional "birthday"; optional "categories"; optional "notes"; optional "user_id"])
  ; ("create_contact_folder",
     [required "client"; required "displayName"; optional "parentFolderId";
       optional "user_id"])
  ; ("delete_contact",
     [required "client"; required "contact_id"; optional "user_id"])
  ; ("get_contact",
     [required "client"; required "contact_id"; optional "user_id"])
  ; ("get_contact_folders",
     [required "client"; optional "select"; optional "filter"; optional "orderby";
       optional "top"; optional "skip"; optional "expand"; optional "user_id"])
  ; ("update_contact",
     [required "client"; required "contact_id"; optional "givenName";
       optional "surname"; optional "displayName"; optional "emailAddresses";
       optional "businessPhones"; optional "mobilePhone"; optional "homePhones";
       optional "companyName"; optional "department"; optional "jobTitle";
       optional "officeLocation"; optional "birthday"; optional "categories";
       optional "notes"; optional "user_id"])
  ; ("create_email_rule",
     [required "client"; required "displayName"; required "conditions";
       required "actions"; optional "isEnabled"; optional "sequence"])
  ; ("create_mail_folder",
     [required "client"; required "displayName"; optional "isHidden";
       optional "user_id"])
  ; ("delete_mail_folder",
     [required "client"; required "folder_id"; optional "user_id"])
  ; ("create_master_category",
     [required "client"; required "displayName"; optional "color"])
  ; ("get_master_categories",
     [required "client"; optional "select"; optional "filter"; optional "orderby";
       optional "top"; optional "skip"; optional "user_id"])
  ; ("download_outlook_attachment",
     [required "client"; required "message_id"; required "attachment_id";
       required "file_name"; optional "user_id"])
  ; ("get_mailbox_settings",
     [required "client"; optional "select"; optional "expand"; optional "user_id"])
  ; ("get_mail_delta",
     [required "client"; optional "folder_id"; optional "select"; optional "expand";
       optional "filter"; optional "orderby"; optional "search"; optional "top";
       optional "skip"; optional "count"; optional "delta_token";
       optional "skip_token"; optional "user_id"])
  ; ("get_mail_tips",
     [required "client"; required "EmailAddresses"; required "MailTipsOptions";
       optional "user_id"])
  ; ("get_supported_languages",
     [required "client"; optional "user_id"])
  ; ("get_supported_time_zones",
     [required "client"; optional "timeZoneStandard"])
  ; ("update_mailbox_settings",
     [required "client"; optional "automaticRepliesSetting"; optional "language";
       optional "timeZone"; optional "workingHours"])
  ; ("list_calendars",
     [required "client"; optional "select"; optional "filter"; optional "orderby";
       optional "top"; optional "skip"; optional "user_id"])
  ; ("list_contacts",
     [required "client"; optional "contact_folder_id"; optional "filter";
       optional "orderby"; optional "select"; optional "top"; optional "user_id"])
  ; ("list_event_attachments",
     [required "client"; required "event_id"; optional "select"; optional "filter";
       optional "orderby"; optional "top"; optional "skip"; optional "user_id"])
  ; ("list_events",
     [required "client"; optional "expand_recurring_events"; optional "filter";
       optional "orderby"; optional "select"; optional "skip"; optional "timezone";
       optional "top"; optional "user_id"])
  ; ("list_mail_folders",
     [required "client"; optional "include_hidden_folders"; optional "user_id"])
  ; ("list_messages",
     [required "client"; optional "folder"; optional "categories";
       optional "conversationId"; optional "from_address"; optional "has_attachments";
       optional "importance"; optional "is_read"; optional "orderby";
       optional "received_date_time_ge"; optional "received_date_time_gt";
       optional "received_date_time_le"; optional "received_date_time_lt";
       optional "select"; optional "sent_date_time_gt"; optional "sent_date_time_lt";
       optional "skip"; optional "subject"; optional "subject_contains";
       optional "subject_endswith"; optional "subject_startswith"; optional "top";
       optional "user_id"])
  ; ("list_outlook_attachments",
     [required "client"; required "message_id"; optional "user_id"])
  ; ("list_reminders",
     [required "client"; required "startDateTime"; required "endDateTime";
       optional "userId"])
  ; ("get_profile",
     [required "client"; optional "user_id"])
  ].

(** ** Signatures that [create_dynamic_wrapper] can copy *)

(** No [=] in a name. *)
Fixpoint no_equals (s : string) : bool :=
  match s with
  | EmptyString => true
  | String c rest => negb (Ascii.eqb c "=") && no_equals rest
  end.

(** The signature of a tool function: [client] among the parameters, names
    that are distinct and hold no [=], defaults ([None] each) after the
    parameters without one. *)
Definition tool_like (params : list param) : bool :=
  mem "client" (map p_name params)
  && distinct (map p_name params)
  && defaults_last params
  && forallb (fun p => no_equals (p_name p)) params
  && forallb (fun p => match p_default p with
                       | Some PNone | None => true
                       | Some _ => false
                       end) params.

(** The parameters of a function other than [client]. *)
Definition without_client (params : list param) : list param :=
  filter (fun p => negb (p_name p =? "client")) params.


End Dispatch.

(* ================================================================== *)
(** * The tool functions on [OutlookClient] *)
(* ================================================================== *)

Module OutlookServer.
Import Graph Tools Dispatch.

(** The runtime of a host with an [OutlookClient] (and the world it talks
    to) as the client. *)
Definition with_outlook_client (env : Env) (host : Runtime) : Runtime :=
  {| Client := OutlookClient * World;
     Tools.is_authenticated := fun c => Graph.is_authenticated (fst c);
     Tools.request := Graph.request env;
     Files := Files host;
     path_exists := path_exists host;
     read_file := read_file host;
     write_file := write_file host;
     b64encode := b64encode host;
     b64decode := b64decode host;
     encode_utf8 := encode_utf8 host;
     int_of_str := int_of_str host;
     str_of_container := str_of_container host |}.

(** A tool function run by the server: on [state["client"]], with the
    files [fs]. *)
Definition on_state_client (env : Env) (host : Runtime) (fs : Files host)
    (m : M (with_outlook_client env host) Envelope) : SE Process (Envelope * list Call) :=
  fun p =>
    match state_client p with
    | None => (Raise (Exn "KeyError" "'client'"), p)
    | Some self =>
        let st := {| client := (self, world p) : Client (with_outlook_client env host);
                     files := fs; calls := [] |} in
        let '(outcome, st') := m st in
        let p' := {| state_client := Some (fst (client _ st'));
                     world := snd (client _ st') |} in
        match outcome with
        | Ok envelope => (Ok (envelope, calls _ st'), p')
        | Raise e => (Raise e, p')
        end
    end.

End OutlookServer.

(* ================================================================== *)
(** * Concrete runtimes for the examples *)
(* ================================================================== *)

Module Example.
Import Graph Tools Dispatch OutlookServer.
Local Open Scope string_scope.

(** A host with no files, whose codecs leave the text as it is. *)
Definition plain_host (client : Type) (is_auth : client -> bool)
    (req : string -> string -> kwargs -> client -> result pyval * client) : Runtime :=
  {| Client := client;
     Tools.is_authenticated := is_auth;
     Tools.request := req;
     Files := unit;
     path_exists := fun _ _ => false;
     read_file := fun _ _ => Raise (Exn "FileNotFoundError" "No such file or directory");
     write_file := fun _ _ fs => (Ok tt, fs);
     b64encode := fun s => s;
     b64decode := fun v => match v with
                           | PStr s => Ok s
                           | _ => Raise (Exn "TypeError" "a bytes-like object is required")
                           end;
     encode_utf8 := fun s => Ok s;
     int_of_str := fun s => match NilZero.int_of_string s with
                            | Some d => Ok (Z.of_int d)
                            | None => Raise (Exn "ValueError" "invalid literal for int()")
                            end;
     str_of_container := fun _ => "[...]" |}.

(** A client object that answers its [n]-th request with the [n]-th entry
    of a script, and raises an exception without text after that; its
    state is whether it is authenticated and the number of requests. *)
Definition scripted_client (script : list (result pyval)) : Runtime :=
  plain_host (bool * nat) fst
    (fun _ _ _ c => (nth (snd c) script (Raise (Exn "MemoryError" EmptyString)),
                     (fst c, S (snd c)))).

Definition start (R : Runtime) (c : Client R) (fs : Files R) : State R :=
  {| client := c; files := fs; calls := [] |}.

Definition response (status : Z) (body : string) : Response :=
  {| status_code := status; reason := "-"; url := "-"; content := body |}.

(** An environment whose server answers the [n]-th request with the [n]-th
    status of a script (no content), and whose token cache holds [cached]. *)
Definition scripted_env (statuses : list Z) (cached : option string) : Env :=
  {| OUTLOOK_CLIENT_ID := Some "app";
     create_msal_app := fun _ => Ok tt;
     http := fun w _ => Ok (response (nth (List.length (exchanges w)) statuses 500%Z)
                              EmptyString);
     json := fun _ => Ok (PDict []);
     get_accounts := fun _ => match cached with Some _ => [PStr "account"] | None => [] end;
     acquire_token_silent := fun _ _ => Ok (Some cached);
     initiate_device_flow := fun _ => Ok [];
     acquire_token_by_device_flow := fun _ _ => Ok None;
     save_token_cache := fun _ => Ok tt |}.



Definition signed_in (token : string) : OutlookClient * World :=
  ({| access_token := Some token |}, {| exchanges := []; msal_calls := 0 |}).

(** The schema of a parameter of type [Optional[List[Optional[str]]]]. *)
Definition optional_list_of_optional_strings : pyval :=
  PDict [kv "anyOf"
           (PList [PDict [kv "type" (PStr "array");
                          kv "items" (PDict [kv "anyOf" (PList [PDict [kv "type" (PStr "string")];
                                                                 PDict [kv "type" (PStr "null")]])])];
                   PDict [kv "type" (PStr "null")]]);
         kv "default" PNone].

(** [repr] and the evaluation of a default, for the literal [None]. *)
Definition repr_none (v : pyval) : string :=
  match v with PNone => "None" | _ => "..." end.
Definition eval_none (s : string) : result pyval :=
  if s =? "None" then Ok PNone else Raise (Exn "SyntaxError" "invalid syntax").

(** A call of every tool function with each optional parameter given. *)
Definition calls_with_everything : list tool_call :=
  [ Call_add_mail_attachment "x" "x" "x" "x" (Some "x") (Some "x") (Some "x")
      (Some true) (Some [kv "k" (PStr "v")]) (Some "x")
  ; Call_create_draft "x" "x" ["a"] (Some ["a"]) (Some ["a"]) (Some true) (Some "x")
      (Some [kv "k" (PStr "v")])
  ; Call_create_draft_reply "x" (Some "x") (Some ["a"]) (Some ["a"]) (Some "x")
  ; Call_get_message "x" (Some "x") (Some "x")
  ; Call_move_message "x" "x" (Some "x")
  ; Call_reply_email "x" "x" (Some ["a"]) (Some ["a"]) (Some "x")
  ; Call_search_messages "x" (Some "x") (Some "x") (Some true) (Some 1%Z) (Some 1%Z)
      (Some true)
  ; Call_update_email "x" (Some "x")
      (Some (PDict [kv "contentType" (PStr "text"); kv "content" (PStr "Hello")]))
      (Some ["a"]) (Some ["a"]) (Some ["a"]) (Some "x") (Some "x")
  ; Call_send_email "x" "x" "x" (Some "x") (Some ["a"]) (Some ["a"]) (Some true)
      (Some [kv "k" (PStr "v")]) (Some true) (Some "x")
  ; Call_list_calendars (Some ["a"]) (Some "x") (Some ["a"]) (Some 1%Z) (Some 1%Z)
      (Some "x")
  ; Call_list_event_attachments "x" (Some ["a"]) (Some "x") (Some ["a"]) (Some 1%Z)
      (Some 1%Z) (Some "x")
  ; Call_list_outlook_attachments "x" (Some "x")
  ; Call_list_reminders "x" "x" (Some "x")
  ; Call_list_contacts (Some "x") (Some "x") (Some ["a"]) (Some ["a"]) (Some 1%Z)
      (Some "x")
  ; Call_list_events (Some true) (Some "x") (Some ["a"]) (Some ["a"]) (Some 1%Z)
      (Some "x") (Some 1%Z) (Some "x")
  ; Call_list_mail_folders (Some true) (Some "x")
  ; Call_list_messages (Some "x") (Some ["a"]) (Some "x") (Some "x") (Some true)
      (Some "x") (Some true) (Some ["a"]) (Some "x") (Some "x") (Some "x") (Some "x")
      (Some ["a"]) (Some "x") (Some "x") (Some 1%Z) (Some "x") (Some "x") (Some "x")
      (Some "x") (Some 1%Z) (Some "x")
  ; Call_download_outlook_attachment "x" "x" "x" (Some "x")
  ; Call_create_mail_folder "x" (Some true) (Some "x")
  ; Call_delete_mail_folder "x" (Some "x")
  ; Call_create_calendar "x" (Some "x") (Some "x") (Some "x")
  ; Call_add_event_attachment "x" "x" "x" (Some "x") None (Some "x")
      (Some [kv "k" (PStr "v")]) (Some "x")
  ; Call_create_event "x" "x" "x" "x" "x" (Some "x") (Some [[kv "k" (PStr "v")]])
      (Some ["a"]) (Some true) (Some true) (Some "x") (Some "x") (Some "x")
  ; Call_delete_event "x" (Some false) (Some "x")
  ; Call_get_event "x" (Some "x")
  ; Call_update_calendar_event "x" (Some "x") (Some [kv "k" (PStr "v")]) (Some "x")
      (Some "x") (Some "x") (Some [kv "k" (PStr "v")]) (Some [[kv "k" (PStr "v")]])
      (Some ["a"]) (Some "x") (Some "x")
  ; Call_get_schedule ["a"] [kv "k" (PStr "v")] [kv "k" (PStr "v")] (Some "30")
  ; Call_create_email_rule "x" [kv "k" (PStr "v")] [kv "k" (PStr "v")] (Some true)
      (Some 1%Z)
  ; Call_get_master_categories (Some ["a"]) (Some "x") (Some ["a"]) (Some 1%Z)
      (Some 1%Z) (Some "x")
  ; Call_create_master_category "x" (Some "x")
  ; Call_get_profile (Some "x")
  ; Call_get_mailbox_settings (Some ["a"]) (Some ["a"]) (Some "x")
  ; Call_get_mail_delta (Some "x") (Some ["a"]) (Some ["a"]) (Some "x") (Some ["a"])
      (Some "x") (Some 1%Z) (Some 1%Z) (Some true) (Some "x") (Some "x") (Some "x")
  ; Call_get_mail_tips ["a"] "x" (Some "x")
  ; Call_get_supported_languages (Some "x")
  ; Call_get_supported_time_zones (Some "x")
  ; Call_update_mailbox_settings (Some [kv "k" (PStr "v")]) (Some [kv "k" (PStr "v")])
      (Some "x") (Some [kv "k" (PStr "v")])
  ; Call_create_contact (Some "x") (Some "x") (Some "x") (Some [[kv "k" (PStr "v")]])
      (Some ["a"]) (Some "x") (Some "x") (Some "x") (Some "x") (Some "x") (Some "x")
      (Some "x") (Some ["a"]) (Some "x") (Some "x")
  ; Call_get_contact "x" (Some "x")
  ; Call_get_contact_folders (Some ["a"]) (Some "x") (Some ["a"]) (Some 1%Z) (Some 1%Z)
      (Some ["a"]) (Some "x")
  ; Call_delete_contact "x" (Some "x")
  ; Call_update_contact "x" (Some "x") (Some "x") (Some "x")
      (Some [[kv "k" (PStr "v")]]) (Some ["a"]) (Some "x") (Some ["a"]) (Some "x")
      (Some "x") (Some "x") (Some "x") (Some "x") (Some ["a"]) (Some "x") (Some "x")
  ; Call_create_contact_folder "x" (Some "x") (Some "x")
  ].

(** [get_profile] as the dispatcher sees it, run on [state["client"]]. *)
Definition get_profile_function (env : Env) : pyfunc (Envelope * list Call) :=
  let host := plain_host unit (fun _ => false) (fun _ _ _ c => (Ok PNone, c)) in
  {| f_name := "get_profile";
     f_doc := Some "Retrieves the Microsoft Outlook profile for a specified user.";
     f_annotations := [("user_id", "Optional[str]"); ("return", "dict")];
     f_params := [required "client"; optional "user_id"];
     f_body := fun locals =>
       let user_id := match lookup "user_id" locals with
                      | Some (Data (PStr s)) => Some s
                      | _ => None
                      end in
       on_state_client env host tt (get_profile (with_outlook_client env host) user_id) |}.

End Example.

(* ================================================================== *)
(** * Shapes of requests, schemas and calls, for the properties *)
(* ================================================================== *)

(** ** Headers of a request *)

Module GraphShapes.
Import Graph.

(** The headers [get_headers] returns for a token. *)
Definition default_headers (token : string) : pydict :=
  [kv "Authorization" (bearer token); kv "Content-Type" (PStr "application/json")].

(** The headers of the first request: the defaults, updated with the
    [headers] keyword argument when it is there and truthy. *)
Definition merged_headers (token : string) (kw : kwargs) : result pydict :=
  match kw_find "headers" kw with
  | Some custom_headers =>
      if truthy custom_headers then dict_update (default_headers token) custom_headers
      else Ok (default_headers token)
  | None => Ok (default_headers token)
  end.

Definition NOT_AUTHENTICATED_ERROR : exn :=
  Exn "Exception" "Not authenticated. Call authenticate_interactive() first.".

(** What [request] does after its first request got a response. *)
Definition after_first (env : Env) (method endpoint : string) (kw : kwargs) (r1 : Response)
    (s : OutlookClient * World) : result pyval * (OutlookClient * World) :=
  if (status_code r1 =? 401)%Z then
    match _load_cached_token env s with
    | (Ok true, s2) =>
        match get_headers s2 with
        | (Ok headers2, _) =>
            let rq2 := {| rq_method := method;
                          rq_url := (GRAPH_API_ENDPOINT ++ endpoint)%string;
                          rq_headers := headers2;
                          rq_kwargs := kw_remove "headers" kw |} in
            let a2 := http env (snd s2) rq2 in
            match a2 with
            | Raise e => (Raise e, (fst s2, after_exchange (snd s2) rq2 a2))
            | Ok r2 => finish env r2 (fst s2, after_exchange (snd s2) rq2 a2)
            end
        | (Raise e, _) => (Raise e, s2)
        end
    | (Ok false, s2) =>
        (Raise (Exn "Exception" "Authentication expired. Please re-authenticate."), s2)
    | (Raise e, s2) => (Raise e, s2)
    end
  else finish env r1 s.

(** What [request] does once the headers of its first request are there. *)
Definition from_first (env : Env) (method endpoint : string) (kw : kwargs)
    (headers : pydict) (s : OutlookClient * World)
    : result pyval * (OutlookClient * World) :=
  let rq1 := {| rq_method := method;
                rq_url := (GRAPH_API_ENDPOINT ++ endpoint)%string;
                rq_headers := headers; rq_kwargs := kw_remove "headers" kw |} in
  let a1 := http env (snd s) rq1 in
  match a1 with
  | Raise e => (Raise e, (fst s, after_exchange (snd s) rq1 a1))
  | Ok r1 => after_first env method endpoint kw r1 (fst s, after_exchange (snd s) rq1 a1)
  end.

End GraphShapes.

(** ** Schemas the sanitizer handles *)

Module SchemaShapes.
Import Schema.

(** The loop over the items of a dict, from the items that are left and
    the [new_schema] built so far. *)
Fixpoint sanitize_items (items new_schema : pydict) : result pydict :=
  match items with
  | [] => Ok new_schema
  | (key, value) :: rest =>
      if eq_str key "anyOf" && is_list value then
        match filter not_null_branch (list_items value) with
        | [] => sanitize_items rest new_schema
        | [only] =>
            match dict_update new_schema only with
            | Ok merged => sanitize_items rest merged
            | Raise e => Raise e
            end
        | filtered => sanitize_items rest (dict_set key (PList filtered) new_schema)
        end
      else if eq_str key "type" && is_list value && has_null_string (list_items value) then
        match filter (fun v => negb (eq_str v "null")) (list_items value) with
        | [only] => sanitize_items rest (dict_set (PStr "type") only new_schema)
        | filtered => sanitize_items rest (dict_set (PStr "type") (PList filtered) new_schema)
        end
      else if eq_str key "type" && eq_str value "null" then sanitize_items rest new_schema
      else if eq_str key "default" && is_none value then sanitize_items rest new_schema
      else if is_dict value || is_list value then
        match remove_null_from_schema value with
        | Ok value' => sanitize_items rest (dict_set key value' new_schema)
        | Raise e => Raise e
        end
      else sanitize_items rest (dict_set key value new_schema)
  end.

(** The list comprehension over the items of a list. *)
Fixpoint sanitize_each (l : list pyval) : result (list pyval) :=
  match l with
  | [] => Ok []
  | item :: rest =>
      match remove_null_from_schema item with
      | Raise e => Raise e
      | Ok item' =>
          match sanitize_each rest with
          | Ok rest' => Ok (item' :: rest')
          | Raise e => Raise e
          end
      end
  end.

Definition scalar (v : pyval) : bool := negb (is_dict v || is_list v).

(** A branch of an [anyOf] that is dropped, or that is a dict without a
    nullable-type marker. *)
Definition plain_branch (b : pyval) : bool :=
  negb (not_null_branch b) || (is_dict b && negb (has_null_marker b)).

(** The markers of a schema are where the sanitizer looks: every [anyOf]
    branch that is kept is a dict without markers, and a list-valued [type]
    with ["null"] in it holds no list and no dict. *)
Fixpoint markers_in_reach (schema : pyval) : bool :=
  match schema with
  | PDict items =>
      (fix all (items : pydict) : bool :=
         match items with
         | [] => true
         | (key, value) :: rest =>
             (if eq_str key "anyOf" && is_list value then
                forallb plain_branch (list_items value)
              else if eq_str key "type" && is_list value
                      && has_null_string (list_items value) then
                forallb scalar (list_items value)
              else markers_in_reach value)
             && all rest
         end) items
  | PList l =>
      (fix all (l : list pyval) : bool :=
         match l with
         | [] => true
         | item :: rest => markers_in_reach item && all rest
         end) l
  | _ => true
  end.

(** No key of a dict is equal to a later one. *)
Fixpoint distinct_keys (d : pydict) : bool :=
  match d with
  | [] => true
  | (k, _) :: rest => forallb (fun kv => negb (key_eqb k (fst kv))) rest && distinct_keys rest
  end.

(** A schema as [json.load] gives it, without a nullable-type marker and
    without an [anyOf] list. *)
Fixpoint unmarked (schema : pyval) : bool :=
  match schema with
  | PDict items =>
      distinct_keys items
      && (fix all (items : pydict) : bool :=
            match items with
            | [] => true
            | (key, value) :: rest =>
                negb (eq_str key "anyOf" && is_list value)
                && negb (marker_item key value)
                && unmarked value
                && all rest
            end) items
  | PList l =>
      (fix all (l : list pyval) : bool :=
         match l with
         | [] => true
         | item :: rest => unmarked item && all rest
         end) l
  | _ => true
  end.

(** The sanitizer returns a schema without markers. *)
Definition sanitized (v : pyval) : Prop :=
  markers_in_reach v = true ->
  exists out, remove_null_from_schema v = Ok out /\ has_null_marker out = false.

(** The sanitizer returns the schema it was given. *)
Definition kept (v : pyval) : Prop :=
  unmarked v = true -> remove_null_from_schema v = Ok v.

End SchemaShapes.

(** ** What a tool function leaves to see *)

Module ToolShapes.
Import Tools.

(** [m] only adds requests, and the requests it adds and what it returns
    or raises satisfy [Post]. *)
Definition observes {R A} (Post : list Call -> result A -> Prop) (m : M R A) : Prop :=
  forall st, exists l,
    calls R (snd (m st)) = (calls R st ++ l)%list /\ Post l (fst (m st)).

(** [l] is the beginning of [sites]. *)
Fixpoint is_prefix (l sites : list string) : bool :=
  match l, sites with
  | [], _ => true
  | x :: l', y :: sites' => (x =? y) && is_prefix l' sites'
  | _ :: _, [] => false
  end.

(** [m] makes no request. *)
Definition quiet {R A} (m : M R A) : Prop :=
  forall st, calls R (snd (m st)) = calls R st.

(** What [update_email]'s draft check leaves to see: one GET, and either an
    envelope to return at once, a failure, after a request that returned;
    or nothing, and then an exception of the request was an instance of
    [Exception]; or the exception of the request, which was none. *)
Definition draft_checked (l : list Call) (r : result (option Envelope)) : Prop :=
  exists c,
    l = [c] /\ call_method c = "GET"
    /\ match r with
       | Ok (Some envelope) => successful envelope = false /\ is_ok (call_outcome c) = true
       | Ok None => forall e, call_outcome c = Raise e -> is_Exception e = true
       | Raise e => call_outcome c = Raise e /\ is_Exception e = false
       end.

(** What settling the content of an event attachment leaves to see: no
    request, and an envelope, when it returns one, that is a failure. *)
Definition content_settled (l : list Call) (r : result (Envelope + option string)) : Prop :=
  l = []
  /\ match r with
     | Ok (inl envelope) => successful envelope = false
     | _ => True
     end.

(** The methods of the requests so far are the beginning of [sites]. *)
Definition follows {A} (sites : list string) (l : list Call) (r : result A) : Prop :=
  is_prefix (map call_method l) sites = true.

(** The data of a success is what a request returned. *)
Definition echoes (l : list Call) (r : result Envelope) : Prop :=
  match r with
  | Ok envelope =>
      successful envelope = true ->
      exists c, In c l /\ call_outcome c = Ok (data envelope)
  | Raise _ => True
  end.

(** [Post] for a [try] block, when [Post] is to hold after the [except]
    clause of a tool function. *)
Definition before_except (Post : list Call -> result Envelope -> Prop)
    (l : list Call) (r : result Envelope) : Prop :=
  match r with
  | Ok envelope => Post l (Ok envelope)
  | Raise e => (forall msg, Post l (Ok (failure msg))) /\ Post l (Raise e)
  end.

(** A request that raised ended the run with its exception; when [lenient],
    an instance of [Exception] that the first request, a GET, raised may
    have been passed over. *)
Definition surfaces {A} (lenient : bool) (l : list Call) (r : result A) : Prop :=
  forall c e,
    In c l -> call_outcome c = Raise e ->
    r = Raise e
    \/ (lenient = true /\ is_Exception e = true /\ call_method c = "GET"
        /\ exists rest, l = c :: rest).

(** The tool function with a [try] block inside its [try] block around a
    request. *)
Definition passes_over (tc : tool_call) : bool := (tool_name tc =? "update_email")%string.

(** What a request asks for. *)
Definition request_of (c : Call) : string * string * kwargs :=
  (call_method c, call_endpoint c, call_kwargs c).

(** Two states with the same local files and the same answer of
    [is_authenticated]. *)
Definition alike {R} (st1 st2 : State R) : Prop :=
  files R st1 = files R st2
  /\ is_authenticated R (client R st1) = is_authenticated R (client R st2).

(** [m] changes nothing, and returns the same in states that are alike. *)
Definition reads {R A} (m : M R A) : Prop :=
  (forall st, snd (m st) = st)
  /\ (forall st1 st2, alike st1 st2 -> fst (m st1) = fst (m st2)).

(** [m] asks for the same in states that are alike. *)
Definition steady {R A} (m : M R A) : Prop :=
  forall st1 st2,
    alike st1 st2 ->
    map request_of (new_calls st1 (snd (m st1)))
    = map request_of (new_calls st2 (snd (m st2))).

(** A success comes after a request that returned: the last one. *)
Definition answered (l : list Call) (r : result Envelope) : Prop :=
  match r with
  | Ok envelope =>
      successful envelope = true ->
      exists before c, l = (before ++ [c])%list /\ is_ok (call_outcome c) = true
  | Raise _ => True
  end.

(** [m] only adds requests, and a measure of the client grows by at most
    [step] with each of them. *)
Definition paced {R A} (measure : Client R -> nat) (step : nat) (m : M R A) : Prop :=
  forall st, exists l,
    calls R (snd (m st)) = (calls R st ++ l)%list
    /\ (measure (client R (snd (m st))) <= measure (client R st) + step * List.length l)%nat.

(** [m] leaves the local files as they are. *)
Definition keeps_files {R A} (m : M R A) : Prop :=
  forall st, files R (snd (m st)) = files R st.

(** The methods of the request calls of a tool function, in the order
    of the source. *)
Definition request_sites (tc : tool_call) : list string :=
  match tc with
  | Call_add_mail_attachment _ _ _ _ _ _ _ _ _ _ => ["POST"]
  | Call_create_draft _ _ _ _ _ _ _ _ => ["POST"; "POST"]
  | Call_create_draft_reply _ _ _ _ _ => ["POST"]
  | Call_get_message _ _ _ => ["GET"]
  | Call_move_message _ _ _ => ["POST"]
  | Call_reply_email _ _ _ _ _ => ["POST"]
  | Call_search_messages _ _ _ _ _ _ _ => ["GET"]
  | Call_update_email _ _ _ _ _ _ _ _ => ["GET"; "PATCH"]
  | Call_send_email _ _ _ _ _ _ _ _ _ _ => ["POST"]
  | Call_list_calendars _ _ _ _ _ _ => ["GET"]
  | Call_list_event_attachments _ _ _ _ _ _ _ => ["GET"]
  | Call_list_outlook_attachments _ _ => ["GET"]
  | Call_list_reminders _ _ _ => ["GET"]
  | Call_list_contacts _ _ _ _ _ _ => ["GET"]
  | Call_list_events _ _ _ _ _ _ _ _ => ["GET"]
  | Call_list_mail_folders _ _ => ["GET"]
  | Call_list_messages _ _ _ _ _ _ _ _ _ _ _ _ _ _ _ _ _ _ _ _ _ _ => ["GET"]
  | Call_download_outlook_attachment _ _ _ _ => ["GET"]
  | Call_create_mail_folder _ _ _ => ["POST"]
  | Call_delete_mail_folder _ _ => ["DELETE"]
  | Call_create_calendar _ _ _ _ => ["POST"]
  | Call_add_event_attachment _ _ _ _ _ _ _ _ => ["POST"]
  | Call_create_event _ _ _ _ _ _ _ _ _ _ _ _ _ => ["POST"]
  | Call_delete_event _ _ _ => ["DELETE"]
  | Call_get_event _ _ => ["GET"]
  | Call_update_calendar_event _ _ _ _ _ _ _ _ _ _ _ => ["PATCH"]
  | Call_get_schedule _ _ _ _ => ["POST"]
  | Call_create_email_rule _ _ _ _ _ => ["POST"]
  | Call_get_master_categories _ _ _ _ _ _ => ["GET"]
  | Call_create_master_category _ _ => ["POST"]
  | Call_get_profile _ => ["GET"]
  | Call_get_mailbox_settings _ _ _ => ["GET"]
  | Call_get_mail_delta _ _ _ _ _ _ _ _ _ _ _ _ => ["GET"]
  | Call_get_mail_tips _ _ _ => ["POST"]
  | Call_get_supported_languages _ => ["GET"]
  | Call_get_supported_time_zones _ => ["GET"]
  | Call_update_mailbox_settings _ _ _ _ => ["PATCH"]
  | Call_create_contact _ _ _ _ _ _ _ _ _ _ _ _ _ _ _ => ["POST"]
  | Call_get_contact _ _ => ["GET"]
  | Call_get_contact_folders _ _ _ _ _ _ _ => ["GET"]
  | Call_delete_contact _ _ => ["DELETE"]
  | Call_update_contact _ _ _ _ _ _ _ _ _ _ _ _ _ _ _ _ => ["PATCH"]
  | Call_create_contact_folder _ _ _ => ["POST"]
  end.

(** The user a tool function addresses:
    [user = user_id if user_id else "me"], and [me] for a function without
    such a parameter. *)
Definition user_of (tc : tool_call) : string :=
  match tc with
  | Call_add_mail_attachment _ _ _ _ _ _ _ _ _ user_id => or_else user_id "me"
  | Call_create_draft _ _ _ _ _ _ _ _ => "me"
  | Call_create_draft_reply _ _ _ _ user_id => or_else user_id "me"
  | Call_get_message _ _ user_id => or_else user_id "me"
  | Call_move_message _ _ user_id => or_else user_id "me"
  | Call_reply_email _ _ _ _ user_id => or_else user_id "me"
  | Call_search_messages _ _ _ _ _ _ _ => "me"
  | Call_update_email _ _ _ _ _ _ _ user_id => or_else user_id "me"
  | Call_send_email _ _ _ _ _ _ _ _ _ user_id => or_else user_id "me"
  | Call_list_calendars _ _ _ _ _ user_id => or_else user_id "me"
  | Call_list_event_attachments _ _ _ _ _ _ user_id => or_else user_id "me"
  | Call_list_outlook_attachments _ user_id => or_else user_id "me"
  | Call_list_reminders _ _ userId => or_else userId "me"
  | Call_list_contacts _ _ _ _ _ user_id => or_else user_id "me"
  | Call_list_events _ _ _ _ _ _ _ user_id => or_else user_id "me"
  | Call_list_mail_folders _ user_id => or_else user_id "me"
  | Call_list_messages _ _ _ _ _ _ _ _ _ _ _ _ _ _ _ _ _ _ _ _ _ user_id => or_else user_id "me"
  | Call_download_outlook_attachment _ _ _ user_id => or_else user_id "me"
  | Call_create_mail_folder _ _ user_id => or_else user_id "me"
  | Call_delete_mail_folder _ user_id => or_else user_id "me"
  | Call_create_calendar _ _ _ user_id => or_else user_id "me"
  | Call_add_event_attachment _ _ _ _ _ _ _ user_id => or_else user_id "me"
  | Call_create_event _ _ _ _ _ _ _ _ _ _ _ _ user_id => or_else user_id "me"
  | Call_delete_event _ _ user_id => or_else user_id "me"
  | Call_get_event _ user_id => or_else user_id "me"
  | Call_update_calendar_event _ _ _ _ _ _ _ _ _ _ user_id => or_else user_id "me"
  | Call_get_schedule _ _ _ _ => "me"
  | Call_create_email_rule _ _ _ _ _ => "me"
  | Call_get_master_categories _ _ _ _ _ user_id => or_else user_id "me"
  | Call_create_master_category _ _ => "me"
  | Call_get_profile user_id => or_else user_id "me"
  | Call_get_mailbox_settings _ _ user_id => or_else user_id "me"
  | Call_get_mail_delta _ _ _ _ _ _ _ _ _ _ _ user_id => or_else user_id "me"
  | Call_get_mail_tips _ _ user_id => or_else user_id "me"
  | Call_get_supported_languages user_id => or_else user_id "me"
  | Call_get_supported_time_zones _ => "me"
  | Call_update_mailbox_settings _ _ _ _ => "me"
  | Call_create_contact _ _ _ _ _ _ _ _ _ _ _ _ _ _ user_id => or_else user_id "me"
  | Call_get_contact _ user_id => or_else user_id "me"
  | Call_get_contact_folders _ _ _ _ _ _ user_id => or_else user_id "me"
  | Call_delete_contact _ user_id => or_else user_id "me"
  | Call_update_contact _ _ _ _ _ _ _ _ _ _ _ _ _ _ _ user_id => or_else user_id "me"
  | Call_create_contact_folder _ _ user_id => or_else user_id "me"
  end.

(** The tool functions whose success envelope is not the response of a
    request: four return a fixed message, [delete_mail_folder] replaces an
    empty response, [download_outlook_attachment] describes the file. *)
Definition OWN_DATA : list string :=
  ["reply_email"; "send_email"; "delete_event"; "delete_contact"; "delete_mail_folder";
   "download_outlook_attachment"].

(** ** The optional parameters of the tool functions *)





(** The paths of the fields of a shape, at every depth. *)
Fixpoint shape_paths (s : shape) : list (list string) :=
  match s with
  | NoneOr s' | Each s' => shape_paths s'
  | Keys fields =>
      (fix of_fields (fields : list (string * presence * shape)) : list (list string) :=
         match fields with
         | [] => []
         | (key, _, s') :: rest =>
             ([key] :: map (cons key) (shape_paths s') ++ of_fields rest)%list
         end) fields
  | _ => []
  end.

(** The heads of the clauses of a shape, each with the path of its field. *)
Fixpoint shape_heads (s : shape) : list (list string * string) :=
  match s with
  | NoneOr s' | Each s' => shape_heads s'
  | Keys fields =>
      (fix of_fields (fields : list (string * presence * shape))
         : list (list string * string) :=
         match fields with
         | [] => []
         | (key, _, s') :: rest =>
             (map (fun h => (key :: fst h, snd h)) (shape_heads s') ++ of_fields rest)%list
         end) fields
  | Clauses _ heads => map (fun h => ([], fst h)) heads
  | _ => []
  end.

(** The request holds something at every field of the shape, and a clause
    for every head. *)
Definition holds_every_field (s : request_shape) (c : Call) : bool :=
  forallb
    (fun place =>
       forallb (fun path => match reach path (argument c place) with
                            | [] => false
                            | _ => true
                            end)
               (shape_paths (shape_at s place))
       && forallb (fun h => existsb (fun v => match v with
                                              | PStr text => contains (snd h) text
                                              | _ => false
                                              end)
                                    (reach (fst h) (argument c place)))
                  (shape_heads (shape_at s place)))
    [InJson; InParams; InHeaders].



End ToolShapes.

(** ** More runtimes and inputs for the examples *)

Module Samples.
Import Graph Tools Dispatch OutlookServer Example.
Local Open Scope string_scope.

(** An environment without [OUTLOOK_CLIENT_ID]. *)
Definition unconfigured_env : Env :=
  {| OUTLOOK_CLIENT_ID := None;
     create_msal_app := fun _ => Ok tt;
     http := fun _ _ => Ok (response 200 EmptyString);
     json := fun _ => Ok (PDict []);
     get_accounts := fun _ => [];
     acquire_token_silent := fun _ _ => Ok None;
     initiate_device_flow := fun _ => Ok [];
     acquire_token_by_device_flow := fun _ _ => Ok None;
     save_token_cache := fun _ => Ok tt |}.

Definition empty_world : World := {| exchanges := []; msal_calls := 0 |}.

(** A server process that has not built its client yet. *)
Definition fresh_process : Process := {| state_client := None; world := empty_world |}.

(** A server process whose client holds no token. *)
Definition signed_out_process : Process :=
  {| state_client := Some {| access_token := None |}; world := empty_world |}.

(** The [user_id] argument of a call of [get_profile], from its local
    variables. *)
Definition get_profile_call (locals : list (string * arg)) : tool_call :=
  Call_get_profile match lookup "user_id" locals with
                   | Some (Data (PStr s)) => Some s
                   | _ => None
                   end.

(** A header a caller adds: the time zone of [list_events]. *)
Definition prefer_utc : kwargs :=
  [("headers", PDict [kv "Prefer" (PStr "outlook.timezone=UTC")])].

(** No exchange. *)
Definition no_exchange : Request * result Response :=
  ({| rq_method := EmptyString; rq_url := EmptyString; rq_headers := []; rq_kwargs := [] |},
   Raise (Exn EmptyString EmptyString)).

(** An input schema for [get_profile], with the optional string written
    as an [anyOf]. *)
Definition get_profile_schema : pyval :=
  PDict [kv "type" (PStr "object");
         kv "properties"
            (PDict [kv "user_id"
                       (PDict [kv "anyOf" (PList [PDict [kv "type" (PStr "string")];
                                                  PDict [kv "type" (PStr "null")]]);
                               kv "default" PNone;
                               kv "title" (PStr "User Id")])]);
         kv "required" (PList [])].

(** A schema without optional parameters. *)
Definition move_message_schema : pyval :=
  PDict [kv "type" (PStr "object");
         kv "properties"
            (PDict [kv "message_id" (PDict [kv "type" (PStr "string")]);
                    kv "destination_id" (PDict [kv "type" (PStr "string")])]);
         kv "required" (PList [PStr "message_id"; PStr "destination_id"])].

End Samples.

(* ================================================================== *)
(** * Properties *)
(* ================================================================== *)

(** ** Dicts *)

Module PyFacts.

(** Only the string [a] is equal, as a key, to the string [a]. *)
Lemma key_eqb_str (k : pyval) (a : string) :
  key_eqb k (PStr a) = true <-> k = PStr a.
Proof.
  split.
  - destruct k; cbn; try discriminate.
    intros H. apply String.eqb_eq in H. now subst.
  - intros ->. cbn. apply String.eqb_refl.
Qed.

Lemma key_eqb_trans_str (k k' : pyval) (a : string) :
  key_eqb k' k = true -> key_eqb k' (PStr a) = key_eqb k (PStr a).
Proof.
  intros H.
  destruct (key_eqb k' (PStr a)) eqn:E1, (key_eqb k (PStr a)) eqn:E2; try reflexivity.
  - apply key_eqb_str in E1. subst k'. destruct k; cbn in H; try discriminate.
    cbn in E2. rewrite String.eqb_sym in H. congruence.
  - apply key_eqb_str in E2. subst k. congruence.
Qed.

Lemma dict_find_set (a : string) (k v : pyval) (d : pydict) :
  dict_find (PStr a) (dict_set k v d)
  = if key_eqb k (PStr a) then Some v else dict_find (PStr a) d.
Proof.
  induction d as [|[k' v'] d IH]; cbn.
  - reflexivity.
  - destruct (key_eqb k' k) eqn:E; cbn.
    + rewrite (key_eqb_trans_str _ _ a E).
      destruct (key_eqb k (PStr a)); reflexivity.
    + rewrite IH.
      destruct (key_eqb k' (PStr a)) eqn:E1, (key_eqb k (PStr a)) eqn:E2; try reflexivity.
      apply key_eqb_str in E1, E2. subst. cbn in E. rewrite String.eqb_refl in E.
      discriminate.
Qed.

Lemma dict_find_set_str (a b : string) (v : pyval) (d : pydict) :
  dict_find (PStr a) (dict_set (PStr b) v d)
  = if (b =? a)%string then Some v else dict_find (PStr a) d.
Proof. rewrite dict_find_set. reflexivity. Qed.

(** Merging a dict that lacks a key leaves the entry of that key alone. *)
Lemma dict_find_merge (a : string) (items d : pydict) :
  dict_find (PStr a) items = None ->
  dict_find (PStr a) (fold_left (fun acc kv => dict_set (fst kv) (snd kv) acc) items d)
  = dict_find (PStr a) d.
Proof.
  revert d. induction items as [|[k v] items IH]; intros d H; cbn in *.
  - reflexivity.
  - destruct (key_eqb k (PStr a)) eqn:E; [discriminate|].
    rewrite (IH _ H), dict_find_set, E. reflexivity.
Qed.

End PyFacts.

(** ** The Graph request client *)

Module GraphFacts.
Import Graph PyFacts.
Local Open Scope py_scope.

Section Client.
Variable env : Env.

Lemma finish_error_status (r : Response) (s : OutlookClient * World) :
  is_error_status (status_code r) = true ->
  exists msg, finish env r s = (Raise (Exn "HTTPError" msg), s).
Proof.
  unfold is_error_status, finish, raise_for_status, bind. intros H.
  destruct ((400 <=? status_code r)%Z && (status_code r <? 500)%Z) eqn:E4.
  - eexists. reflexivity.
  - destruct ((500 <=? status_code r)%Z && (status_code r <? 600)%Z) eqn:E5.
    + eexists. reflexivity.
    + exfalso. lia.
Qed.

Lemma finish_other_status (r : Response) (s : OutlookClient * World) :
  is_error_status (status_code r) = false ->
  finish env r s
  = ((if str_truthy (content r) then json env r else Ok (PDict [])), s).
Proof.
  unfold is_error_status, finish, raise_for_status, bind. intros H.
  destruct ((400 <=? status_code r)%Z && (status_code r <? 500)%Z) eqn:E4; [exfalso; lia|].
  destruct ((500 <=? status_code r)%Z && (status_code r <? 600)%Z) eqn:E5; [exfalso; lia|].
  cbn. destruct (str_truthy (content r)); reflexivity.
Qed.

(** The run of [request], case by case. *)
Lemma request_run (method endpoint : string) (kw : kwargs) (token : string) (w : World) :
  token <> EmptyString -> keeps_authorization kw ->
  exists headers,
    dict_find (PStr "Authorization") headers = Some (bearer token)
    /\ let self := {| access_token := Some token |} in
       let url := (GRAPH_API_ENDPOINT ++ endpoint)%string in
       let rq1 := {| rq_method := method; rq_url := url; rq_headers := headers;
                     rq_kwargs := kw_remove "headers" kw |} in
       let a1 := http env w rq1 in
       let w1 := after_exchange w rq1 a1 in
       request env method endpoint kw (self, w)
       = match a1 with
         | Raise e => (Raise e, (self, w1))
         | Ok r1 =>
             if (status_code r1 =? 401)%Z then
               match _load_cached_token env (self, w1) with
               | (Ok true, (self2, w2)) =>
                   match get_headers (self2, w2) with
                   | (Ok headers2, _) =>
                       let rq2 := {| rq_method := method; rq_url := url;
                                     rq_headers := headers2;
                                     rq_kwargs := kw_remove "headers" kw |} in
                       let a2 := http env w2 rq2 in
                       match a2 with
                       | Raise e => (Raise e, (self2, after_exchange w2 rq2 a2))
                       | Ok r2 => finish env r2 (self2, after_exchange w2 rq2 a2)
                       end
                   | (Raise e, s) => (Raise e, s)
                   end
               | (Ok false, s) =>
                   (Raise (Exn "Exception" "Authentication expired. Please re-authenticate."), s)
               | (Raise e, s) => (Raise e, s)
               end
             else finish env r1 (self, w1)
         end.
Proof.
  intros Htoken Hkw.
  assert (Ht : str_truthy token = true).
  { unfold str_truthy. destruct (String.eqb_spec token EmptyString); [contradiction|reflexivity]. }
  set (base := [kv "Authorization" (bearer token); kv "Content-Type" (PStr "application/json")]).
  assert (Hmerge : exists headers,
             dict_find (PStr "Authorization") headers = Some (bearer token)
             /\ forall s : OutlookClient * World,
                  (match kw_find "headers" kw with
                   | Some custom_headers =>
                       if truthy custom_headers then lift (dict_update base custom_headers)
                       else ret base
                   | None => ret base
                   end : G pydict) s = (Ok headers, s)).
  { unfold keeps_authorization in Hkw.
    destruct (kw_find "headers" kw) as [custom|].
    - destruct Hkw as [Hf | (d & -> & Hd)].
      + rewrite Hf. exists base. split; [reflexivity|reflexivity].
      + destruct (truthy (PDict d)).
        * eexists. split; [|intros s; reflexivity].
          rewrite (dict_find_merge _ _ _ Hd). reflexivity.
        * exists base. split; reflexivity.
    - exists base. split; reflexivity. }
  destruct Hmerge as (headers & Hauth & Hrun).
  exists headers. split; [exact Hauth|].
  cbv zeta. unfold request.
  unfold bind at 1. unfold get_headers at 1. cbn [access_token]. rewrite Ht.
  fold base. unfold bind at 1. rewrite Hrun.
  unfold bind at 1. unfold send at 1.
  fold (after_exchange w {| rq_method := method; rq_url := (GRAPH_API_ENDPOINT ++ endpoint)%string;
                            rq_headers := headers; rq_kwargs := kw_remove "headers" kw |}
          (http env w {| rq_method := method; rq_url := (GRAPH_API_ENDPOINT ++ endpoint)%string;
                            rq_headers := headers; rq_kwargs := kw_remove "headers" kw |})).
  destruct (http env w _) as [r1|e]; [|reflexivity].
  unfold bind at 1.
  destruct (status_code r1 =? 401)%Z; [|reflexivity].
  unfold bind at 1.
  destruct (_load_cached_token env _) as [[[|]|e] [self2 w2]]; try reflexivity.
  unfold bind at 1.
  destruct (get_headers (self2, w2)) as [[headers2|e] s2] eqn:Eh; [|reflexivity].
  assert (s2 = (self2, w2)) as ->.
  { unfold get_headers in Eh. destruct (access_token self2) as [t|];
      [destruct (str_truthy t)|]; inversion Eh; reflexivity. }
  unfold send. cbn.
  fold (after_exchange w2 {| rq_method := method; rq_url := (GRAPH_API_ENDPOINT ++ endpoint)%string;
                            rq_headers := headers2; rq_kwargs := kw_remove "headers" kw |}
          (http env w2 {| rq_method := method; rq_url := (GRAPH_API_ENDPOINT ++ endpoint)%string;
                            rq_headers := headers2; rq_kwargs := kw_remove "headers" kw |})).
  destruct (http env w2 _) as [r2|e]; reflexivity.
Qed.

Lemma new_exchanges_app (w w' : World) (l : list (Request * result Response)) :
  exchanges w' = (exchanges w ++ l)%list -> new_exchanges w w' = l.
Proof.
  intros E. unfold new_exchanges. rewrite E.
  rewrite skipn_app, skipn_all, Nat.sub_diag. reflexivity.
Qed.

Lemma load_cached_token_exchanges (s : OutlookClient * World) :
  exchanges (snd (snd (_load_cached_token env s))) = exchanges (snd s).
Proof.
  destruct s as [self w]. unfold _load_cached_token.
  destruct (get_accounts env w); [reflexivity|].
  destruct (acquire_token_silent env w p) as [[[t|]|]|e]; reflexivity.
Qed.

Lemma finish_state (r : Response) (s : OutlookClient * World) : snd (finish env r s) = s.
Proof.
  destruct (is_error_status (status_code r)) eqn:E.
  - destruct (finish_error_status r s E) as [msg ->]. reflexivity.
  - rewrite (finish_other_status r s E). reflexivity.
Qed.

Lemma finish_ok (r : Response) (s : OutlookClient * World) (data : pyval) :
  fst (finish env r s) = Ok data -> is_error_status (status_code r) = false.
Proof.
  destruct (is_error_status (status_code r)) eqn:E; [|reflexivity].
  destruct (finish_error_status r s E) as [msg ->]. discriminate.
Qed.

Lemma get_headers_ok (self : OutlookClient) (w : World) (headers : pydict)
    (s : OutlookClient * World) :
  get_headers (self, w) = (Ok headers, s) ->
  exists t, access_token self = Some t /\ t <> EmptyString
            /\ dict_find (PStr "Authorization") headers = Some (bearer t).
Proof.
  unfold get_headers. destruct (access_token self) as [t|]; [|discriminate].
  unfold str_truthy. destruct (String.eqb_spec t EmptyString); [discriminate|].
  intros H. inversion H; subst. exists t. repeat split; assumption.
Qed.

Lemma get_headers_raise (self : OutlookClient) (w : World) (e : exn)
    (s : OutlookClient * World) (t : string) :
  get_headers (self, w) = (Raise e, s) ->
  access_token self = Some t -> t = EmptyString.
Proof.
  unfold get_headers. intros H Ht. rewrite Ht in H. revert H.
  unfold str_truthy. destruct (String.eqb_spec t EmptyString); [auto|discriminate].
Qed.

(** C1, as amended.  [request] on a client that holds a non-empty token,
    called without an [Authorization] header of the caller's own:
    - the first request carries the bearer token;
    - at most one more request is made, a retry of the same method and URL,
      and only after a 401 and a successful silent reload; with a usable
      reloaded token the retry is made, with that token;
    - after a 401 and a reload that returns [False] nothing is retried and
      the authentication-expired exception is raised; when the reload
      itself raises, nothing is retried and its exception is the one that
      [request] raises; when the reloaded token is empty, nothing is
      retried and the not-authenticated exception is raised;
    - when the last response has a status from 400 to 599 the call raises,
      and data is returned only for a last status outside that range: the
      call then ends as the parsing of the response's content does, or
      returns an empty dict when there is no content;
    - when the last request raises, [request] raises its exception. *)
Theorem request_contract (method endpoint : string) (kw : kwargs) (token : string)
    (w : World) :
  token <> EmptyString -> keeps_authorization kw ->
  let self := {| access_token := Some token |} in
  let run := request env method endpoint kw (self, w) in
  let sent_with (t : string) (x : Request * result Response) :=
    rq_method (fst x) = method
    /\ rq_url (fst x) = (GRAPH_API_ENDPOINT ++ endpoint)%string
    /\ authorization (fst x) = Some (bearer t)
    /\ rq_kwargs (fst x) = kw_remove "headers" kw in
  exists first rest,
    new_exchanges w (snd (snd run)) = first :: rest
    /\ sent_with token first
    /\ (List.length rest <= 1)%nat
    /\ (let reload :=
          _load_cached_token env (self, after_exchange w (fst first) (snd first)) in
        let unauthorized := exists r1, snd first = Ok r1 /\ status_code r1 = 401%Z in
        (rest <> [] -> unauthorized /\ fst reload = Ok true)
        /\ (unauthorized -> fst reload = Ok true ->
            forall t, access_token (fst (snd reload)) = Some t -> t <> EmptyString ->
            exists retry, rest = [retry] /\ sent_with t retry)
        /\ (unauthorized -> fst reload = Ok false ->
            rest = []
            /\ fst run
               = Raise (Exn "Exception" "Authentication expired. Please re-authenticate."))
        /\ (unauthorized -> forall e, fst reload = Raise e ->
            rest = [] /\ fst run = Raise e)
        /\ (unauthorized -> fst reload = Ok true ->
            access_token (fst (snd reload)) = Some EmptyString ->
            rest = []
            /\ fst run
               = Raise (Exn "Exception"
                          "Not authenticated. Call authenticate_interactive() first.")))
    /\ (forall rq r,
          last rest first = (rq, Ok r) -> is_error_status (status_code r) = true ->
          exists e, fst run = Raise e)
    /\ (forall data,
          fst run = Ok data ->
          exists rq r, last rest first = (rq, Ok r)
                       /\ is_error_status (status_code r) = false)
    /\ (forall rq r,
          last rest first = (rq, Ok r) -> is_error_status (status_code r) = false ->
          fst run = if str_truthy (content r) then json env r else Ok (PDict []))
    /\ (forall rq e, last rest first = (rq, Raise e) -> fst run = Raise e).
Proof.
  intros Htoken Hkw.
  destruct (request_run method endpoint kw token w Htoken Hkw) as (headers & Hauth & Hrun).
  cbv zeta in Hrun |- *. rewrite Hrun. clear Hrun.
  set (self := {| access_token := Some token |}).
  set (rq1 := {| rq_method := method; rq_url := (GRAPH_API_ENDPOINT ++ endpoint)%string;
                 rq_headers := headers; rq_kwargs := kw_remove "headers" kw |}).
  assert (Hfirst : rq_method rq1 = method
                  /\ rq_url rq1 = (GRAPH_API_ENDPOINT ++ endpoint)%string
                  /\ authorization rq1 = Some (bearer token)
                  /\ rq_kwargs rq1 = kw_remove "headers" kw).
  { repeat split. exact Hauth. }
  destruct (http env w rq1) as [r1|e] eqn:Ea1.
  2:{ (* the first request raises *)
      exists (rq1, Raise e), []. cbn [fst snd].
      split; [apply new_exchanges_app; reflexivity|].
      split; [exact Hfirst|]. split; [cbn; lia|].
      split; [split; [|split; [|split; [|split]]]|split; [|split; [|split]]].
      - intros Hne. exfalso. apply Hne. reflexivity.
      - intros (r & H & _). discriminate.
      - intros (r & H & _). discriminate.
      - intros (r & H & _). discriminate.
      - intros (r & H & _). discriminate.
      - cbn. intros rq r H. discriminate.
      - intros data H. discriminate.
      - cbn. intros rq r H. discriminate.
      - cbn. intros rq e' H. inversion H; subst. reflexivity. }
  destruct (status_code r1 =? 401)%Z eqn:E401.
  2:{ (* no 401: the response is final *)
      apply Z.eqb_neq in E401.
      exists (rq1, Ok r1), []. rewrite finish_state. cbn [fst snd].
      split; [apply new_exchanges_app; reflexivity|].
      split; [exact Hfirst|]. split; [cbn; lia|].
      split; [split; [|split; [|split; [|split]]]|split; [|split; [|split]]].
      - intros Hne. exfalso. apply Hne. reflexivity.
      - intros (r & H & Hs). inversion H; subst. contradiction.
      - intros (r & H & Hs). inversion H; subst. contradiction.
      - intros (r & H & Hs). inversion H; subst. contradiction.
      - intros (r & H & Hs). inversion H; subst. contradiction.
      - cbn. intros rq r H Herr. inversion H; subst.
        destruct (finish_error_status r (self, after_exchange w rq1 (Ok r)) Herr) as [msg ->].
        eexists. reflexivity.
      - cbn. intros data H. exists rq1, r1. split; [reflexivity|].
        exact (finish_ok _ _ _ H).
      - cbn. intros rq r H Hok. inversion H; subst.
        rewrite (finish_other_status r _ Hok). reflexivity.
      - cbn. intros rq e H. discriminate. }
  apply Z.eqb_eq in E401.
  assert (Herr1 : is_error_status (status_code r1) = true) by (rewrite E401; reflexivity).
  assert (H401 : exists r, Ok r1 = Ok r /\ status_code r = 401%Z)
    by (exists r1; split; [reflexivity|exact E401]).
  pose proof (load_cached_token_exchanges (self, after_exchange w rq1 (Ok r1))) as Hex.
  destruct (_load_cached_token env (self, after_exchange w rq1 (Ok r1)))
    as [[[|]|e] [self2 w2]] eqn:Ereload; cbn [fst snd] in Hex.
  - (* the reload succeeded *)
    destruct (get_headers (self2, w2)) as [[headers2|e] s2] eqn:Eh.
    + destruct (get_headers_ok _ _ _ _ Eh) as (t & Ht & Hne & Hauth2).
      set (rq2 := {| rq_method := method; rq_url := (GRAPH_API_ENDPOINT ++ endpoint)%string;
                     rq_headers := headers2; rq_kwargs := kw_remove "headers" kw |}).
      exists (rq1, Ok r1), [(rq2, http env w2 rq2)].
      cbn [fst snd]. rewrite Ereload. cbn [fst snd].
      split.
      { apply new_exchanges_app.
        destruct (http env w2 rq2) as [r2|e]; [rewrite finish_state|];
          cbn; rewrite Hex; cbn; rewrite <- app_assoc; reflexivity. }
      split; [exact Hfirst|]. split; [cbn; lia|].
      split; [split; [|split; [|split; [|split]]]|split; [|split; [|split]]].
      * intros _. split; [exact H401|reflexivity].
      * intros _ _ t' Ht' _. exists (rq2, http env w2 rq2). split; [reflexivity|].
        repeat split. cbn. unfold authorization. cbn. congruence.
      * discriminate.
      * discriminate.
      * intros _ _ Hempty. exfalso. apply Hne. congruence.
      * cbn. intros rq r H Herr. inversion H as [[Hrq Ha]]. rewrite Ha.
        destruct (finish_error_status r (self2, after_exchange w2 rq2 (Ok r)) Herr)
          as [msg ->].
        eexists. reflexivity.
      * cbn. intros data H. destruct (http env w2 rq2) as [r2|e]; [|discriminate].
        exists rq2, r2. split; [reflexivity|]. exact (finish_ok _ _ _ H).
      * cbn. intros rq r H Hok. inversion H as [[Hrq Ha]]. rewrite Ha.
        rewrite (finish_other_status r _ Hok). reflexivity.
      * cbn. intros rq e H. inversion H as [[Hrq Ha]]. rewrite Ha. reflexivity.
    + (* the reloaded token is empty: no headers, no retry *)
      exists (rq1, Ok r1), []. cbn [fst snd]. rewrite Ereload. cbn [fst snd].
      assert (s2 = (self2, w2)) as ->.
      { unfold get_headers in Eh. destruct (access_token self2) as [t|];
          [destruct (str_truthy t)|]; inversion Eh; reflexivity. }
      split; [apply new_exchanges_app; cbn; rewrite Hex; reflexivity|].
      split; [exact Hfirst|]. split; [cbn; lia|].
      split; [split; [|split; [|split; [|split]]]|split; [|split; [|split]]].
      * intros Hne. exfalso. apply Hne. reflexivity.
      * intros _ _ t Ht Hne. exfalso. apply Hne. exact (get_headers_raise _ _ _ _ _ Eh Ht).
      * discriminate.
      * discriminate.
      * intros _ _ Hempty. split; [reflexivity|].
        unfold get_headers in Eh. rewrite Hempty in Eh. cbn in Eh.
        inversion Eh. reflexivity.
      * cbn. intros. eexists. reflexivity.
      * intros data H. discriminate.
      * cbn. intros rq r H Hok. inversion H; subst. congruence.
      * cbn. intros rq e' H. discriminate.
  - (* the reload failed *)
    exists (rq1, Ok r1), []. cbn [fst snd]. rewrite Ereload. cbn [fst snd].
    split; [apply new_exchanges_app; cbn; rewrite Hex; reflexivity|].
    split; [exact Hfirst|]. split; [cbn; lia|].
    split; [split; [|split; [|split; [|split]]]|split; [|split; [|split]]].
    * intros Hne. exfalso. apply Hne. reflexivity.
    * discriminate.
    * intros _ _. split; reflexivity.
    * discriminate.
    * discriminate.
    * cbn. intros. eexists. reflexivity.
    * intros data H. discriminate.
    * cbn. intros rq r H Hok. inversion H; subst. congruence.
    * cbn. intros rq e' H. discriminate.
  - (* the reload raised *)
    exists (rq1, Ok r1), []. cbn [fst snd]. rewrite Ereload. cbn [fst snd].
    split; [apply new_exchanges_app; cbn; rewrite Hex; reflexivity|].
    split; [exact Hfirst|]. split; [cbn; lia|].
    split; [split; [|split; [|split; [|split]]]|split; [|split; [|split]]].
    * intros Hne. exfalso. apply Hne. reflexivity.
    * discriminate.
    * discriminate.
    * intros _ e' He'. inversion He'; subst. split; reflexivity.
    * discriminate.
    * cbn. intros. eexists. reflexivity.
    * intros data H. discriminate.
    * cbn. intros rq r H Hok. inversion H; subst. congruence.
    * cbn. intros rq e' H. discriminate.
Qed.


End Client.
End GraphFacts.

(** ** Schema sanitization *)

Module SchemaFacts.
Import Schema Example.

(** C5.  [remove_null_from_schema] does not look inside the branch of an
    [anyOf] that it keeps: from the schema of an optional list of optional
    strings it returns a schema that still holds an [anyOf] with a
    ["null"] branch. *)
Theorem remove_null_keeps_marker_in_anyOf_branch :
  remove_null_from_schema optional_list_of_optional_strings
  = Ok (PDict [kv "type" (PStr "array");
               kv "items" (PDict [kv "anyOf" (PList [PDict [kv "type" (PStr "string")];
                                                      PDict [kv "type" (PStr "null")]])])])
  /\ (forall out, remove_null_from_schema optional_list_of_optional_strings = Ok out ->
                  has_null_marker out = true).
Proof.
  split.
  - reflexivity.
  - intros out H. vm_compute in H. injection H as <-. reflexivity.
Qed.

End SchemaFacts.

(** ** Entries of a request *)

Module RequestFacts.
Import Tools PyFacts.

Lemma reach_none_value (k : string) (path : list string) : reach (k :: path) PNone = [].
Proof. reflexivity. Qed.

Lemma reach_dict_absent (k : string) (path : list string) (d : pydict) :
  dict_find (PStr k) d = None -> reach (k :: path) (PDict d) = [].
Proof. intros H. cbn. rewrite H. reflexivity. Qed.

Lemma reach_dict_present (k : string) (path : list string) (d : pydict) (v : pyval) :
  dict_find (PStr k) d = Some v -> reach (k :: path) (PDict d) = reach path v.
Proof. intros H. cbn. rewrite H. cbn. apply app_nil_r. Qed.

Lemma reach_or_none (k : string) (path : list string) (d : pydict) :
  reach (k :: path) (or_none d) = reach (k :: path) (PDict d).
Proof. destruct d; reflexivity. Qed.

Lemma reach_step (k : string) (path : list string) (d : pydict) :
  reach (k :: path) (PDict d)
  = match dict_find (PStr k) d with Some v => reach path v | None => [] end.
Proof. cbn. destruct (dict_find (PStr k) d); cbn; [apply app_nil_r|reflexivity]. Qed.

Lemma dict_find_nil (k : pyval) : dict_find k [] = None.
Proof. reflexivity. Qed.

Lemma dict_find_kv_other (a b : string) (v : pyval) (d : pydict) :
  (b =? a)%string = false ->
  dict_find (PStr a) (kv b v :: d) = dict_find (PStr a) d.
Proof. intros H. cbn. rewrite H. reflexivity. Qed.

Lemma dict_find_kv_same (a : string) (v : pyval) (d : pydict) :
  dict_find (PStr a) (kv a v :: d) = Some v.
Proof. cbn. rewrite String.eqb_refl. reflexivity. Qed.

Lemma find_dict_set_other (a b : string) (v : pyval) (d : pydict) :
  (b =? a)%string = false ->
  dict_find (PStr a) (dict_set (PStr b) v d) = dict_find (PStr a) d.
Proof. intros H. rewrite dict_find_set_str, H. reflexivity. Qed.

Lemma find_dict_set_same (a : string) (v : pyval) (d : pydict) :
  dict_find (PStr a) (dict_set (PStr a) v d) = Some v.
Proof. rewrite dict_find_set_str, String.eqb_refl. reflexivity. Qed.

Lemma find_set_given_same {A} (a : string) (o : option A) (f : A -> pyval) (d : pydict) :
  dict_find (PStr a) (set_given a o f d)
  = match o with Some x => Some (f x) | None => dict_find (PStr a) d end.
Proof. destruct o; cbn; [apply find_dict_set_same|reflexivity]. Qed.

Lemma find_set_given_other {A} (a b : string) (o : option A) (f : A -> pyval) (d : pydict) :
  (b =? a)%string = false ->
  dict_find (PStr a) (set_given b o f d) = dict_find (PStr a) d.
Proof. intros H. destruct o; cbn; [apply find_dict_set_other; exact H|reflexivity]. Qed.

Lemma find_set_str_other (a b : string) (o : option string) (d : pydict) :
  (b =? a)%string = false ->
  dict_find (PStr a) (set_str b o d) = dict_find (PStr a) d.
Proof.
  intros H. destruct o as [s|]; cbn; [|reflexivity].
  destruct (str_truthy s); [apply find_dict_set_other; exact H|reflexivity].
Qed.

Lemma find_set_list_other {A} (a b : string) (o : option (list A)) (f : list A -> pyval)
    (d : pydict) :
  (b =? a)%string = false ->
  dict_find (PStr a) (set_list b o f d) = dict_find (PStr a) d.
Proof.
  intros H. destruct o as [[|x l]|]; cbn; try reflexivity.
  apply find_dict_set_other. exact H.
Qed.

Lemma find_set_joined_other (a b : string) (o : option (list string)) (d : pydict) :
  (b =? a)%string = false ->
  dict_find (PStr a) (set_joined b o d) = dict_find (PStr a) d.
Proof. apply find_set_list_other. Qed.

Lemma set_given_unset {A} (k : string) (f : A -> pyval) (d : pydict) :
  set_given k None f d = d.
Proof. reflexivity. Qed.

Lemma set_str_unset (k : string) (d : pydict) : set_str k None d = d.
Proof. reflexivity. Qed.

Lemma set_list_unset {A} (k : string) (f : list A -> pyval) (d : pydict) :
  set_list k None f d = d.
Proof. reflexivity. Qed.

Lemma set_joined_unset (k : string) (d : pydict) : set_joined k None d = d.
Proof. reflexivity. Qed.

(** *** Shapes *)

















(** What a shape tells about the entries of a value. *)










End RequestFacts.

(** ** Tool functions *)

Module ToolFacts.
Import Tools PyFacts RequestFacts ToolShapes.
Local Open Scope py_scope.

Create HintDb tools discriminated.
#[local] Hint Unfold add_mail_attachment create_draft create_draft_reply get_message
  move_message reply_email search_messages update_email send_email list_calendars
  list_event_attachments list_outlook_attachments list_reminders list_contacts
  list_events list_mail_folders list_messages download_outlook_attachment
  create_mail_folder delete_mail_folder create_calendar add_event_attachment
  create_event delete_event get_event update_calendar_event get_schedule
  create_email_rule get_master_categories create_master_category get_profile
  get_mailbox_settings get_mail_delta get_mail_tips get_supported_languages
  get_supported_time_zones update_mailbox_settings create_contact get_contact
  get_contact_folders delete_contact update_contact create_contact_folder : tools.
Create HintDb tries discriminated.
#[local] Hint Unfold add_mail_attachment_try create_draft_try create_draft_reply_try
  get_message_try move_message_try reply_email_try search_messages_try update_email_try
  send_email_try list_calendars_try list_event_attachments_try
  list_outlook_attachments_try list_reminders_try list_contacts_try list_events_try
  list_mail_folders_try list_messages_try download_outlook_attachment_try
  create_mail_folder_try delete_mail_folder_try create_calendar_try
  add_event_attachment_try create_event_try delete_event_try get_event_try
  update_calendar_event_try get_schedule_try create_email_rule_try
  get_master_categories_try create_master_category_try get_profile_try
  get_mailbox_settings_try get_mail_delta_try get_mail_tips_try
  get_supported_languages_try get_supported_time_zones_try update_mailbox_settings_try
  create_contact_try get_contact_try get_contact_folders_try delete_contact_try
  update_contact_try create_contact_folder_try : tries.

Section WithRuntime.
Variable R : Runtime.

Lemma run_tool_try_except (tc : tool_call) :
  run_tool R tc = try_except (tool_try R tc) (tool_except R tc).
Proof. destruct tc; reflexivity. Qed.

(** The first statement of every [try] block is the authentication check. *)
Lemma tool_try_unauthenticated (tc : tool_call) (st : State R) :
  is_authenticated R (client R st) = false ->
  tool_try R tc st = (Ok (failure NOT_AUTHENTICATED), st).
Proof.
  intros H. destruct tc; cbn [tool_try]; autounfold with tries;
    unfold bind, authenticated; rewrite H; reflexivity.
Qed.

(** C2.  A tool function called with a client that is not authenticated
    returns the authentication-required envelope and leaves the client,
    the files and the list of requests as they were: no request is made. *)
Theorem unauthenticated_call_is_refused (tc : tool_call) (st : State R) :
  is_authenticated R (client R st) = false ->
  run_tool R tc st = (Ok (failure NOT_AUTHENTICATED), st)
  /\ new_calls st (snd (run_tool R tc st)) = [].
Proof.
  intros H.
  assert (E : run_tool R tc st = (Ok (failure NOT_AUTHENTICATED), st)).
  { rewrite run_tool_try_except. unfold try_except.
    rewrite (tool_try_unauthenticated tc st H). reflexivity. }
  split; [exact E|].
  rewrite E. unfold new_calls. cbn [snd]. apply skipn_all.
Qed.

Lemma new_calls_app (before after : State R) (l : list Call) :
  calls R after = (calls R before ++ l)%list -> new_calls before after = l.
Proof.
  intros E. unfold new_calls. rewrite E.
  rewrite skipn_app, skipn_all, Nat.sub_diag. reflexivity.
Qed.

(** *** What a [try] block returns *)

Lemma returns_ret {A} (P : A -> Prop) (a : A) : P a -> returns (R:=R) P (ret a).
Proof. intros H st a' st' E. inversion E; subst. exact H. Qed.

Lemma returns_bind {A B} (P : B -> Prop) (m : M R A) (k : A -> M R B) :
  (forall a, returns P (k a)) -> returns P (bind m k).
Proof.
  intros H st b st' E. unfold bind in E.
  destruct (m st) as [[a|e] st1]; [|discriminate].
  exact (H a st1 b st' E).
Qed.

Lemma returns_bind_with {A B} (Q : A -> Prop) (P : B -> Prop) (m : M R A) (k : A -> M R B) :
  returns Q m -> (forall a, Q a -> returns P (k a)) -> returns P (bind m k).
Proof.
  intros Hm H st b st' E. unfold bind in E.
  destruct (m st) as [[a|e] st1] eqn:Em; [|discriminate].
  exact (H a (Hm _ _ _ Em) st1 b st' E).
Qed.

Lemma returns_try_except {A} (P : A -> Prop) (m : M R A) (h : exn -> M R A) :
  returns P m -> (forall e, returns P (h e)) -> returns P (try_except m h).
Proof.
  intros Hm Hh st a st' E. unfold try_except in E.
  destruct (m st) as [[a0|e] st1] eqn:Em.
  - inversion E; subst. exact (Hm _ _ _ Em).
  - destruct (is_Exception e); [exact (Hh e _ _ _ E)|discriminate].
Qed.

Lemma well_formed_success (d : pyval) : well_formed (success d).
Proof. left. split; reflexivity. Qed.

Lemma well_formed_failure (msg : string) : msg <> EmptyString -> well_formed (failure msg).
Proof. intros H. right. repeat split. exists msg. split; [reflexivity|exact H]. Qed.

Ltac nonempty := cbn; discriminate.

Ltac returns_step :=
  lazymatch goal with
  | |- returns _ (bind _ _) => apply returns_bind; intros
  | |- returns _ (ret (success _)) => apply returns_ret, well_formed_success
  | |- returns _ (ret (failure _)) => apply returns_ret, well_formed_failure; nonempty
  | |- returns _ (if ?c then _ else _) => destruct c
  | |- returns _ (match ?x with _ => _ end) => destruct x
  end.

Lemma update_email_draft_check_returns (check_endpoint : string) :
  returns (fun r => match r with Some e => well_formed e | None => True end)
          (update_email_draft_check R check_endpoint).
Proof.
  unfold update_email_draft_check. apply returns_try_except.
  - apply returns_bind; intros. apply returns_bind; intros.
    destruct (negb (truthy a0)); apply returns_ret;
      [apply well_formed_failure; nonempty | exact I].
  - intros e. apply returns_ret. exact I.
Qed.

Lemma event_attachment_content_returns (contentBytes file_path text_content : option string) :
  returns (fun r => match r with inl e => well_formed e | inr _ => True end)
          (event_attachment_content R contentBytes file_path text_content).
Proof.
  unfold event_attachment_content. destruct file_path as [path|].
  - apply returns_bind; intros present. destruct (negb present).
    + apply returns_ret, well_formed_failure; nonempty.
    + apply returns_try_except.
      * apply returns_bind; intros. apply returns_ret. exact I.
      * intros e. apply returns_ret, well_formed_failure; nonempty.
  - destruct text_content.
    + apply returns_bind; intros. apply returns_ret. exact I.
    + apply returns_ret. exact I.
Qed.

(** Every envelope a [try] block returns is well formed. *)
Lemma tool_try_well_formed (tc : tool_call) : returns well_formed (tool_try R tc).
Proof.
  destruct tc; cbn [tool_try]; autounfold with tries; cbv zeta;
    apply returns_bind; intros auth; destruct (negb auth);
    try (apply returns_ret, well_formed_failure; nonempty).
  all: try solve [repeat returns_step].
  - (* update_email *)
    eapply returns_bind_with; [apply update_email_draft_check_returns|].
    intros [envelope|] H; [apply returns_ret; exact H|].
    repeat returns_step.
  - (* add_event_attachment *)
    eapply returns_bind_with; [apply event_attachment_content_returns|].
    intros [envelope|content] H; [apply returns_ret; exact H|].
    repeat returns_step.
Qed.

(** What an [except] clause returns for an exception. *)
Lemma tool_except_returns (tc : tool_call) (e : exn) (st : State R) :
  tool_except R tc e st = (Ok (failure (exn_msg e)), st)
  \/ tool_except R tc e st = (Ok (failure (UPDATE_PREFIX ++ exn_msg e)), st).
Proof.
  destruct tc; cbn [tool_except]; try (left; reflexivity).
  unfold update_email_except.
  match goal with |- context [if ?c then _ else _] => destruct c end;
    [right | left]; reflexivity.
Qed.

(** C3, as amended.  An envelope returned by a tool function is either a
    success without an error entry, or a failure with data [{}] and an
    error text; the text is empty only when it is the text of the
    exception that ended the [try] block, and that text is empty. *)
Theorem envelope_invariant (tc : tool_call) (st st' : State R) (envelope : Envelope) :
  run_tool R tc st = (Ok envelope, st') ->
  (successful envelope = true /\ error envelope = None)
  \/ (successful envelope = false /\ data envelope = PDict []
      /\ exists msg, error envelope = Some msg
         /\ (msg = EmptyString ->
             exists e st1, tool_try R tc st = (Raise e, st1) /\ exn_msg e = EmptyString)).
Proof.
  rewrite run_tool_try_except. unfold try_except.
  destruct (tool_try R tc st) as [[a|e] st1] eqn:E; intros H.
  - inversion H; subst a st1. clear H.
    destruct (tool_try_well_formed tc _ _ _ E) as [Hs | (Hs & Hd & msg & Hm & Hne)].
    + left. exact Hs.
    + right. repeat split; try assumption.
      exists msg. split; [assumption|]. intros ->. contradiction.
  - right. destruct (is_Exception e); [|discriminate].
    destruct (tool_except_returns tc e st1) as [E' | E']; rewrite E' in H;
      inversion H; subst; repeat split.
    + exists (exn_msg e). split; [reflexivity|]. intros Hempty. exists e, st'. auto.
    + exists (UPDATE_PREFIX ++ exn_msg e)%string. split; [reflexivity|]. discriminate.
Qed.

(** A call of a tool function, from what its [try] block does: an envelope
    is returned as it is, an exception that is an instance of [Exception]
    becomes a failure with its text (after a fixed prefix in some cases of
    [update_email]), and any other exception passes through. *)
Lemma run_tool_cases (tc : tool_call) (st : State R) :
  match tool_try R tc st with
  | (Ok envelope, st1) => run_tool R tc st = (Ok envelope, st1)
  | (Raise e, st1) =>
      if is_Exception e then
        run_tool R tc st = (Ok (failure (exn_msg e)), st1)
        \/ (tool_name tc = "update_email"
            /\ run_tool R tc st = (Ok (failure (UPDATE_PREFIX ++ exn_msg e)%string), st1))
      else run_tool R tc st = (Raise e, st1)
  end.
Proof.
  rewrite run_tool_try_except. unfold try_except.
  destruct (tool_try R tc st) as [[envelope|e] st1]; [reflexivity|].
  destruct (is_Exception e); [|reflexivity].
  destruct tc; cbn [tool_except]; try (left; reflexivity).
  unfold update_email_except.
  match goal with |- context [if ?c then _ else _] => destruct c end;
    [right; split; reflexivity | left; reflexivity].
Qed.

(** *** The requests of a call *)

Lemma traced_new_calls {A} (P : Call -> Prop) (m : M R A) (st : State R) (c : Call) :
  traced P m -> In c (new_calls st (snd (m st))) -> P c.
Proof.
  intros H Hin. destruct (H st) as (l & E & Hl).
  rewrite (new_calls_app _ _ _ E) in Hin.
  rewrite Forall_forall in Hl. exact (Hl c Hin).
Qed.

Lemma traced_quiet {A} (P : Call -> Prop) (m : M R A) :
  (forall st, calls R (snd (m st)) = calls R st) -> traced P m.
Proof. intros H st. exists []. rewrite app_nil_r. split; [apply H|constructor]. Qed.

Lemma traced_ret {A} (P : Call -> Prop) (a : A) : traced (R:=R) P (ret a).
Proof. apply traced_quiet. reflexivity. Qed.

Lemma traced_raise {A} (P : Call -> Prop) (e : exn) :
  traced (R:=R) P (raise e : M R A).
Proof. apply traced_quiet. reflexivity. Qed.

Lemma traced_lift {A} (P : Call -> Prop) (r : result A) : traced (R:=R) P (lift r).
Proof. apply traced_quiet. reflexivity. Qed.

Lemma traced_authenticated (P : Call -> Prop) : traced P (authenticated R).
Proof. apply traced_quiet. reflexivity. Qed.

Lemma traced_os_path_exists (P : Call -> Prop) (path : string) :
  traced P (os_path_exists R path).
Proof. apply traced_quiet. reflexivity. Qed.

Lemma traced_open_read (P : Call -> Prop) (path : string) : traced P (open_read R path).
Proof. apply traced_quiet. reflexivity. Qed.

Lemma traced_open_write (P : Call -> Prop) (path bytes : string) :
  traced P (open_write R path bytes).
Proof.
  apply traced_quiet. intros st. unfold open_write.
  destruct (write_file R path bytes (files R st)). reflexivity.
Qed.

Lemma traced_client_request (P : Call -> Prop) (method endpoint : string) (kw : kwargs) :
  (forall outcome, P {| call_method := method; call_endpoint := endpoint;
                        call_kwargs := kw; call_outcome := outcome |}) ->
  traced P (client_request R method endpoint kw).
Proof.
  intros H st. unfold client_request.
  destruct (request R method endpoint kw (client R st)) as [outcome client'].
  eexists. split; [reflexivity|]. constructor; [apply H|constructor].
Qed.

Lemma traced_bind {A B} (P : Call -> Prop) (m : M R A) (k : A -> M R B) :
  traced P m -> (forall a, traced P (k a)) -> traced P (bind m k).
Proof.
  intros Hm Hk st. unfold bind.
  destruct (Hm st) as (l1 & E1 & H1).
  destruct (m st) as [[a|e] st1]; cbn [snd] in *.
  - destruct (Hk a st1) as (l2 & E2 & H2).
    exists (l1 ++ l2)%list. split.
    + rewrite E2, E1, app_assoc. reflexivity.
    + apply Forall_app. split; assumption.
  - exists l1. split; assumption.
Qed.

Lemma traced_bind_ret {A B} (P : Call -> Prop) (a : A) (k : A -> M R B) :
  traced P (k a) -> traced P (bind (ret a) k).
Proof. intros H st. exact (H st). Qed.

Lemma traced_try_except {A} (P : Call -> Prop) (m : M R A) (h : exn -> M R A) :
  traced P m -> (forall e, traced P (h e)) -> traced P (try_except m h).
Proof.
  intros Hm Hh st. unfold try_except.
  destruct (Hm st) as (l1 & E1 & H1).
  destruct (m st) as [[a|e] st1]; cbn [snd] in *.
  - exists l1. split; assumption.
  - destruct (is_Exception e); [|exists l1; split; assumption].
    destruct (Hh e st1) as (l2 & E2 & H2).
    exists (l1 ++ l2)%list. split.
    + rewrite E2, E1, app_assoc. reflexivity.
    + apply Forall_app. split; assumption.
Qed.

Lemma traced_tool_except (P : Call -> Prop) (tc : tool_call) (e : exn) :
  traced P (tool_except R tc e).
Proof.
  apply traced_quiet. intros st.
  destruct (tool_except_returns tc e st) as [-> | ->]; reflexivity.
Qed.

(** *** Scenarios *)

(** Runs a tool function on an authenticated client up to its requests. *)
Ltac run_authenticated H :=
  autounfold with tools; unfold try_except; autounfold with tries;
  unfold bind, authenticated; rewrite H; cbn;
  unfold client_get, client_post, client_patch, client_delete, client_request.


(** C8.  On an authenticated client,
    [list_messages(folder="inbox", is_read=False)] makes exactly one
    request, a GET whose endpoint ends in [/mailFolders/inbox/messages] and
    whose [$filter] query parameter is the clause [isRead eq false]. *)
Theorem list_messages_scenario (st : State R) :
  is_authenticated R (client R st) = true ->
  let run :=
    list_messages R (Some "inbox") None None None None None (Some false) None None None
      None None None None None None None None None None None None st in
  exists c,
    new_calls st (snd run) = [c]
    /\ call_method c = "GET"
    /\ call_endpoint c = ("/me" ++ "/mailFolders/inbox/messages")%string
    /\ call_kwargs c = [("params", PDict [kv "$filter" (PStr "isRead eq false")])]
    /\ (exists filter,
          reach ["$filter"] (argument c InParams) = [PStr filter]
          /\ contains "isRead eq false" filter = true).
Proof.
  intros H. run_authenticated H.
  destruct (request R _ _ _ _) as [[body|e] client']; [|destruct (is_Exception e)];
    (eexists; split; [apply new_calls_app; reflexivity|]);
    cbn; repeat split; eexists; split; reflexivity.
Qed.

(** C10, as amended.  On an authenticated client, [update_email] with no
    field to update makes one request, the GET of its draft check, and no
    PATCH; it returns a failure, whose error says that a field must be
    provided, unless the check answered a dict whose [isDraft] is missing or
    false: then the error says that only drafts can be updated.  (An
    exception of the check that is no instance of [Exception] is not caught
    and ends the call.) *)
Theorem update_email_without_fields (message_id : string) (user_id : option string)
    (st : State R) :
  is_authenticated R (client R st) = true ->
  let run := update_email R message_id None None None None None None user_id st in
  exists check,
    new_calls st (snd run) = [check]
    /\ call_method check = "GET"
    /\ call_endpoint check
       = ("/" ++ or_else user_id "me" ++ "/messages/" ++ message_id ++ "?$select=isDraft")%string
    /\ fst run
       = match call_outcome check with
         | Ok (PDict info) =>
             Ok (failure (if truthy (dict_get "isDraft" (PBool false) info)
                          then NOTHING_TO_UPDATE else NOT_A_DRAFT))
         | Ok _ => Ok (failure NOTHING_TO_UPDATE)
         | Raise e => if is_Exception e then Ok (failure NOTHING_TO_UPDATE) else Raise e
         end.
Proof.
  intros H. run_authenticated H.
  unfold update_email_draft_check, try_except, bind, client_get, client_request.
  destruct (request R _ _ _ _) as [[info|e] client'];
    [destruct info as [| | | | |info];
       [..|cbn; destruct (truthy (dict_get "isDraft" (PBool false) info)) eqn:Hd]
    |destruct (is_Exception e) eqn:Hc];
    cbn; rewrite ?Hc; cbn; rewrite ?Hc;
    (eexists; split; [apply new_calls_app; reflexivity|]);
    cbn; rewrite ?Hd, ?Hc; repeat split.
Qed.

(** *** Optional parameters *)

#[local] Arguments set_given : simpl never.
#[local] Arguments set_str : simpl never.
#[local] Arguments set_list : simpl never.
#[local] Arguments set_joined : simpl never.
#[local] Arguments dict_set : simpl never.
#[local] Arguments dict_find : simpl never.
#[local] Arguments reach : simpl never.
#[local] Arguments or_none : simpl never.
#[local] Arguments or_else : simpl never.
#[local] Arguments recipients : simpl never.
#[local] Arguments attendee_entries : simpl never.
#[local] Arguments String.append : simpl never.
#[local] Arguments join : simpl never.

(** Brings the [dict_find k d] of the goal to [Some v] or [None], where [d]
    is built by the helpers of the tool functions. *)
Ltac find_entry :=
  repeat first
    [ rewrite set_given_unset
    | rewrite set_str_unset
    | rewrite set_list_unset
    | rewrite set_joined_unset
    | rewrite dict_find_nil
    | rewrite dict_find_kv_same
    | rewrite dict_find_kv_other by reflexivity
    | rewrite find_dict_set_same
    | rewrite find_set_given_same
    | rewrite find_set_given_other by reflexivity
    | rewrite find_set_str_other by reflexivity
    | rewrite find_set_list_other by reflexivity
    | rewrite find_set_joined_other by reflexivity
    | rewrite find_dict_set_other by reflexivity
    | progress cbv beta iota
    | match goal with
      | E : ?x = ?p :: ?l |- context [dict_find _ (?p :: ?l)] => rewrite <- E
      | |- context [dict_find _ (match ?x with _ => _ end)] =>
          first [is_var x; destruct x | destruct x eqn:?]
      | |- context [dict_find _ (if ?c then _ else _)] => destruct c
      | |- context [match ?x with Some _ => _ | None => _ end] => is_var x; destruct x
      end ].

Ltac trace_step leaf :=
  cbv beta iota;
  lazymatch goal with
  | |- traced _ (bind (ret _) _) => apply traced_bind_ret
  | |- traced _ (bind _ _) => apply traced_bind; [|intros]
  | |- traced _ (ret _) => apply traced_ret
  | |- traced _ (lift _) => apply traced_lift
  | |- traced _ (authenticated _) => apply traced_authenticated
  | |- traced _ (os_path_exists _ _) => apply traced_os_path_exists
  | |- traced _ (open_read _ _) => apply traced_open_read
  | |- traced _ (open_write _ _ _) => apply traced_open_write
  | |- traced _ (try_except _ _) => apply traced_try_except; [|intros]
  | |- traced _ (client_request _ _ _ _) => apply traced_client_request; leaf
  | |- traced _ (match ?x with _ => _ end) =>
      first [is_var x; destruct x | destruct x eqn:?]
  end.

Ltac trace leaf :=
  rewrite run_tool_try_except;
  apply traced_try_except; [|intros; apply traced_tool_except];
  cbn [tool_try]; autounfold with tries;
  unfold update_email_draft_check, event_attachment_content,
    client_get, client_post, client_patch, client_delete;
  cbv zeta;
  repeat trace_step leaf.

#[local] Arguments add_str : simpl never.
#[local] Arguments add_given : simpl never.


















(** *** Where requests go *)

Lemma append_empty (s : string) : (s ++ EmptyString)%string = s.
Proof.
  induction s as [|c s IH]; [reflexivity|].
  change (String c (s ++ EmptyString)%string = String c s). rewrite IH. reflexivity.
Qed.

Ltac user_leaf :=
  intros outcome; cbn [call_endpoint];
  repeat match goal with
         | |- context [match ?x with _ => _ end] => destruct x
         end;
  first [ eexists; reflexivity
        | exists EmptyString; rewrite append_empty; reflexivity ].

(** X1.  Every request of a tool function goes to the user the call names:
    its endpoint begins with [/] and the [user_id] of the call, or with
    [/me] when the call has none or the function has no such parameter. *)
Theorem requests_address_the_user (tc : tool_call) (st : State R) (c : Call) :
  In c (new_calls st (snd (run_tool R tc st))) ->
  exists rest, call_endpoint c = ("/" ++ user_of tc ++ rest)%string.
Proof.
  apply (traced_new_calls (fun c => exists rest, call_endpoint c = ("/" ++ user_of tc ++ rest)%string)).
  destruct tc; cbn [user_of]; trace user_leaf.
Qed.


(** *** Local files *)

Lemma keeps_files_ret {A} (a : A) : keeps_files (R:=R) (ret a).
Proof. intros st. reflexivity. Qed.

Lemma keeps_files_lift {A} (r : result A) : keeps_files (R:=R) (lift r).
Proof. intros st. reflexivity. Qed.

Lemma keeps_files_authenticated : keeps_files (authenticated R).
Proof. intros st. reflexivity. Qed.

Lemma keeps_files_os_path_exists (path : string) : keeps_files (os_path_exists R path).
Proof. intros st. reflexivity. Qed.

Lemma keeps_files_open_read (path : string) : keeps_files (open_read R path).
Proof. intros st. reflexivity. Qed.

Lemma keeps_files_client_request (method endpoint : string) (kw : kwargs) :
  keeps_files (client_request R method endpoint kw).
Proof.
  intros st. unfold client_request.
  destruct (request R method endpoint kw (client R st)). reflexivity.
Qed.

Lemma keeps_files_bind {A B} (m : M R A) (k : A -> M R B) :
  keeps_files m -> (forall a, keeps_files (k a)) -> keeps_files (bind m k).
Proof.
  intros Hm Hk st. unfold bind. specialize (Hm st).
  destruct (m st) as [[a|e] st1]; cbn [snd] in *; [rewrite (Hk a st1)|]; exact Hm.
Qed.

Lemma keeps_files_try_except {A} (m : M R A) (h : exn -> M R A) :
  keeps_files m -> (forall e, keeps_files (h e)) -> keeps_files (try_except m h).
Proof.
  intros Hm Hh st. unfold try_except. specialize (Hm st).
  destruct (m st) as [[a|e] st1]; cbn [snd] in *; [exact Hm|].
  destruct (is_Exception e); cbn [snd]; [rewrite (Hh e st1)|]; exact Hm.
Qed.

Lemma keeps_files_tool_except (tc : tool_call) (e : exn) : keeps_files (tool_except R tc e).
Proof.
  intros st. destruct (tool_except_returns tc e st) as [-> | ->]; reflexivity.
Qed.

Ltac frame_step :=
  cbv beta iota;
  lazymatch goal with
  | |- keeps_files (bind _ _) => apply keeps_files_bind; [|intros]
  | |- keeps_files (ret _) => apply keeps_files_ret
  | |- keeps_files (lift _) => apply keeps_files_lift
  | |- keeps_files (authenticated _) => apply keeps_files_authenticated
  | |- keeps_files (os_path_exists _ _) => apply keeps_files_os_path_exists
  | |- keeps_files (open_read _ _) => apply keeps_files_open_read
  | |- keeps_files (try_except _ _) => apply keeps_files_try_except; [|intros]
  | |- keeps_files (client_request _ _ _ _) => apply keeps_files_client_request
  | |- keeps_files (match ?x with _ => _ end) =>
      first [is_var x; destruct x | destruct x eqn:?]
  end.

(** X2.  No tool function other than [download_outlook_attachment] changes
    a local file, whatever the client answers. *)
Theorem tools_leave_the_files (tc : tool_call) (st : State R) :
  tool_name tc <> "download_outlook_attachment" ->
  files R (snd (run_tool R tc st)) = files R st.
Proof.
  intros Hname. revert st. change (keeps_files (run_tool R tc)).
  rewrite run_tool_try_except.
  apply keeps_files_try_except; [|intros; apply keeps_files_tool_except].
  destruct tc; try (exfalso; apply Hname; reflexivity);
    cbn [tool_try]; autounfold with tries;
    unfold update_email_draft_check, event_attachment_content,
      client_get, client_post, client_patch, client_delete;
    cbv zeta;
    repeat frame_step.
Qed.

(** *** The sequence of requests *)

Lemma observes_ret {A} (Post : list Call -> result A -> Prop) (a : A) :
  Post [] (Ok a) -> observes (R:=R) Post (ret a).
Proof. intros H st. exists []. rewrite app_nil_r. split; [reflexivity|exact H]. Qed.

Lemma observes_lift {A} (Post : list Call -> result A -> Prop) (r : result A) :
  Post [] r -> observes (R:=R) Post (lift r).
Proof. intros H st. exists []. rewrite app_nil_r. split; [reflexivity|exact H]. Qed.

Lemma observes_bind {A B} (Post1 : list Call -> result A -> Prop)
    (Post : list Call -> result B -> Prop) (m : M R A) (k : A -> M R B) :
  observes Post1 m ->
  (forall l1 e, Post1 l1 (Raise e) -> Post l1 (Raise e)) ->
  (forall l1 a, Post1 l1 (Ok a) -> observes (fun l r => Post (l1 ++ l)%list r) (k a)) ->
  observes Post (bind m k).
Proof.
  intros Hm Hraise Hk st. unfold bind.
  destruct (Hm st) as (l1 & E1 & H1).
  destruct (m st) as [[a|e] st1]; cbn [fst snd] in *.
  - destruct (Hk l1 a H1 st1) as (l2 & E2 & H2).
    exists (l1 ++ l2)%list. split; [|exact H2].
    rewrite E2, E1, app_assoc. reflexivity.
  - exists l1. split; [exact E1|]. apply Hraise. exact H1.
Qed.

Lemma quiet_ret {A} (a : A) : quiet (R:=R) (ret a).
Proof. intros st. reflexivity. Qed.

Lemma quiet_lift {A} (r : result A) : quiet (R:=R) (lift r).
Proof. intros st. reflexivity. Qed.

Lemma quiet_authenticated : quiet (authenticated R).
Proof. intros st. reflexivity. Qed.

Lemma quiet_os_path_exists (path : string) : quiet (os_path_exists R path).
Proof. intros st. reflexivity. Qed.

Lemma quiet_open_read (path : string) : quiet (open_read R path).
Proof. intros st. reflexivity. Qed.

Lemma quiet_open_write (path bytes : string) : quiet (open_write R path bytes).
Proof.
  intros st. unfold open_write. destruct (write_file R path bytes (files R st)). reflexivity.
Qed.

Lemma quiet_event_attachment_content (contentBytes file_path text_content : option string) :
  quiet (event_attachment_content R contentBytes file_path text_content).
Proof.
  intros st. unfold event_attachment_content, bind, try_except, os_path_exists, open_read,
    lift, ret.
  destruct file_path as [path|]; [|destruct text_content as [text|]]; cbn.
  - destruct (negb (path_exists R path (files R st))); [reflexivity|].
    destruct (read_file R path (files R st)) as [content|e];
      [|destruct (is_Exception e)]; reflexivity.
  - destruct (encode_utf8 R text); reflexivity.
  - reflexivity.
Qed.

Lemma observes_bind_quiet {A B} (Post : list Call -> result B -> Prop) (m : M R A)
    (k : A -> M R B) :
  quiet m -> (forall e, Post [] (Raise e)) -> (forall a, observes Post (k a)) ->
  observes Post (bind m k).
Proof.
  intros Hm Hraise Hk.
  apply (observes_bind (fun l _ => l = [])); [| |].
  - intros st. exists []. rewrite app_nil_r. split; [apply Hm|reflexivity].
  - intros l1 e ->. apply Hraise.
  - intros l1 a ->. exact (Hk a).
Qed.

Lemma observes_bind_request {B} (Post : list Call -> result B -> Prop)
    (method endpoint : string) (kw : kwargs) (k : pyval -> M R B) :
  (forall e, Post [{| call_method := method; call_endpoint := endpoint;
                      call_kwargs := kw; call_outcome := Raise e |}] (Raise e)) ->
  (forall a,
     observes (fun l r => Post ({| call_method := method; call_endpoint := endpoint;
                                   call_kwargs := kw; call_outcome := Ok a |} :: l) r)
              (k a)) ->
  observes Post (bind (client_request R method endpoint kw) k).
Proof.
  intros Hraise Hk.
  apply (observes_bind
           (fun l r => l = [{| call_method := method; call_endpoint := endpoint;
                               call_kwargs := kw; call_outcome := r |}])).
  - intros st. unfold client_request.
    destruct (request R method endpoint kw (client R st)) as [outcome client'].
    eexists. split; reflexivity.
  - intros l1 e ->. apply Hraise.
  - intros l1 a ->. exact (Hk a).
Qed.

Lemma observes_tool_except (Post : list Call -> result Envelope -> Prop) (tc : tool_call)
    (m : M R Envelope) :
  observes (before_except Post) m ->
  observes Post (try_except m (tool_except R tc)).
Proof.
  intros Hm st. unfold try_except.
  destruct (Hm st) as (l & E & H).
  destruct (m st) as [[a|e] st1]; cbn [fst snd] in *.
  - exists l. split; assumption.
  - exists l. destruct H as [Hf Hr]. destruct (is_Exception e); cbn [fst snd].
    + destruct (tool_except_returns tc e st1) as [-> | ->]; cbn [fst snd];
        (split; [exact E|apply Hf]).
    + split; [exact E|exact Hr].
Qed.

(** The draft check of [update_email] makes one request, a GET; an
    envelope it returns is a failure, and it raises only what the request
    raised and [except Exception] does not catch. *)
Lemma update_email_draft_check_observed (check_endpoint : string) :
  observes draft_checked (update_email_draft_check R check_endpoint).
Proof.
  intros st. unfold update_email_draft_check, try_except, bind, client_get, client_request,
    lift, ret.
  destruct (request R "GET" check_endpoint [] (client R st)) as [[info|e] client'];
    cbn [fst snd calls].
  - destruct info as [| | | | |d]; cbn [py_get fst snd calls is_Exception exn_class];
      try (eexists; split; [reflexivity|]; eexists; repeat split; discriminate).
    destruct (negb (truthy (dict_get "isDraft" (PBool false) d))); cbn [fst snd calls];
      (eexists; split; [reflexivity|]); eexists; repeat split; discriminate.
  - destruct (is_Exception e) eqn:Hc; cbn [fst snd calls];
      (eexists; split; [reflexivity|]); eexists; repeat split; try assumption.
    cbn. intros e' He'. inversion He'; subst. exact Hc.
Qed.

Lemma event_attachment_content_observed
    (contentBytes file_path text_content : option string) :
  observes content_settled (event_attachment_content R contentBytes file_path text_content).
Proof.
  intros st. exists []. rewrite app_nil_r.
  split; [apply quiet_event_attachment_content|]. split; [reflexivity|].
  unfold event_attachment_content, bind, try_except, os_path_exists, open_read, lift, ret.
  destruct file_path as [path|]; [|destruct text_content as [text|]]; cbn.
  - destruct (negb (path_exists R path (files R st))); [reflexivity|].
    destruct (read_file R path (files R st)) as [content|e];
      [|destruct (is_Exception e)]; cbn; try reflexivity; exact I.
  - destruct (encode_utf8 R text); exact I.
  - exact I.
Qed.

Lemma quiet_bind {A B} (m : M R A) (k : A -> M R B) :
  quiet m -> (forall a, quiet (k a)) -> quiet (bind m k).
Proof.
  intros Hm Hk st. unfold bind. specialize (Hm st).
  destruct (m st) as [[a|e] st1]; cbn [snd] in *; [rewrite (Hk a st1)|]; exact Hm.
Qed.

Ltac quiet_step :=
  lazymatch goal with
  | |- quiet (bind _ _) => apply quiet_bind; [quiet_step | intros; quiet_step]
  | |- quiet (authenticated _) => apply quiet_authenticated
  | |- quiet (lift _) => apply quiet_lift
  | |- quiet (ret _) => apply quiet_ret
  | |- quiet (os_path_exists _ _) => apply quiet_os_path_exists
  | |- quiet (open_read _ _) => apply quiet_open_read
  | |- quiet (open_write _ _ _) => apply quiet_open_write
  | |- quiet (event_attachment_content _ _ _ _) => apply quiet_event_attachment_content
  end.

Ltac observe_step leaf :=
  cbv beta iota;
  lazymatch goal with
  | |- observes _ (bind (client_request _ _ _ _) _) =>
      apply observes_bind_request; [intros; leaf | intros]
  | |- observes _ (bind (update_email_draft_check _ _) _) =>
      eapply observes_bind;
      [ apply update_email_draft_check_observed
      | intros ? ? (? & -> & ? & ? & ?); leaf
      | intros ? [?|] (? & -> & ? & ?) ]
  | |- observes _ (bind (event_attachment_content _ _ _ _) _) =>
      eapply observes_bind;
      [ apply event_attachment_content_observed
      | intros ? ? [-> _]; leaf
      | intros ? [?|?] [-> ?] ]
  | |- observes _ (bind (match ?x with _ => _ end) _) =>
      first [is_var x; destruct x | destruct x eqn:?]
  | |- observes _ (bind _ _) =>
      apply observes_bind_quiet; [quiet_step | intros; leaf | intros]
  | |- observes _ (ret _) => apply observes_ret; leaf
  | |- observes _ (lift _) => apply observes_lift; leaf
  | |- observes _ (match ?x with _ => _ end) =>
      first [is_var x; destruct x | destruct x eqn:?]
  end.

Ltac observe leaf :=
  rewrite run_tool_try_except;
  apply observes_tool_except;
  cbn [tool_try]; autounfold with tries;
  unfold client_get, client_post, client_patch, client_delete;
  cbv zeta;
  repeat observe_step leaf.

(** Splits what is to hold before an [except] clause, and what is known
    of a draft check. *)
Ltac leaf_cases :=
  lazymatch goal with |- _ /\ _ => split | _ => idtac end;
  intros;
  repeat match goal with H : _ /\ _ |- _ => destruct H end.

Ltac follows_leaf :=
  unfold before_except, follows; cbn [map call_method is_prefix app];
  repeat match goal with
         | |- context [match ?r with Ok _ => _ | Raise _ => _ end] => destruct r
         end;
  leaf_cases; try match goal with H : call_method _ = _ |- _ => rewrite H end;
  reflexivity.

Lemma is_prefix_length (l sites : list string) :
  is_prefix l sites = true -> (List.length l <= List.length sites)%nat.
Proof.
  revert sites. induction l as [|x l IH]; intros [|y sites] H; cbn in *.
  - lia.
  - lia.
  - discriminate.
  - apply andb_prop in H. destruct H as [_ H]. specialize (IH _ H). lia.
Qed.

Ltac echoes_leaf :=
  unfold before_except, echoes;
  cbn [app successful data failure success];
  leaf_cases;
  first [ discriminate
        | congruence
        | exact I
        | eexists; split; [left; reflexivity | reflexivity]
        | eexists; split; [right; left; reflexivity | reflexivity] ].

(** X3.  The data of a success envelope is what a request of the call
    returned, unchanged, for every tool function but the six that build
    their own data. *)
Theorem success_data_is_a_response (tc : tool_call) (st : State R) (envelope : Envelope) :
  ~ In (tool_name tc) OWN_DATA ->
  fst (run_tool R tc st) = Ok envelope ->
  successful envelope = true ->
  exists c,
    In c (new_calls st (snd (run_tool R tc st))) /\ call_outcome c = Ok (data envelope).
Proof.
  intros Hname.
  assert (H : observes echoes (run_tool R tc)).
  { destruct tc; try (exfalso; apply Hname; cbn; tauto); observe echoes_leaf. }
  destruct (H st) as (l & E & Hl). rewrite (new_calls_app _ _ _ E).
  intros Hrun. rewrite Hrun in Hl. exact Hl.
Qed.

(** The requests of a tool function follow the request calls of its
    source. *)
Lemma run_tool_follows (tc : tool_call) :
  observes (follows (request_sites tc)) (run_tool R tc).
Proof. destruct tc; cbn [request_sites]; observe follows_leaf. Qed.

(** X4.  The requests of a tool function are made in the order of the
    request calls of its source, from the first one on, each at most once:
    one request at most (two for [create_draft] and [update_email]), with
    the method of the source. *)
Theorem requests_follow_the_source (tc : tool_call) (st : State R) :
  let made := map call_method (new_calls st (snd (run_tool R tc st))) in
  is_prefix made (request_sites tc) = true
  /\ (List.length made <= List.length (request_sites tc))%nat.
Proof.
  cbv zeta.
  destruct (run_tool_follows tc st) as (l & E & Hl). rewrite (new_calls_app _ _ _ E).
  split; [exact Hl|]. apply is_prefix_length. exact Hl.
Qed.


(** *** Exceptions *)

Ltac observe_try leaf :=
  cbn [tool_try]; autounfold with tries;
  unfold client_get, client_post, client_patch, client_delete;
  cbv zeta;
  repeat observe_step leaf.

Ltac surfaces_leaf :=
  unfold surfaces; cbv beta; cbn [app];
  let c := fresh "c" in
  let e := fresh "e" in
  let Hin := fresh "Hin" in
  let Ho := fresh "Ho" in
  intros c e Hin Ho;
  repeat match goal with H : _ /\ _ |- _ => destruct H end;
  cbn [In] in Hin;
  repeat (destruct Hin as [Hin|Hin];
          [subst c; cbn [call_outcome] in Ho;
           first [ discriminate Ho
                 | left; congruence
                 | match goal with
                   | H : is_ok (call_outcome _) = true |- _ =>
                       rewrite Ho in H; discriminate H
                   end
                 | right; split; [reflexivity|];
                   split; [match goal with
                           | H : forall e, _ = Raise e -> is_Exception e = true |- _ =>
                               exact (H _ Ho)
                           end|];
                   split; [assumption|]; eexists; reflexivity ]
          |]);
  contradiction.

(** In the [try] block of a tool function, the exception of a request is
    the exception of the block; only the draft check of [update_email]
    goes on after one. *)
Lemma tool_try_surfaces (tc : tool_call) :
  observes (surfaces (passes_over tc)) (tool_try R tc).
Proof.
  destruct tc; unfold passes_over; cbn [tool_name String.eqb Ascii.eqb Bool.eqb];
    observe_try surfaces_leaf.
Qed.

(** C4, as amended.  With [body] the [try] block of a tool function and
    [run] its call:
    - an exception that ends the [try] block and is an instance of
      [Exception] becomes a failure envelope whose error is its text, after
      a fixed prefix in some cases of [update_email]; any other exception
      passes through;
    - an envelope the block returns is returned;
    - so a call raises only what is no instance of [Exception];
    - the exception of a request ends the [try] block, with one exception:
      an instance of [Exception] raised by the first request of
      [update_email], the GET of its draft check, may be passed over;
    - when [add_event_attachment] cannot read its file, the exception
      becomes a failure envelope of its own, before any request. *)
Theorem exceptions_become_envelopes (tc : tool_call) (st : State R) :
  let run := run_tool R tc st in
  let body := tool_try R tc st in
  (forall e,
     fst body = Raise e ->
     snd run = snd body
     /\ if is_Exception e then
          fst run = Ok (failure (exn_msg e))
          \/ (tool_name tc = "update_email"
              /\ fst run = Ok (failure (UPDATE_PREFIX ++ exn_msg e)%string))
        else fst run = Raise e)
  /\ (forall envelope, fst body = Ok envelope -> run = body)
  /\ (forall e, fst run = Raise e -> is_Exception e = false /\ fst body = Raise e)
  /\ (forall c e,
        In c (new_calls st (snd run)) -> call_outcome c = Raise e ->
        fst body = Raise e
        \/ (tool_name tc = "update_email" /\ is_Exception e = true
            /\ call_method c = "GET"
            /\ exists rest, new_calls st (snd run) = c :: rest))
  /\ (forall event_id name odata_type contentBytes path text_content item user_id e,
        tc = Call_add_event_attachment event_id name odata_type contentBytes (Some path)
               text_content item user_id ->
        is_authenticated R (client R st) = true ->
        path_exists R path (files R st) = true ->
        read_file R path (files R st) = Raise e ->
        run = if is_Exception e
              then (Ok (failure ("Error reading file: " ++ exn_msg e)%string), st)
              else (Raise e, st)).
Proof.
  cbv zeta. pose proof (run_tool_cases tc st) as Hcases.
  assert (Hsnd : snd (run_tool R tc st) = snd (tool_try R tc st)).
  { destruct (tool_try R tc st) as [[envelope|e] st1]; [rewrite Hcases; reflexivity|].
    destruct (is_Exception e); [destruct Hcases as [-> | [_ ->]]|rewrite Hcases];
      reflexivity. }
  split; [|split; [|split; [|split]]].
  - intros e He. split; [exact Hsnd|].
    destruct (tool_try R tc st) as [[envelope|e'] st1]; [discriminate|].
    cbn [fst] in He. inversion He; subst e'.
    destruct (is_Exception e).
    + destruct Hcases as [-> | [Hname ->]]; [left; reflexivity|right; split; [exact Hname|reflexivity]].
    + rewrite Hcases. reflexivity.
  - intros envelope He.
    destruct (tool_try R tc st) as [[envelope'|e] st1]; [exact Hcases|discriminate].
  - intros e He.
    destruct (tool_try R tc st) as [[envelope|e'] st1].
    + rewrite Hcases in He. discriminate.
    + destruct (is_Exception e') eqn:Hc.
      * destruct Hcases as [H | [_ H]]; rewrite H in He; discriminate.
      * rewrite Hcases in He. cbn [fst] in He |- *. inversion He; subst e'.
        split; [exact Hc|reflexivity].
  - intros c e Hin Ho. rewrite Hsnd in Hin |- *.
    destruct (tool_try_surfaces tc st) as (l & E & Hl).
    rewrite (new_calls_app _ _ _ E) in Hin |- *.
    destruct (Hl c e Hin Ho) as [H | (Hp & He & Hm & Hrest)]; [left; exact H|].
    right. split; [|split; [exact He|split; [exact Hm|exact Hrest]]].
    unfold passes_over in Hp. apply String.eqb_eq in Hp. exact Hp.
  - intros event_id name odata_type contentBytes path text_content item user_id e
      -> Hauth Hpath Hread.
    cbn [run_tool].
    unfold add_event_attachment, add_event_attachment_try,
      event_attachment_content, try_except, bind, authenticated, os_path_exists, open_read,
      client_post, client_request, lift, ret.
    rewrite Hauth. cbn [negb]. cbv beta. rewrite Hpath. cbn [negb]. cbv beta iota.
    rewrite Hread.
    destruct (is_Exception e) eqn:Hc; cbv beta iota; rewrite ?Hc; reflexivity.
Qed.


(** *** Single tool functions *)

(** X5.  When [download_outlook_attachment] returns a success, it made one
    request, the response was a dict with [contentBytes], and the decoded
    content is what was written to [file_name]; the envelope tells the
    name of the file and the length of the content. *)
Theorem download_writes_the_decoded_content
    (message_id attachment_id file_name : string) (user_id : option string)
    (st : State R) (envelope : Envelope) :
  let run := download_outlook_attachment R message_id attachment_id file_name user_id st in
  fst run = Ok envelope ->
  successful envelope = true ->
  exists c d encoded bytes,
    new_calls st (snd run) = [c]
    /\ call_method c = "GET"
    /\ call_outcome c = Ok (PDict d)
    /\ dict_find (PStr "contentBytes") d = Some encoded
    /\ b64decode R encoded = Ok bytes
    /\ write_file R file_name bytes (files R st) = (Ok tt, files R (snd run))
    /\ reach ["file_name"] (data envelope) = [PStr file_name]
    /\ reach ["size"] (data envelope) = [PInt (Z.of_nat (String.length bytes))].
Proof.
  cbv zeta. unfold download_outlook_attachment, try_except, download_outlook_attachment_try,
    bind, authenticated, client_get, client_request, lift, open_write, on_exception, ret.
  destruct (is_authenticated R (client R st)); cbn [negb];
    [|cbn; intros H; inversion H; subst; discriminate].
  destruct (request R "GET" _ [] (client R st)) as [[result|e] client'];
    [|destruct (is_Exception e); cbn; intros H; inversion H; subst; discriminate].
  destruct (py_in "contentBytes" result) as [[|]|e] eqn:Ein; cbn [negb];
    [|cbn; intros H; inversion H; subst; discriminate
     |destruct (is_Exception e); cbn; intros H; inversion H; subst; discriminate].
  destruct (py_item result "contentBytes") as [encoded|e] eqn:Eitem;
    [|destruct (is_Exception e); cbn; intros H; inversion H; subst; discriminate].
  destruct (b64decode R encoded) as [bytes|e] eqn:Edec;
    [|destruct (is_Exception e); cbn; intros H; inversion H; subst; discriminate].
  cbn [files client calls].
  destruct (write_file R file_name bytes (files R st)) as [[[]|e] files'] eqn:Ew;
    [|destruct (is_Exception e); cbn; intros H; inversion H; subst; discriminate].
  destruct result as [| | | | |d]; try discriminate Eitem.
  cbn in Eitem. destruct (dict_find (PStr "contentBytes") d) as [x|] eqn:Ef; [|discriminate].
  inversion Eitem; subst x.
  cbn. intros H _. inversion H; subst envelope.
  eexists. exists d, encoded, bytes.
  split; [apply new_calls_app; reflexivity|].
  repeat split; assumption.
Qed.

(** X6.  [add_event_attachment] with a [file_path] takes the content from
    that file, whatever [text_content] and [contentBytes] are.  When the
    file does not exist, or cannot be read, it returns a failure and makes
    no request; otherwise its one request carries the encoded content of
    the file as [contentBytes].  (An exception of the reading that is no
    instance of [Exception] is not caught and ends the call, also without
    a request.) *)
Theorem event_attachment_prefers_the_file
    (event_id name odata_type : string) (contentBytes : option string) (path : string)
    (text_content : option string) (item : option pydict) (user_id : option string)
    (st : State R) :
  is_authenticated R (client R st) = true ->
  let run :=
    add_event_attachment R event_id name odata_type contentBytes (Some path) text_content
      item user_id st in
  (path_exists R path (files R st) = false ->
   run = (Ok (failure ("File not found: " ++ path)), st))
  /\ (path_exists R path (files R st) = true ->
      forall e, read_file R path (files R st) = Raise e ->
      run = if is_Exception e
            then (Ok (failure ("Error reading file: " ++ exn_msg e)), st)
            else (Raise e, st))
  /\ (path_exists R path (files R st) = true ->
      forall content, read_file R path (files R st) = Ok content ->
      exists c,
        new_calls st (snd run) = [c]
        /\ call_method c = "POST"
        /\ reach ["contentBytes"] (argument c InJson) = [PStr (b64encode R content)]).
Proof.
  intros H. cbv zeta.
  unfold add_event_attachment, add_event_attachment_try,
    event_attachment_content, try_except, bind, authenticated, os_path_exists, open_read,
    client_post, client_request, lift, ret.
  rewrite H. cbn [negb]. cbv beta.
  split; [|split].
  - intros ->. reflexivity.
  - intros -> e He. cbn [negb]. cbv beta iota. rewrite He.
    destruct (is_Exception e) eqn:Hc; cbv beta iota; rewrite ?Hc; reflexivity.
  - intros -> content He. cbn [negb]. cbv beta iota. rewrite He. cbv beta iota.
    destruct (request R "POST" _ _ (client R st)) as [[result|e] client'];
      [|destruct (is_Exception e)];
      (eexists; split; [apply new_calls_app; reflexivity|]; split; [reflexivity|]);
      unfold argument; cbn [call_kwargs kw_find String.eqb Ascii.eqb Bool.eqb];
      rewrite reach_step; find_entry; reflexivity.
Qed.

(** X7.  [create_draft] with an attachment makes a second request when the
    response to the first holds a truthy [id]: a POST of the attachment to
    [/me/messages/{id}/attachments].  When that request raises, the call
    returns a failure although the draft was made (or ends with the
    exception, when that is no instance of [Exception]); when it returns,
    the data is the response to the first request.  Without a truthy [id]
    the attachment is left out and the call is a success. *)
Theorem create_draft_attaches_in_a_second_request
    (subject body : string) (to_recipients : list string)
    (cc_recipients bcc_recipients : option (list string)) (is_html : option bool)
    (conversation_id : option string) (item : pyval * pyval) (more : pydict)
    (st : State R) (c1 : Call) (rest : list Call) (d : pydict) :
  let attachment := item :: more in
  let run :=
    create_draft R subject body to_recipients cc_recipients bcc_recipients is_html
      conversation_id (Some attachment) st in
  new_calls st (snd run) = c1 :: rest ->
  call_outcome c1 = Ok (PDict d) ->
  (truthy (dict_get "id" PNone d) = false ->
   rest = [] /\ fst run = Ok (success (PDict d)))
  /\ (truthy (dict_get "id" PNone d) = true ->
      exists c2,
        rest = [c2]
        /\ call_method c2 = "POST"
        /\ call_endpoint c2
           = ("/me/messages/" ++ str_of R (dict_get "id" PNone d) ++ "/attachments")%string
        /\ call_kwargs c2 = [("json", file_attachment attachment)]
        /\ (forall e, call_outcome c2 = Raise e ->
            fst run = if is_Exception e then Ok (failure (exn_msg e)) else Raise e)
        /\ (forall a, call_outcome c2 = Ok a -> fst run = Ok (success (PDict d)))).
Proof.
  cbv zeta.
  unfold create_draft, try_except, create_draft_try, bind, authenticated,
    client_post, client_request, lift, ret, on_exception.
  destruct (is_authenticated R (client R st)); cbn [negb].
  2:{ cbn [snd]. unfold new_calls. rewrite skipn_all. discriminate. }
  destruct (request R "POST" "/me/messages" _ (client R st)) as [[result|e] client'].
  2:{ destruct (is_Exception e); cbn [snd fst]; erewrite new_calls_app by reflexivity;
        intros E Hc; inversion E; subst; discriminate. }
  cbn [client calls files py_get].
  destruct result as [| | | | |d'].
  1-5: cbn [snd fst]; erewrite new_calls_app by reflexivity;
       intros E Hc; inversion E; subst; discriminate.
  cbn [py_get py_item].
  destruct (truthy (dict_get "id" PNone d')) eqn:Eid.
  - unfold dict_get in Eid |- *.
    destruct (dict_find (PStr "id") d') as [id|] eqn:Ef; [|discriminate].
    cbn [client calls files].
    match goal with
    | |- context [request R "POST" ?e ?k client'] =>
        destruct (request R "POST" e k client') as [[a|e'] client'']
    end.
    + cbn [snd fst].
      erewrite new_calls_app by (cbn [calls]; rewrite <- app_assoc; reflexivity).
      intros E Hc. inversion E; subst c1 rest. cbn in Hc. inversion Hc; subst d'.
      rewrite Ef, Eid. split; [discriminate|]. intros _.
      eexists. split; [reflexivity|]. cbn. repeat split; intros; congruence.
    + destruct (is_Exception e') eqn:Hexn; cbn [snd fst];
        (erewrite new_calls_app by (cbn [calls]; rewrite <- app_assoc; reflexivity));
        intros E Hc; inversion E; subst c1 rest; cbn in Hc; inversion Hc; subst d';
        rewrite Ef, Eid; (split; [discriminate|]); intros _;
        (eexists; split; [reflexivity|]); cbn; repeat split; intros;
        try congruence;
        match goal with H : Raise _ = Raise _ |- _ => inversion H; subst end;
        rewrite Hexn; reflexivity.
  - cbn [snd fst]. erewrite new_calls_app by reflexivity.
    intros E Hc. inversion E; subst c1 rest. cbn in Hc. inversion Hc; subst d'.
    rewrite Eid. split; [|discriminate]. intros _. split; reflexivity.
Qed.

Lemma contains_prefix (x t : string) : contains x (x ++ t) = true.
Proof.
  assert (H : String.prefix x (x ++ t) = true).
  { induction x as [|c x IH]; [destruct t; reflexivity|].
    change (String c x ++ t)%string with (String c (x ++ t)).
    cbn [String.prefix]. destruct (Ascii.ascii_dec c c); [exact IH|congruence]. }
  destruct (x ++ t)%string; cbn [contains]; rewrite H; reflexivity.
Qed.

Lemma contains_self (x : string) : contains x x = true.
Proof. rewrite <- (append_empty x) at 2. apply contains_prefix. Qed.

Lemma contains_append (x s t : string) : contains x t = true -> contains x (s ++ t) = true.
Proof.
  intros H. induction s as [|c s IH]; [exact H|].
  change (String c s ++ t)%string with (String c (s ++ t)).
  cbn [contains]. rewrite IH. apply orb_true_r.
Qed.

(** A part of [sep.join(parts)] is in it. *)
Lemma contains_join (sep x : string) (parts : list string) :
  In x parts -> contains x (join sep parts) = true.
Proof.
  induction parts as [|p parts IH]; [contradiction|].
  intros [-> | Hin].
  - destruct parts as [|q parts]; [apply contains_self|].
    change (join sep (x :: q :: parts)) with (x ++ sep ++ join sep (q :: parts))%string.
    apply contains_prefix.
  - destruct parts as [|q parts]; [contradiction|].
    change (join sep (p :: q :: parts)) with (p ++ sep ++ join sep (q :: parts))%string.
    apply contains_append, contains_append, IH. exact Hin.
Qed.

Lemma In_add_str (x : string) (o : option string) (f : string -> string)
    (parts : list string) :
  In x parts -> In x (add_str o f parts).
Proof.
  intros H. unfold add_str. destruct o as [s|]; [destruct (str_truthy s)|]; try exact H.
  apply in_or_app. left. exact H.
Qed.

Lemma In_add_given {A} (x : string) (o : option A) (f : A -> string) (parts : list string) :
  In x parts -> In x (add_given o f parts).
Proof.
  intros H. unfold add_given. destruct o; [|exact H]. apply in_or_app. left. exact H.
Qed.

(** X8.  [list_messages] with [is_read] given makes one request whose
    [$filter] holds the clause [isRead eq true] or [isRead eq false],
    whatever the other parameters are; the filter is the clauses joined
    by [and]. *)
Theorem list_messages_filters_on_is_read
    (folder : option string) (categories : option (list string))
    (conversationId from_address : option string) (has_attachments : option bool)
    (importance : option string) (is_read : bool) (orderby : option (list string))
    (received_date_time_ge received_date_time_gt received_date_time_le
     received_date_time_lt : option string)
    (select : option (list string)) (sent_date_time_gt sent_date_time_lt : option string)
    (skip : option Z)
    (subject subject_contains subject_endswith subject_startswith : option string)
    (top : option Z) (user_id : option string) (st : State R) :
  is_authenticated R (client R st) = true ->
  let run :=
    list_messages R folder categories conversationId from_address has_attachments
      importance (Some is_read) orderby received_date_time_ge received_date_time_gt
      received_date_time_le received_date_time_lt select sent_date_time_gt
      sent_date_time_lt skip subject subject_contains subject_endswith
      subject_startswith top user_id st in
  let parts :=
    list_messages_filter_parts categories conversationId from_address has_attachments
      importance (Some is_read) received_date_time_ge received_date_time_gt
      received_date_time_le received_date_time_lt sent_date_time_gt sent_date_time_lt
      subject subject_contains subject_endswith subject_startswith in
  exists c,
    new_calls st (snd run) = [c]
    /\ call_method c = "GET"
    /\ reach ["$filter"] (argument c InParams) = [PStr (join " and " parts)]
    /\ contains ("isRead eq " ++ (if is_read then "true" else "false")) (join " and " parts)
       = true.
Proof.
  intros H. cbv zeta.
  set (parts := list_messages_filter_parts _ _ _ _ _ _ _ _ _ _ _ _ _ _ _ _).
  assert (Hin : In ("isRead eq " ++ (if is_read then "true" else "false"))%string parts).
  { unfold parts, list_messages_filter_parts.
    assert (Hc : forall p, In ("isRead eq " ++ (if is_read then "true" else "false"))%string
                              (add_given (Some is_read)
                                 (fun b => ("isRead eq " ++ lower (str_of_bool b))%string) p)).
    { intros p. unfold add_given. apply in_or_app. right. left.
      destruct is_read; reflexivity. }
    cbv zeta.
    assert (Hrest : In ("isRead eq " ++ (if is_read then "true" else "false"))%string
                      (add_str subject_endswith
                         (fun x => ("endswith(subject, '" ++ x ++ "')")%string)
                      (add_str subject_startswith
                         (fun x => ("startswith(subject, '" ++ x ++ "')")%string)
                      (add_str subject_contains
                         (fun x => ("contains(subject, '" ++ x ++ "')")%string)
                      (add_str subject (fun x => ("subject eq '" ++ x ++ "'")%string)
                      (add_str sent_date_time_lt (fun x => ("sentDateTime lt " ++ x)%string)
                      (add_str sent_date_time_gt (fun x => ("sentDateTime gt " ++ x)%string)
                      (add_str received_date_time_lt
                         (fun x => ("receivedDateTime lt " ++ x)%string)
                      (add_str received_date_time_le
                         (fun x => ("receivedDateTime le " ++ x)%string)
                      (add_str received_date_time_gt
                         (fun x => ("receivedDateTime gt " ++ x)%string)
                      (add_str received_date_time_ge
                         (fun x => ("receivedDateTime ge " ++ x)%string)
                      (add_given (Some is_read)
                         (fun b => ("isRead eq " ++ lower (str_of_bool b))%string)
                      (add_str importance (fun x => ("importance eq '" ++ x ++ "'")%string)
                      (add_given has_attachments
                         (fun b => ("hasAttachments eq " ++ lower (str_of_bool b))%string)
                      (add_str from_address
                         (fun x => ("from/emailAddress/address eq '" ++ x ++ "'")%string)
                      (add_str conversationId
                         (fun x => ("conversationId eq '" ++ x ++ "'")%string)
                         [])))))))))))))))).
    { repeat apply In_add_str. apply Hc. }
    destruct categories as [[|cat cats]|]; try exact Hrest.
    apply in_or_app. left. exact Hrest. }
  unfold list_messages, try_except, list_messages_try, bind, authenticated,
    client_get, client_request, ret, on_exception.
  rewrite H. cbn [negb]. cbv zeta. fold parts.
  destruct (request R "GET" _ _ (client R st)) as [[result|e] client'];
    [|destruct (is_Exception e)];
    (eexists; split; [apply new_calls_app; reflexivity|]; split; [reflexivity|]);
    (split; [|apply contains_join; exact Hin]);
    unfold argument; cbn [call_kwargs kw_find String.eqb Ascii.eqb Bool.eqb];
    rewrite reach_or_none;
    (destruct parts as [|p ps] eqn:Ep; [contradiction|]);
    rewrite reach_step; find_entry; reflexivity.
Qed.


(** *** Requests and the state of the client *)

Lemma new_calls_quiet {A} (m : M R A) (st : State R) :
  quiet m -> new_calls st (snd (m st)) = [].
Proof.
  intros H. apply new_calls_app. rewrite (H st), app_nil_r. reflexivity.
Qed.

Lemma steady_quiet {A} (m : M R A) : quiet m -> steady m.
Proof. intros H st1 st2 _. rewrite !(new_calls_quiet m _ H). reflexivity. Qed.

Lemma steady_bind_reads {A B} (m : M R A) (k : A -> M R B) :
  reads m -> (forall a, steady (k a)) -> steady (bind m k).
Proof.
  intros [Hs Hr] Hk st1 st2 Ha. unfold bind.
  pose proof (Hr st1 st2 Ha) as E. pose proof (Hs st1) as E1. pose proof (Hs st2) as E2.
  destruct (m st1) as [r1 s1], (m st2) as [r2 s2]. cbn [fst snd] in *. subst.
  destruct r2 as [a|e]; [exact (Hk a st1 st2 Ha)|].
  cbn [snd]. unfold new_calls. rewrite !skipn_all. reflexivity.
Qed.

Lemma steady_bind_request {B} (method endpoint : string) (kw : kwargs) (k : pyval -> M R B) :
  (forall a, quiet (k a)) -> steady (bind (client_request R method endpoint kw) k).
Proof.
  intros Hk st1 st2 _.
  assert (H : forall st,
             map request_of
               (new_calls st (snd (bind (client_request R method endpoint kw) k st)))
             = [(method, endpoint, kw)]).
  { intros st. unfold bind, client_request.
    destruct (request R method endpoint kw (client R st)) as [[a|e] client'].
    - erewrite new_calls_app by (rewrite (Hk a); reflexivity). reflexivity.
    - erewrite new_calls_app by reflexivity. reflexivity. }
  rewrite !H. reflexivity.
Qed.

Lemma steady_try_except {A} (m : M R A) (h : exn -> M R A) :
  steady m -> (forall e, quiet (h e)) -> steady (try_except m h).
Proof.
  intros Hm Hh st1 st2 Ha.
  assert (H : forall st, new_calls st (snd (try_except m h st)) = new_calls st (snd (m st))).
  { intros st. unfold try_except. destruct (m st) as [[a|e] s]; [reflexivity|].
    destruct (is_Exception e); [|reflexivity].
    cbn [snd]. unfold new_calls. rewrite (Hh e s). reflexivity. }
  rewrite !H. exact (Hm st1 st2 Ha).
Qed.

Lemma quiet_tool_except (tc : tool_call) (e : exn) : quiet (tool_except R tc e).
Proof.
  intros st. destruct (tool_except_returns tc e st) as [-> | ->]; reflexivity.
Qed.

Lemma reads_ret {A} (a : A) : reads (R:=R) (ret a).
Proof. split; reflexivity. Qed.

Lemma reads_lift {A} (r : result A) : reads (R:=R) (lift r).
Proof. split; reflexivity. Qed.

Lemma reads_authenticated : reads (authenticated R).
Proof.
  split; [reflexivity|]. intros st1 st2 [_ H]. unfold authenticated. cbn. rewrite H.
  reflexivity.
Qed.

Lemma reads_os_path_exists (path : string) : reads (os_path_exists R path).
Proof.
  split; [reflexivity|]. intros st1 st2 [H _]. unfold os_path_exists. cbn. rewrite H.
  reflexivity.
Qed.

Lemma reads_open_read (path : string) : reads (open_read R path).
Proof.
  split; [reflexivity|]. intros st1 st2 [H _]. unfold open_read. cbn. rewrite H.
  reflexivity.
Qed.

Lemma reads_event_attachment_content (contentBytes file_path text_content : option string) :
  reads (event_attachment_content R contentBytes file_path text_content).
Proof.
  unfold event_attachment_content, bind, try_except, os_path_exists, open_read, lift, ret.
  split.
  - intros st.
    destruct file_path as [path|]; [|destruct text_content as [text|]]; cbn.
    + destruct (negb (path_exists R path (files R st))); [reflexivity|].
      destruct (read_file R path (files R st)) as [content|e];
        [|destruct (is_Exception e)]; reflexivity.
    + destruct (encode_utf8 R text); reflexivity.
    + reflexivity.
  - intros st1 st2 [H _].
    destruct file_path as [path|]; [|destruct text_content as [text|]]; cbn.
    + rewrite H. destruct (negb (path_exists R path (files R st2))); [reflexivity|].
      cbn. rewrite H. destruct (read_file R path (files R st2)) as [content|e];
        [|destruct (is_Exception e)]; reflexivity.
    + destruct (encode_utf8 R text); reflexivity.
    + reflexivity.
Qed.

Lemma reads_bind {A B} (m : M R A) (k : A -> M R B) :
  reads m -> (forall a, reads (k a)) -> reads (bind m k).
Proof.
  intros [Hs Hr] Hk. split.
  - intros st. unfold bind. pose proof (Hs st) as E.
    destruct (m st) as [[a|e] s]; cbn [snd] in *; subst; [apply Hk|reflexivity].
  - intros st1 st2 Ha. unfold bind.
    pose proof (Hr st1 st2 Ha) as E. pose proof (Hs st1) as E1. pose proof (Hs st2) as E2.
    destruct (m st1) as [r1 s1], (m st2) as [r2 s2]. cbn [fst snd] in *. subst.
    destruct r2 as [a|e]; [apply Hk; exact Ha|reflexivity].
Qed.

Ltac hush :=
  cbv beta iota;
  lazymatch goal with
  | |- quiet (bind _ _) => apply quiet_bind; [hush | intros; hush]
  | |- quiet (match ?x with _ => _ end) => destruct x; hush
  | |- quiet _ => quiet_step
  end.

Ltac reads_step :=
  cbv beta iota;
  lazymatch goal with
  | |- reads (bind _ _) => apply reads_bind; [reads_step | intros; reads_step]
  | |- reads (ret _) => apply reads_ret
  | |- reads (lift _) => apply reads_lift
  | |- reads (authenticated _) => apply reads_authenticated
  | |- reads (os_path_exists _ _) => apply reads_os_path_exists
  | |- reads (open_read _ _) => apply reads_open_read
  | |- reads (event_attachment_content _ _ _ _) => apply reads_event_attachment_content
  | |- reads (match ?x with _ => _ end) => destruct x; reads_step
  end.

Ltac steady_step :=
  cbv beta iota;
  lazymatch goal with
  | |- steady (bind (client_request _ _ _ _) _) =>
      apply steady_bind_request; intros; hush
  | |- steady (bind (match ?x with _ => _ end) _) =>
      first [is_var x; destruct x | destruct x eqn:?]
  | |- steady (bind _ _) => apply steady_bind_reads; [reads_step | intros]
  | |- steady (ret _) => apply steady_quiet, quiet_ret
  | |- steady (lift _) => apply steady_quiet, quiet_lift
  | |- steady (match ?x with _ => _ end) =>
      first [is_var x; destruct x | destruct x eqn:?]
  end.

(** X9.  What a tool function asks of the client does not depend on the
    client or on what the client answers: two calls with the same
    arguments, on clients that are both authenticated or both not and with
    the same local files, make requests with the same method, endpoint and
    keyword arguments.  ([create_draft] and [update_email] are left out:
    their second request follows from the response to the first.) *)
Theorem requests_depend_on_the_arguments_only (tc : tool_call) (st1 st2 : State R) :
  ~ In (tool_name tc) ["create_draft"; "update_email"] ->
  files R st1 = files R st2 ->
  is_authenticated R (client R st1) = is_authenticated R (client R st2) ->
  map request_of (new_calls st1 (snd (run_tool R tc st1)))
  = map request_of (new_calls st2 (snd (run_tool R tc st2))).
Proof.
  intros Hname Hf Ha.
  assert (H : steady (run_tool R tc)).
  { rewrite run_tool_try_except.
    apply steady_try_except; [|intros; apply quiet_tool_except].
    destruct tc; try (exfalso; apply Hname; cbn; tauto);
      cbn [tool_try]; autounfold with tries;
      unfold client_get, client_post, client_patch, client_delete;
      cbv zeta;
      repeat steady_step. }
  apply H. split; assumption.
Qed.


Ltac answered_leaf :=
  unfold before_except, answered;
  cbn [app successful data failure success];
  leaf_cases;
  first [ discriminate
        | congruence
        | exact I
        | exists []; eexists; split; reflexivity
        | eexists [_]; eexists; split; reflexivity ].

(** X10.  A tool function returns a success only after a request that
    returned: the last request of the call did not raise. *)
Theorem success_follows_an_answer (tc : tool_call) (st : State R) (envelope : Envelope) :
  fst (run_tool R tc st) = Ok envelope ->
  successful envelope = true ->
  exists before c,
    new_calls st (snd (run_tool R tc st)) = (before ++ [c])%list
    /\ is_ok (call_outcome c) = true.
Proof.
  assert (H : observes answered (run_tool R tc)).
  { destruct tc; observe answered_leaf. }
  destruct (H st) as (l & E & Hl). rewrite (new_calls_app _ _ _ E).
  intros Hrun. rewrite Hrun in Hl. exact Hl.
Qed.

(** X11.  [get_schedule] with an [availabilityViewInterval] that [int] does
    not accept returns the failure of that conversion and makes no
    request.  (An exception of the conversion that is no instance of
    [Exception] would end the call instead.) *)
Theorem get_schedule_rejects_a_bad_interval
    (Schedules : list string) (StartTime EndTime : pydict) (interval : string)
    (e : exn) (st : State R) :
  is_authenticated R (client R st) = true ->
  int_of_str R interval = Raise e ->
  get_schedule R Schedules StartTime EndTime (Some interval) st
  = if is_Exception e then (Ok (failure (exn_msg e)), st) else (Raise e, st).
Proof.
  intros H He.
  unfold get_schedule, try_except, get_schedule_try, bind, authenticated, lift.
  rewrite H, He. cbn. destruct (is_Exception e); reflexivity.
Qed.


(** *** A measure of the client *)

Section Paced.
Variable measure : Client R -> nat.
Variable step : nat.
Hypothesis request_step :
  forall method endpoint kw c,
    (measure (snd (request R method endpoint kw c)) <= measure c + step)%nat.

Lemma paced_still {A} (m : M R A) :
  (forall st, calls R (snd (m st)) = calls R st
              /\ client R (snd (m st)) = client R st) ->
  paced measure step m.
Proof.
  intros H st. destruct (H st) as [Hc Hk]. exists [].
  rewrite app_nil_r, Hk. split; [exact Hc|]. cbn. lia.
Qed.

Lemma paced_ret {A} (a : A) : paced measure step (ret a).
Proof. apply paced_still. intros st. split; reflexivity. Qed.

Lemma paced_lift {A} (r : result A) : paced measure step (lift r).
Proof. apply paced_still. intros st. split; reflexivity. Qed.

Lemma paced_authenticated : paced measure step (authenticated R).
Proof. apply paced_still. intros st. split; reflexivity. Qed.

Lemma paced_os_path_exists (path : string) : paced measure step (os_path_exists R path).
Proof. apply paced_still. intros st. split; reflexivity. Qed.

Lemma paced_open_read (path : string) : paced measure step (open_read R path).
Proof. apply paced_still. intros st. split; reflexivity. Qed.

Lemma paced_open_write (path bytes : string) : paced measure step (open_write R path bytes).
Proof.
  apply paced_still. intros st. unfold open_write.
  destruct (write_file R path bytes (files R st)). split; reflexivity.
Qed.

Lemma paced_tool_except (tc : tool_call) (e : exn) : paced measure step (tool_except R tc e).
Proof.
  apply paced_still. intros st.
  destruct (tool_except_returns tc e st) as [-> | ->]; split; reflexivity.
Qed.

Lemma paced_client_request (method endpoint : string) (kw : kwargs) :
  paced measure step (client_request R method endpoint kw).
Proof.
  intros st. unfold client_request.
  pose proof (request_step method endpoint kw (client R st)) as H.
  destruct (request R method endpoint kw (client R st)) as [outcome client'].
  eexists. split; [reflexivity|]. cbn [snd client List.length] in *. lia.
Qed.

Lemma paced_bind {A B} (m : M R A) (k : A -> M R B) :
  paced measure step m -> (forall a, paced measure step (k a)) ->
  paced measure step (bind m k).
Proof.
  intros Hm Hk st. unfold bind.
  destruct (Hm st) as (l1 & E1 & H1).
  destruct (m st) as [[a|e] st1]; cbn [snd] in *.
  - destruct (Hk a st1) as (l2 & E2 & H2).
    exists (l1 ++ l2)%list. split.
    + rewrite E2, E1, app_assoc. reflexivity.
    + rewrite length_app. lia.
  - exists l1. split; assumption.
Qed.

Lemma paced_try_except {A} (m : M R A) (h : exn -> M R A) :
  paced measure step m -> (forall e, paced measure step (h e)) ->
  paced measure step (try_except m h).
Proof.
  intros Hm Hh st. unfold try_except.
  destruct (Hm st) as (l1 & E1 & H1).
  destruct (m st) as [[a|e] st1]; cbn [snd] in *.
  - exists l1. split; assumption.
  - destruct (is_Exception e); [|exists l1; split; assumption].
    destruct (Hh e st1) as (l2 & E2 & H2).
    exists (l1 ++ l2)%list. split.
    + rewrite E2, E1, app_assoc. reflexivity.
    + rewrite length_app. lia.
Qed.

Ltac pace_step :=
  cbv beta iota;
  lazymatch goal with
  | |- paced _ _ (bind _ _) => apply paced_bind; [|intros]
  | |- paced _ _ (ret _) => apply paced_ret
  | |- paced _ _ (lift _) => apply paced_lift
  | |- paced _ _ (authenticated _) => apply paced_authenticated
  | |- paced _ _ (os_path_exists _ _) => apply paced_os_path_exists
  | |- paced _ _ (open_read _ _) => apply paced_open_read
  | |- paced _ _ (open_write _ _ _) => apply paced_open_write
  | |- paced _ _ (try_except _ _) => apply paced_try_except; [|intros]
  | |- paced _ _ (client_request _ _ _ _) => apply paced_client_request
  | |- paced _ _ (match ?x with _ => _ end) =>
      first [is_var x; destruct x | destruct x eqn:?]
  end.

(** The client changes with the requests only: a measure of the client
    that a request raises by at most [step] is raised by a tool function by
    at most [step] for each request it makes. *)
Lemma run_tool_paced (tc : tool_call) : paced measure step (run_tool R tc).
Proof.
  rewrite run_tool_try_except.
  apply paced_try_except; [|intros; apply paced_tool_except].
  destruct tc; cbn [tool_try]; autounfold with tries;
    unfold update_email_draft_check, event_attachment_content,
      client_get, client_post, client_patch, client_delete;
    cbv zeta;
    repeat pace_step.
Qed.

End Paced.

End WithRuntime.
End ToolFacts.

(** ** The manifest dispatcher *)

Module DispatchFacts.
Import Graph Dispatch.
Local Open Scope py_scope.
Local Open Scope string_scope.

Lemma mem_In (k : string) (l : list string) : mem k l = true <-> In k l.
Proof.
  unfold mem. rewrite existsb_exists. split.
  - intros (x & Hx & E). apply String.eqb_eq in E. now subst.
  - intros H. exists k. split; [exact H|apply String.eqb_refl].
Qed.

Lemma split_decl_name (n : string) : no_equals n = true -> split_decl n = (n, None).
Proof.
  induction n as [|c n IH]; cbn; [reflexivity|].
  intros H. apply andb_prop in H. destruct H as [Hc Hn].
  destruct (Ascii.eqb c "="); [discriminate|].
  rewrite (IH Hn). reflexivity.
Qed.

Lemma split_decl_default (n expr : string) :
  no_equals n = true -> split_decl (n ++ "=" ++ expr) = (n, Some expr).
Proof.
  change ("=" ++ expr) with (String "=" expr).
  induction n as [|c n IH]; cbn [no_equals split_decl String.append]; [reflexivity|].
  intros H. apply andb_prop in H. destruct H as [Hc Hn].
  destruct (Ascii.eqb c "="); [discriminate|].
  rewrite (IH Hn). reflexivity.
Qed.

Lemma lookup_app_l {A} (k : string) (l1 l2 : list (string * A)) :
  In k (names_of l1) -> lookup k (l1 ++ l2) = lookup k l1.
Proof.
  induction l1 as [|[k' v] l1 IH]; cbn; [contradiction|].
  intros [E | H].
  - subst. rewrite String.eqb_refl. reflexivity.
  - destruct (k' =? k); [reflexivity|apply IH; exact H].
Qed.

Lemma lookup_app_r {A} (k : string) (l1 l2 : list (string * A)) :
  ~ In k (names_of l1) -> lookup k (l1 ++ l2) = lookup k l2.
Proof.
  induction l1 as [|[k' v] l1 IH]; cbn; [reflexivity|].
  intros H. destruct (String.eqb_spec k' k) as [E|E].
  - exfalso. apply H. left. exact E.
  - apply IH. intros Hin. apply H. right. exact Hin.
Qed.

Lemma lookup_In {A} (k : string) (l : list (string * A)) :
  In k (names_of l) -> exists a, lookup k l = Some a.
Proof.
  induction l as [|[k' v] l IH]; cbn; [contradiction|].
  intros [E | H].
  - subst. rewrite String.eqb_refl. eexists. reflexivity.
  - destruct (k' =? k); [eexists; reflexivity|apply IH; exact H].
Qed.

Lemma distinct_cons (n : string) (l : list string) :
  distinct (n :: l) = true <-> ~ In n l /\ distinct l = true.
Proof.
  cbn. rewrite andb_true_iff, negb_true_iff. split.
  - intros [H1 H2]. split; [|exact H2]. intros Hin. apply mem_In in Hin. congruence.
  - intros [H1 H2]. split; [|exact H2].
    destruct (mem n l) eqn:E; [|reflexivity]. apply mem_In in E. contradiction.
Qed.

(** The local variables of a call, read back by their names. *)
Lemma collect_kwargs_self (before locals : list (string * arg)) :
  distinct (names_of (before ++ locals)) = true ->
  collect_kwargs (names_of locals) (before ++ locals) = Ok locals.
Proof.
  revert before. induction locals as [|[n a] locals IH]; intros before H; cbn.
  - reflexivity.
  - assert (Hn : ~ In n (names_of before)).
    { unfold names_of in *. rewrite map_app in H. cbn in H.
      clear IH. induction before as [|[k v] before IHb]; cbn in *; [tauto|].
      apply andb_prop in H. destruct H as [Hk Hd].
      intros [E | Hin].
      - subst. apply negb_true_iff in Hk.
        assert (mem n (map fst before ++ n :: map fst locals) = true).
        { apply mem_In, in_or_app. right. left. reflexivity. }
        congruence.
      - exact (IHb Hd Hin). }
    rewrite (lookup_app_r _ _ _ Hn). cbn [lookup]. rewrite String.eqb_refl.
    specialize (IH (before ++ [(n, a)])%list).
    rewrite <- app_assoc in IH. cbn [app] in IH.
    unfold names_of in *. rewrite (IH H). reflexivity.
Qed.

Lemma bind_positional_names (fname : string) (params rest : list param)
    (pos : list arg) (bound : list (string * arg)) :
  bind_positional fname params pos = Ok (bound, rest) ->
  map p_name params = (names_of bound ++ map p_name rest)%list.
Proof.
  revert pos bound. induction params as [|p params IH]; intros [|a pos] bound H; cbn in H.
  - inversion H. reflexivity.
  - discriminate.
  - inversion H. reflexivity.
  - destruct (bind_positional fname params pos) as [[b r]|e] eqn:E; [|discriminate].
    inversion H; subst. unfold names_of in *. cbn [map fst app].
    rewrite (IH _ _ E). reflexivity.
Qed.

Lemma bind_positional_none (fname : string) (params : list param) :
  bind_positional fname params [] = Ok ([], params).
Proof. destruct params; reflexivity. Qed.

Lemma fill_names (fname : string) (params : list param) (kw filled : list (string * arg)) :
  fill fname params kw = Ok filled -> names_of filled = map p_name params.
Proof.
  revert filled. induction params as [|p params IH]; intros filled H; cbn in H.
  - inversion H. reflexivity.
  - destruct (match lookup (p_name p) kw with
              | Some a => Some a
              | None => match p_default p with Some d => Some (Data d) | None => None end
              end); [|discriminate].
    destruct (fill fname params kw) as [b|e]; [|discriminate].
    inversion H; subst. unfold names_of in *. cbn [map fst].
    rewrite (IH _ eq_refl). reflexivity.
Qed.

(** The local variables of a call are the parameters, in order. *)
Lemma bind_arguments_names (fname : string) (params : list param) (pos : list arg)
    (kw locals : list (string * arg)) :
  bind_arguments fname params pos kw = Ok locals -> names_of locals = map p_name params.
Proof.
  unfold bind_arguments.
  destruct (bind_positional fname params pos) as [[bound rest]|e] eqn:Ep; [|discriminate].
  destruct (check_keywords fname (names_of bound) (map p_name rest) kw); [|discriminate].
  destruct (fill fname rest kw) as [filled|e] eqn:Ef; [|discriminate].
  intros H. inversion H; subst.
  pose proof (fill_names _ _ _ _ Ef) as Hf.
  pose proof (bind_positional_names _ _ _ _ _ Ep) as Hp.
  unfold names_of in *. rewrite map_app, Hf, Hp. reflexivity.
Qed.

Lemma check_keywords_open (fname : string) (open : list string) (kw : list (string * arg)) :
  (forall k, In k (names_of kw) -> In k open) -> check_keywords fname [] open kw = Ok tt.
Proof.
  induction kw as [|[k a] kw IH]; cbn; [reflexivity|].
  intros H. assert (Hk : mem k open = true) by (apply mem_In, H; left; reflexivity).
  rewrite Hk. cbn. apply IH. intros k' Hk'. apply H. right. exact Hk'.
Qed.

(** With a keyword for every parameter, each parameter gets its keyword. *)
Lemma fill_given (fname : string) (params : list param) (kw : list (string * arg)) :
  (forall p, In p params -> In (p_name p) (names_of kw)) ->
  exists filled,
    fill fname params kw = Ok filled
    /\ names_of filled = map p_name params
    /\ forall n, In n (map p_name params) -> lookup n filled = lookup n kw.
Proof.
  induction params as [|p params IH]; intros H; cbn.
  - exists []. repeat split. intros n [].
  - destruct (lookup_In _ _ (H p (or_introl eq_refl))) as [a Ha]. rewrite Ha.
    destruct IH as (filled & Ef & Hn & Hl).
    { intros q Hq. apply H. right. exact Hq. }
    rewrite Ef. exists ((p_name p, a) :: filled). repeat split.
    + unfold names_of in *. cbn [map fst]. rewrite Hn. reflexivity.
    + intros n Hin. cbn. destruct (String.eqb_spec (p_name p) n) as [E|E].
      * subst. symmetry. exact Ha.
      * destruct Hin as [E'|Hin]; [contradiction|]. apply Hl. exact Hin.
Qed.

Lemma lookup_absent {A} (k : string) (l : list (string * A)) :
  ~ In k (names_of l) -> lookup k l = None.
Proof.
  induction l as [|[k' v] l IH]; cbn; [reflexivity|].
  intros H. destruct (String.eqb_spec k' k) as [E|E].
  - exfalso. apply H. left. exact E.
  - apply IH. intros Hin. apply H. right. exact Hin.
Qed.

Lemma distinct_filter (f : param -> bool) (params : list param) :
  distinct (map p_name params) = true ->
  distinct (map p_name (filter f params)) = true.
Proof.
  induction params as [|p params IH]; [reflexivity|].
  change (map p_name (p :: params)) with (p_name p :: map p_name params).
  rewrite distinct_cons. intros [Hn Hd]. cbn [filter].
  destruct (f p); [|exact (IH Hd)].
  change (map p_name (p :: filter f params))
    with (p_name p :: map p_name (filter f params)).
  apply distinct_cons. split; [|exact (IH Hd)].
  intros Hin. apply Hn. apply in_map_iff in Hin. destruct Hin as (q & Eq & Hq).
  apply filter_In in Hq. apply in_map_iff. exists q. tauto.
Qed.

Lemma defaults_last_filter (f : param -> bool) (params : list param) :
  defaults_last params = true -> defaults_last (filter f params) = true.
Proof.
  induction params as [|p params IH]; [reflexivity|].
  cbn [defaults_last filter]. destruct (p_default p) eqn:Ed.
  - intros H. destruct (f p).
    + cbn [defaults_last]. rewrite Ed. rewrite forallb_forall in *.
      intros q Hq. apply H. apply filter_In in Hq. tauto.
    + apply IH. clear IH. induction params as [|q params IHq]; [reflexivity|].
      cbn in H |- *. apply andb_prop in H. destruct H as [Hq Hrest].
      destruct (p_default q); [exact Hrest|discriminate].
  - intros H. destruct (f p); [cbn [defaults_last]; rewrite Ed|]; exact (IH H).
Qed.

Section Server.
Variable env : Env.
Variable py_repr : pyval -> string.
Variable py_eval : string -> result pyval.

(** Python evaluates the text [repr(None)] to [None]. *)
Hypothesis eval_repr_None : py_eval (py_repr PNone) = Ok PNone.

Lemma read_decl_decl_part (p : param) :
  no_equals (p_name p) = true ->
  match p_default p with Some PNone | None => true | Some _ => false end = true ->
  read_decl py_eval (decl_part py_repr p) = Ok p.
Proof.
  intros Hn Hd. unfold read_decl, decl_part.
  destruct p as [n [d|]]; cbn [p_name p_default] in *.
  - destruct d; try discriminate.
    rewrite (split_decl_default n (py_repr PNone) Hn), eval_repr_None. reflexivity.
  - rewrite (split_decl_name n Hn). reflexivity.
Qed.

Lemma read_decls_decl_parts (params : list param) :
  forallb (fun p => no_equals (p_name p)) params = true ->
  forallb (fun p => match p_default p with
                    | Some PNone | None => true
                    | Some _ => false
                    end) params = true ->
  read_decls py_eval (map (decl_part py_repr) params) = Ok params.
Proof.
  induction params as [|p params IH]; cbn; [reflexivity|].
  intros Hn Hd. apply andb_prop in Hn, Hd. destruct Hn as [Hn Hns], Hd as [Hd Hds].
  rewrite (read_decl_decl_part p Hn Hd), (IH Hns Hds). reflexivity.
Qed.

Lemma forallb_filter {A} (f g : A -> bool) (l : list A) :
  forallb g l = true -> forallb g (filter f l) = true.
Proof.
  rewrite !forallb_forall. intros H x Hx. apply H. apply filter_In in Hx. tauto.
Qed.

Lemma tool_like_parts (params : list param) :
  tool_like params = true ->
  In "client" (map p_name params)
  /\ distinct (map p_name params) = true
  /\ defaults_last params = true
  /\ forallb (fun p => no_equals (p_name p)) params = true
  /\ forallb (fun p => match p_default p with
                       | Some PNone | None => true
                       | Some _ => false
                       end) params = true.
Proof.
  unfold tool_like. rewrite !andb_true_iff, mem_In. tauto.
Qed.

(** Executing the generated [def] gives back the parameters it was
    generated from. *)
Lemma exec_def_without_client (params : list param) :
  tool_like params = true ->
  exec_def py_eval (map (decl_part py_repr) (without_client params))
  = Ok (without_client params).
Proof.
  intros H. destruct (tool_like_parts _ H) as (_ & Hd & Hl & Hn & Hv).
  unfold exec_def, without_client.
  rewrite read_decls_decl_parts by (apply forallb_filter; assumption).
  rewrite (distinct_filter _ _ Hd), (defaults_last_filter _ _ Hl). reflexivity.
Qed.

Lemma tool_signatures_tool_like (name : string) (params : list param) :
  In (name, params) tool_signatures -> tool_like params = true.
Proof.
  assert (H : forallb (fun s => tool_like (snd s)) tool_signatures = true)
    by (vm_compute; reflexivity).
  rewrite forallb_forall in H. intros Hin. exact (H _ Hin).
Qed.

(** [get_client] hands out the client object of [state]; it builds one only
    when there is none. *)
Lemma get_client_singleton (p p' : Process) (client : arg) :
  get_client env p = (Ok client, p') ->
  client = ClientObject
  /\ state_client p' <> None
  /\ (state_client p <> None -> p' = p).
Proof.
  unfold get_client. destruct (state_client p) as [self|] eqn:Es.
  - intros H. inversion H; subst. repeat split; congruence.
  - destruct (new_client env (world p)) as [[self|e] w]; [|discriminate].
    destruct (negb (is_authenticated self)).
    + destruct (authenticate_interactive env (self, w)) as [[b|e] [self' w']];
        [|discriminate].
      intros H. inversion H; subst. cbn. repeat split; congruence.
    + intros H. inversion H; subst. cbn. repeat split; congruence.
Qed.

(** What happens before the function that follows [get_client] runs:
    nothing when [state] holds a client; otherwise a client is constructed
    and, when it holds no token, authenticated, and it is stored in [state]
    as soon as it is constructed. *)
Lemma get_client_then {A} (k : arg -> SE Process A) (p : Process) :
  (client <- get_client env ;; k client) p
  = match state_client p with
    | Some _ => k ClientObject p
    | None =>
        match new_client env (world p) with
        | (Raise e, w) => (Raise e, {| state_client := None; world := w |})
        | (Ok self, w) =>
            if is_authenticated self then
              k ClientObject {| state_client := Some self; world := w |}
            else
              match authenticate_interactive env (self, w) with
              | (Ok _, (self', w')) =>
                  k ClientObject {| state_client := Some self'; world := w' |}
              | (Raise e, (self', w')) =>
                  (Raise e, {| state_client := Some self'; world := w' |})
              end
        end
    end.
Proof.
  unfold bind, get_client.
  destruct (state_client p); [reflexivity|].
  destruct (new_client env (world p)) as [[self|e] w]; [|reflexivity].
  destruct (is_authenticated self); cbn [negb]; [reflexivity|].
  destruct (authenticate_interactive env (self, w)) as [[b|e] [self' w']]; reflexivity.
Qed.

(** C6.  For a function [func] with the signature of a tool function,
    [create_dynamic_wrapper] returns a wrapper whose parameters are those of
    [func] without [client], names and defaults unchanged.  A call of the
    wrapper that binds its arguments to the local variables [locals] gets
    the client from [get_client] and then calls [func] with the keyword
    arguments [client] and [locals]; in that call of [func] the parameter
    [client] holds the client and every other parameter holds what the
    wrapper was given for it.

    The client is the one object of [state]: when [state] holds a client,
    [func] is called with it and nothing is constructed; when it holds
    none, an [OutlookClient] is constructed at that call (not when the
    wrapper is made), stored, authenticated when it has no cached token,
    and [func] is called with it; an exception of the construction or of
    the authentication ends the call of the wrapper.  Once [get_client] has
    returned, [state] holds a client and every later [get_client] returns
    that client and leaves the process as it is. *)
Theorem wrapper_binds_the_client {Ret} (name : string) (func : pyfunc Ret)
    (description tool_id : option string) :
  In (name, f_params func) tool_signatures ->
  exists wrapper,
    create_dynamic_wrapper env py_repr py_eval func description tool_id = Ok wrapper
    /\ f_params wrapper = without_client (f_params func)
    /\ (forall pos kw locals,
         bind_arguments (f_name wrapper) (f_params wrapper) pos kw = Ok locals ->
         (forall p,
            call wrapper pos kw p
            = (client <- get_client env ;;
               call func [] (("client", client) :: locals)) p)
         /\ (forall p,
               let call_func := call func [] (("client", ClientObject) :: locals) in
               call wrapper pos kw p
               = match state_client p with
                 | Some _ => call_func p
                 | None =>
                     match new_client env (world p) with
                     | (Raise e, w) => (Raise e, {| state_client := None; world := w |})
                     | (Ok self, w) =>
                         if is_authenticated self then
                           call_func {| state_client := Some self; world := w |}
                         else
                           match authenticate_interactive env (self, w) with
                           | (Ok _, (self', w')) =>
                               call_func {| state_client := Some self'; world := w' |}
                           | (Raise e, (self', w')) =>
                               (Raise e, {| state_client := Some self'; world := w' |})
                           end
                     end
                 end)
         /\ forall client,
              exists locals_of_func,
                bind_arguments (f_name func) (f_params func) []
                  (("client", client) :: locals) = Ok locals_of_func
                /\ names_of locals_of_func = map p_name (f_params func)
                /\ lookup "client" locals_of_func = Some client
                /\ forall n, n <> "client" -> lookup n locals_of_func = lookup n locals)
    /\ (forall p client p',
          get_client env p = (Ok client, p') ->
          client = ClientObject
          /\ state_client p' <> None
          /\ (state_client p <> None -> p' = p)
          /\ get_client env p' = (Ok ClientObject, p')).
Proof.
  intros Hsig. pose proof (tool_signatures_tool_like _ _ Hsig) as Hlike.
  destruct (tool_like_parts _ Hlike) as (Hclient & Hdistinct & _).
  unfold create_dynamic_wrapper. fold (without_client (f_params func)).
  rewrite (exec_def_without_client _ Hlike).
  eexists. split; [reflexivity|]. cbn [f_params f_name f_body].
  split; [reflexivity|].
  split.
  2:{ intros p client p' Hget.
      destruct (get_client_singleton p p' client Hget) as (Hc & Hsome & Hsame).
      split; [exact Hc|]. split; [exact Hsome|]. split; [exact Hsame|].
      unfold get_client. destruct (state_client p') as [self|]; [reflexivity|].
      exfalso. apply Hsome. reflexivity. }
  intros pos kw locals Hbind.
  pose proof (bind_arguments_names _ _ _ _ _ Hbind) as Hnames.
  assert (Hsub : forall n, In n (names_of locals) ->
                           In n (map p_name (f_params func)) /\ n <> "client").
  { intros n Hn. rewrite Hnames in Hn. apply in_map_iff in Hn.
    destruct Hn as (q & <- & Hq). apply filter_In in Hq. destruct Hq as [Hq Hc].
    split; [apply in_map; exact Hq|].
    apply negb_true_iff in Hc. intros E. rewrite E in Hc. discriminate. }
  match goal with
  | |- (forall p, ?l p = ?r p) /\ _ => assert (Hcall : forall p, l p = r p)
  end.
  { intros p. unfold call at 1. cbn [f_params f_name f_body]. rewrite Hbind.
    rewrite <- Hnames.
    assert (Hd : distinct (names_of ([] ++ locals)) = true).
    { cbn [app]. rewrite Hnames. apply distinct_filter. exact Hdistinct. }
    pose proof (collect_kwargs_self [] locals Hd) as Hc. cbn [app] in Hc.
    unfold bind at 1. unfold lift. rewrite Hc. reflexivity. }
  split; [exact Hcall|]. split.
  - intros p. cbv zeta. rewrite Hcall. apply get_client_then.
  - intros client. unfold bind_arguments.
    rewrite bind_positional_none. cbn [names_of map].
    rewrite check_keywords_open.
    2:{ intros k [<- | Hk]; [exact Hclient|]. apply (Hsub _ Hk). }
    destruct (fill_given (f_name func) (f_params func) (("client", client) :: locals))
      as (filled & Ef & Hfn & Hfl).
    { intros q Hq. destruct (String.eqb_spec (p_name q) "client") as [E|E].
      - left. symmetry. exact E.
      - right. rewrite Hnames. apply in_map. apply filter_In. split; [exact Hq|].
        apply negb_true_iff. apply String.eqb_neq. exact E. }
    rewrite Ef. cbn [app]. exists filled. split; [reflexivity|].
    split; [exact Hfn|]. split.
    + rewrite (Hfl _ Hclient). cbn [lookup]. rewrite String.eqb_refl. reflexivity.
    + intros n Hn. destruct (in_dec string_dec n (map p_name (f_params func))) as [Hin|Hout].
      * rewrite (Hfl _ Hin). cbn [lookup].
        destruct (String.eqb_spec "client" n); [congruence|reflexivity].
      * rewrite lookup_absent by (rewrite Hfn; exact Hout).
        symmetry. apply lookup_absent. intros Hin. apply Hout. apply (Hsub _ Hin).
Qed.

End Server.
End DispatchFacts.

(** ** The tool functions on an [OutlookClient] *)

Module ServerFacts.
Import Py Graph Tools OutlookServer.
Import GraphFacts.
Local Open Scope string_scope.


End ServerFacts.

(** ** The request client, step by step *)

Module ClientFacts.
Import Graph GraphShapes PyFacts GraphFacts.
Local Open Scope py_scope.

Section Client.
Variable env : Env.

Lemma get_headers_state (s s' : OutlookClient * World) (r : result pydict) :
  get_headers s = (r, s') -> s' = s.
Proof.
  destruct s as [self w]. unfold get_headers.
  destruct (access_token self) as [t|]; [destruct (str_truthy t)|];
    intros H; inversion H; reflexivity.
Qed.

Lemma get_headers_token (self : OutlookClient) (w : World) (token : string) :
  access_token self = Some token -> str_truthy token = true ->
  get_headers (self, w) = (Ok (default_headers token), (self, w)).
Proof. intros H1 H2. unfold get_headers. rewrite H1, H2. reflexivity. Qed.

Lemma get_headers_no_token (self : OutlookClient) (w : World) :
  opt_str_truthy (access_token self) = false ->
  get_headers (self, w) = (Raise NOT_AUTHENTICATED_ERROR, (self, w)).
Proof.
  unfold get_headers, opt_str_truthy. destruct (access_token self) as [t|]; [|reflexivity].
  intros ->. reflexivity.
Qed.

Lemma request_from_first (method endpoint : string) (kw : kwargs) (headers : pydict)
    (s : OutlookClient * World) :
  (response <- send env {| rq_method := method;
                           rq_url := (GRAPH_API_ENDPOINT ++ endpoint)%string;
                           rq_headers := headers; rq_kwargs := kw_remove "headers" kw |} ;;
   response <- (if (status_code response =? 401)%Z then
                  reloaded <- _load_cached_token env ;;
                  if (reloaded : bool) then
                    headers <- get_headers ;;
                    send env {| rq_method := method;
                                rq_url := (GRAPH_API_ENDPOINT ++ endpoint)%string;
                                rq_headers := headers;
                                rq_kwargs := kw_remove "headers" kw |}
                  else
                    raise (Exn "Exception" "Authentication expired. Please re-authenticate.")
                else ret response) ;;
   raise_for_status response ;;;
   if str_truthy (content response) then lift (json env response) else ret (PDict [])) s
  = from_first env method endpoint kw headers s.
Proof.
  destruct s as [self w]. unfold from_first. cbn [fst snd]. cbv zeta.
  unfold bind at 1. unfold send at 1.
  fold (after_exchange w {| rq_method := method; rq_url := (GRAPH_API_ENDPOINT ++ endpoint)%string;
                            rq_headers := headers; rq_kwargs := kw_remove "headers" kw |}
          (http env w {| rq_method := method; rq_url := (GRAPH_API_ENDPOINT ++ endpoint)%string;
                            rq_headers := headers; rq_kwargs := kw_remove "headers" kw |})).
  destruct (http env w _) as [r1|e]; [|reflexivity].
  unfold after_first. unfold bind at 1.
  destruct (status_code r1 =? 401)%Z; [|reflexivity].
  unfold bind at 1.
  destruct (_load_cached_token env _) as [[[|]|e] [self2 w2]]; try reflexivity.
  unfold bind at 1.
  destruct (get_headers (self2, w2)) as [[headers2|e] s2] eqn:Eh.
  2:{ rewrite (get_headers_state _ _ _ Eh). reflexivity. }
  rewrite (get_headers_state _ _ _ Eh).
  unfold send. cbn.
  fold (after_exchange w2 {| rq_method := method; rq_url := (GRAPH_API_ENDPOINT ++ endpoint)%string;
                            rq_headers := headers2; rq_kwargs := kw_remove "headers" kw |}
          (http env w2 {| rq_method := method; rq_url := (GRAPH_API_ENDPOINT ++ endpoint)%string;
                            rq_headers := headers2; rq_kwargs := kw_remove "headers" kw |})).
  destruct (http env w2 _) as [r2|e]; reflexivity.
Qed.

(** [request] on a client with a usable token, step by step. *)
Lemma request_steps (method endpoint : string) (kw : kwargs) (self : OutlookClient)
    (w : World) (token : string) :
  access_token self = Some token -> str_truthy token = true ->
  request env method endpoint kw (self, w)
  = match merged_headers token kw with
    | Raise e => (Raise e, (self, w))
    | Ok headers => from_first env method endpoint kw headers (self, w)
    end.
Proof.
  intros Hself Ht. unfold request.
  unfold bind at 1. rewrite (get_headers_token _ _ _ Hself Ht).
  unfold bind at 1. unfold merged_headers.
  destruct (kw_find "headers" kw) as [c|]; [destruct (truthy c)|].
  - unfold lift at 1. destruct (dict_update (default_headers token) c); [|reflexivity].
    apply request_from_first.
  - apply request_from_first.
  - apply request_from_first.
Qed.


Lemma get_headers_default (s s' : OutlookClient * World) (headers : pydict) :
  get_headers s = (Ok headers, s') ->
  exists token, access_token (fst s) = Some token /\ str_truthy token = true
                /\ headers = default_headers token.
Proof.
  destruct s as [self w]. unfold get_headers. cbn [fst].
  destruct (access_token self) as [t|]; [destruct (str_truthy t) eqn:E|];
    intros H; inversion H. exists t. repeat split; first [assumption | reflexivity].
Qed.

Lemma new_exchanges_none (w : World) : new_exchanges w w = [].
Proof. apply new_exchanges_app. rewrite app_nil_r. reflexivity. Qed.

Lemma new_exchanges_one (w : World) (rq : Request) (a : result Response) :
  new_exchanges w (after_exchange w rq a) = [(rq, a)].
Proof. apply new_exchanges_app. reflexivity. Qed.

Lemma load_cached_token_msal (s : OutlookClient * World) :
  (msal_calls (snd s) <= msal_calls (snd (snd (_load_cached_token env s))))%nat.
Proof.
  destruct s as [self w]. unfold _load_cached_token. cbn [snd].
  destruct (get_accounts env w); [cbn; lia|].
  destruct (acquire_token_silent env w p) as [[[t|]|]|e]; cbn; lia.
Qed.

(** X13.  [request] on a client without a usable token (none, or the empty
    string) raises the not-authenticated exception and does nothing else:
    no request goes out and the token cache is not asked. *)
Theorem request_without_token_sends_nothing (method endpoint : string) (kw : kwargs)
    (self : OutlookClient) (w : World) :
  opt_str_truthy (access_token self) = false ->
  request env method endpoint kw (self, w) = (Raise NOT_AUTHENTICATED_ERROR, (self, w)).
Proof.
  intros H. unfold request. unfold bind at 1.
  rewrite (get_headers_no_token _ _ H). reflexivity.
Qed.

(** The ways [request] can go, by the exchanges it leaves. *)
Lemma request_ways (method endpoint : string) (kw : kwargs) (self : OutlookClient)
    (w : World) :
  let run := request env method endpoint kw (self, w) in
  let rq_with (headers : pydict) :=
    {| rq_method := method; rq_url := (GRAPH_API_ENDPOINT ++ endpoint)%string;
       rq_headers := headers; rq_kwargs := kw_remove "headers" kw |} in
  (snd run = (self, w))
  \/ (exists token headers a1,
        access_token self = Some token
        /\ merged_headers token kw = Ok headers
        /\ a1 = http env w (rq_with headers)
        /\ ((snd run = (self, after_exchange w (rq_with headers) a1)
             /\ forall r1, a1 = Ok r1 -> status_code r1 <> 401%Z)
            \/ (exists r1,
                  a1 = Ok r1 /\ status_code r1 = 401%Z
                  /\ let reload :=
                       _load_cached_token env (self, after_exchange w (rq_with headers) a1) in
                     (snd run = snd reload
                      /\ (fst reload = Ok true ->
                          opt_str_truthy (access_token (fst (snd reload))) = false))
                     \/ (exists token2,
                           fst reload = Ok true
                           /\ access_token (fst (snd reload)) = Some token2
                           /\ str_truthy token2 = true
                           /\ snd run
                              = (fst (snd reload),
                                 after_exchange (snd (snd reload))
                                   (rq_with (default_headers token2))
                                   (http env (snd (snd reload))
                                      (rq_with (default_headers token2)))))))).
Proof.
  cbv zeta.
  destruct (opt_str_truthy (access_token self)) eqn:Ht.
  2:{ left. rewrite (request_without_token_sends_nothing _ _ _ _ _ Ht). reflexivity. }
  unfold opt_str_truthy in Ht. destruct (access_token self) as [token|] eqn:Hself;
    [|discriminate].
  rewrite (request_steps _ _ _ _ _ _ Hself Ht).
  destruct (merged_headers token kw) as [headers|e] eqn:Hm; [|left; reflexivity].
  right. exists token, headers, (http env w {| rq_method := method;
                                            rq_url := (GRAPH_API_ENDPOINT ++ endpoint)%string;
                                            rq_headers := headers;
                                            rq_kwargs := kw_remove "headers" kw |}).
  split; [reflexivity|]. split; [exact Hm|]. split; [reflexivity|].
  unfold from_first. cbn [fst snd]. cbv zeta.
  set (rq1 := {| rq_method := method; rq_url := (GRAPH_API_ENDPOINT ++ endpoint)%string;
                 rq_headers := headers; rq_kwargs := kw_remove "headers" kw |}).
  destruct (http env w rq1) as [r1|e] eqn:Ea1.
  2:{ left. split; [reflexivity|]. intros r1 H. discriminate. }
  unfold after_first.
  destruct (status_code r1 =? 401)%Z eqn:E401.
  2:{ left. split; [apply finish_state|]. intros r H. inversion H; subst. lia. }
  right. exists r1. split; [reflexivity|]. split; [lia|].
  destruct (_load_cached_token env (self, after_exchange w rq1 (Ok r1)))
    as [[[|]|e] s2] eqn:El; cbn [fst snd].
  - destruct (get_headers s2) as [[headers2|e] s3] eqn:Eh.
    + right. destruct (get_headers_default _ _ _ Eh) as (t2 & H1 & H2 & ->).
      exists t2. split; [reflexivity|]. split; [exact H1|]. split; [exact H2|].
      destruct (http env (snd s2) _) as [r2|e]; [apply finish_state|reflexivity].
    + left. split; [reflexivity|]. intros _.
      destruct s2 as [self2 w2]. unfold get_headers in Eh. cbn [fst]. unfold opt_str_truthy.
      destruct (access_token self2) as [t|]; [|reflexivity].
      destruct (str_truthy t); [discriminate|reflexivity].
  - left. split; [reflexivity|]. discriminate.
  - left. split; [reflexivity|]. discriminate.
Qed.


Lemma load_cached_token_new_exchanges (w : World) (self : OutlookClient) (rq : Request)
    (a : result Response) :
  exchanges (snd (snd (_load_cached_token env (self, after_exchange w rq a))))
  = (exchanges w ++ [(rq, a)])%list.
Proof. rewrite load_cached_token_exchanges. reflexivity. Qed.

(** X14.  When [request] makes two requests, the second one carries the two
    default headers only, with the token the client holds afterwards: the
    headers the caller passed are not sent again.  Method, URL and the other
    keyword arguments are those of the first request. *)
Theorem retry_carries_only_the_default_headers (method endpoint : string) (kw : kwargs)
    (self : OutlookClient) (w : World) (first retry : Request * result Response) :
  let run := request env method endpoint kw (self, w) in
  new_exchanges w (snd (snd run)) = [first; retry] ->
  exists token,
    access_token (fst (snd run)) = Some token
    /\ rq_headers (fst retry) = default_headers token
    /\ rq_method (fst retry) = rq_method (fst first)
    /\ rq_url (fst retry) = rq_url (fst first)
    /\ rq_kwargs (fst retry) = rq_kwargs (fst first).
Proof.
  intros run. subst run.
  destruct (request_ways method endpoint kw self w)
    as [E | (token & headers & a1 & Hself & Hm & Ha1 & [[E _] | (r1 & Hr1 & H401 & Hreload)])].
  - rewrite E. cbn [snd]. rewrite new_exchanges_none. discriminate.
  - rewrite E. cbn [snd]. rewrite new_exchanges_one. discriminate.
  - cbv zeta in Hreload. destruct Hreload as [[E _] | (token2 & Hok & Ht2 & _ & E)].
    + rewrite E.
      erewrite new_exchanges_app by apply load_cached_token_new_exchanges.
      discriminate.
    + rewrite E. cbn [snd fst].
      erewrite new_exchanges_app
        by (cbn [after_exchange exchanges];
            rewrite load_cached_token_new_exchanges, <- app_assoc; reflexivity).
      intros H. inversion H; subst first retry. cbn [fst].
      exists token2. repeat split. exact Ht2.
Qed.

Lemma dict_find_In (a : string) (d : pydict) (v : pyval) :
  dict_find (PStr a) d = Some v -> In (PStr a, v) d.
Proof.
  induction d as [|[k x] d IH]; cbn; [discriminate|].
  destruct (key_eqb k (PStr a)) eqn:E.
  - apply key_eqb_str in E. subst k. intros H. inversion H. left. reflexivity.
  - intros H. right. exact (IH H).
Qed.

(** After [d.update(items)], a key for which [items] holds one value has
    that value. *)
Lemma dict_find_merge_given (a : string) (v : pyval) (items d : pydict) :
  In (PStr a, v) items -> (forall v', In (PStr a, v') items -> v' = v) ->
  dict_find (PStr a) (fold_left (fun acc kv => dict_set (fst kv) (snd kv) acc) items d)
  = Some v.
Proof.
  revert d. induction items as [|[k x] items IH]; intros d Hin Hone; [contradiction|].
  cbn [fold_left fst snd].
  destruct (dict_find (PStr a) items) as [v'|] eqn:E.
  - apply dict_find_In in E.
    assert (v' = v) as -> by (apply Hone; right; exact E).
    apply IH; [exact E|]. intros v'' H. apply Hone. right. exact H.
  - rewrite (dict_find_merge _ _ _ E), dict_find_set.
    destruct Hin as [Hin | Hin].
    + inversion Hin; subst. cbn. rewrite String.eqb_refl. reflexivity.
    + exfalso. clear - Hin E. induction items as [|[k' x'] items IH]; [contradiction|].
      cbn in E. destruct Hin as [Hin | Hin].
      * inversion Hin; subst. cbn in E. rewrite String.eqb_refl in E. discriminate.
      * destruct (key_eqb k' (PStr a)); [discriminate|]. exact (IH Hin E).
Qed.

(** X15.  The headers a caller passes as a dict go out with the first
    request, on top of the two default headers: a header of the caller has
    the caller's value, any other header has its default, and the [headers]
    argument itself is not passed on to [requests.request]. *)
Theorem custom_headers_go_out_with_the_first_request (method endpoint : string)
    (kw : kwargs) (self : OutlookClient) (w : World) (token : string) (d : pydict) :
  access_token self = Some token -> token <> EmptyString ->
  kw_find "headers" kw = Some (PDict d) ->
  let run := request env method endpoint kw (self, w) in
  exists first rest,
    new_exchanges w (snd (snd run)) = first :: rest
    /\ rq_kwargs (fst first) = kw_remove "headers" kw
    /\ (forall a v, In (PStr a, v) d -> (forall v', In (PStr a, v') d -> v' = v) ->
        dict_find (PStr a) (rq_headers (fst first)) = Some v)
    /\ (forall a, dict_find (PStr a) d = None ->
        dict_find (PStr a) (rq_headers (fst first))
        = dict_find (PStr a) (default_headers token)).
Proof.
  intros Hself Htoken Hkw run. subst run.
  assert (Ht : str_truthy token = true).
  { unfold str_truthy. destruct (String.eqb_spec token EmptyString); [contradiction|reflexivity]. }
  assert (Hm : exists headers,
             merged_headers token kw = Ok headers
             /\ (forall a v, In (PStr a, v) d -> (forall v', In (PStr a, v') d -> v' = v) ->
                 dict_find (PStr a) headers = Some v)
             /\ (forall a, dict_find (PStr a) d = None ->
                 dict_find (PStr a) headers = dict_find (PStr a) (default_headers token))).
  { unfold merged_headers. rewrite Hkw. destruct d as [|item d].
    - exists (default_headers token). split; [reflexivity|]. split; [|reflexivity].
      intros a v [].
    - cbn [truthy dict_update]. eexists. split; [reflexivity|]. split.
      + intros a v Hin Hone. apply dict_find_merge_given; assumption.
      + intros a Ha. apply dict_find_merge. exact Ha. }
  destruct Hm as (headers & Hm & Hgiven & Hother).
  rewrite (request_steps _ _ _ _ _ _ Hself Ht), Hm.
  unfold from_first. cbn [fst snd]. cbv zeta.
  set (rq1 := {| rq_method := method; rq_url := (GRAPH_API_ENDPOINT ++ endpoint)%string;
                 rq_headers := headers; rq_kwargs := kw_remove "headers" kw |}).
  assert (Hex : exists rest,
             new_exchanges w
               (snd (snd match http env w rq1 with
                         | Ok r1 =>
                             after_first env method endpoint kw r1
                               (self, after_exchange w rq1 (http env w rq1))
                         | Raise e => (Raise e, (self, after_exchange w rq1 (http env w rq1)))
                         end))
             = (rq1, http env w rq1) :: rest).
  { destruct (http env w rq1) as [r1|e] eqn:Ea1.
    2:{ exists []. apply new_exchanges_one. }
    unfold after_first. destruct (status_code r1 =? 401)%Z.
    2:{ exists []. rewrite finish_state. apply new_exchanges_one. }
    destruct (_load_cached_token env (self, after_exchange w rq1 (Ok r1)))
      as [[[|]|e] s2] eqn:El.
    - pose proof (load_cached_token_new_exchanges w self rq1 (Ok r1)) as Hx.
      rewrite El in Hx. cbn [snd] in Hx.
      destruct (get_headers s2) as [[headers2|e] s3].
      + set (rq2 := {| rq_method := method;
                       rq_url := (GRAPH_API_ENDPOINT ++ endpoint)%string;
                       rq_headers := headers2; rq_kwargs := kw_remove "headers" kw |}).
        exists [(rq2, http env (snd s2) rq2)]. apply new_exchanges_app.
        destruct (http env (snd s2) rq2) as [r2|e];
          [rewrite finish_state|]; cbn [snd after_exchange exchanges];
          rewrite Hx, <- app_assoc; reflexivity.
      + exists []. apply new_exchanges_app. exact Hx.
    - pose proof (load_cached_token_new_exchanges w self rq1 (Ok r1)) as Hx.
      rewrite El in Hx. exists []. apply new_exchanges_app. exact Hx.
    - pose proof (load_cached_token_new_exchanges w self rq1 (Ok r1)) as Hx.
      rewrite El in Hx. exists []. apply new_exchanges_app. exact Hx. }
  destruct Hex as (rest & Hex).
  exists (rq1, http env w rq1), rest. split; [exact Hex|]. cbn [fst rq1 rq_kwargs rq_headers].
  split; [reflexivity|]. split; assumption.
Qed.

(** X16.  A call of [request] none of whose requests is answered 401
    leaves the client object as it was and does not ask the token cache; it
    makes at most one request. *)
Theorem request_without_401_keeps_the_client (method endpoint : string) (kw : kwargs)
    (self : OutlookClient) (w : World) :
  let run := request env method endpoint kw (self, w) in
  (forall x r,
     In x (new_exchanges w (snd (snd run))) -> snd x = Ok r -> status_code r <> 401%Z) ->
  fst (snd run) = self
  /\ msal_calls (snd (snd run)) = msal_calls w
  /\ (List.length (new_exchanges w (snd (snd run))) <= 1)%nat.
Proof.
  intros run Hno. subst run.
  destruct (request_ways method endpoint kw self w)
    as [E | (token & headers & a1 & Hself & Hm & Ha1 & [[E _] | (r1 & Hr1 & H401 & Hrest)])].
  - rewrite E. cbn [fst snd]. rewrite new_exchanges_none. cbn. repeat split; lia.
  - rewrite E. cbn [fst snd]. rewrite new_exchanges_one. cbn. repeat split; lia.
  - exfalso. cbv zeta in Hrest.
    set (rq1 := {| rq_method := method; rq_url := (GRAPH_API_ENDPOINT ++ endpoint)%string;
                   rq_headers := headers; rq_kwargs := kw_remove "headers" kw |}) in *.
    refine (Hno (rq1, a1) r1 _ Hr1 H401).
    destruct Hrest as [[E _] | (token2 & _ & _ & _ & E)]; rewrite E; cbn [fst snd].
    + erewrite new_exchanges_app by (apply load_cached_token_new_exchanges).
      left. reflexivity.
    + erewrite new_exchanges_app
        by (cbn [exchanges after_exchange];
            rewrite load_cached_token_new_exchanges, <- app_assoc; reflexivity).
      left. reflexivity.
Qed.

(** X17.  [_load_cached_token] makes no request.  When it returns [True] the
    client holds the token that [acquire_token_silent] answered for the
    first account; in every other case (no account, no token in the answer,
    an exception) the client keeps the token it had.  Without an account the
    identity library is not asked for a token. *)
Theorem load_cached_token_effects (self : OutlookClient) (w : World) :
  let run := _load_cached_token env (self, w) in
  exchanges (snd (snd run)) = exchanges w
  /\ (fst run = Ok true ->
      exists account rest token,
        get_accounts env w = account :: rest
        /\ acquire_token_silent env w account = Ok (Some (Some token))
        /\ access_token (fst (snd run)) = Some token)
  /\ (fst run <> Ok true -> fst (snd run) = self)
  /\ (get_accounts env w = [] -> run = (Ok false, (self, w))).
Proof.
  cbv zeta. unfold _load_cached_token.
  destruct (get_accounts env w) as [|account rest].
  - cbn. repeat split; try discriminate.
  - destruct (acquire_token_silent env w account) as [[[token|]|]|e] eqn:E; cbn;
      repeat split; try discriminate; try congruence.
    intros _. exists account, rest, token. repeat split. exact E.
Qed.

Lemma authenticate_interactive_false (self : OutlookClient) (w : World) :
  fst (authenticate_interactive env (self, w)) = Ok false ->
  fst (snd (authenticate_interactive env (self, w))) = self.
Proof.
  unfold authenticate_interactive.
  destruct (initiate_device_flow env w) as [flow|e]; [|discriminate].
  destruct (dict_has (PStr "user_code") flow); cbn [negb]; [|reflexivity].
  destruct (dict_has (PStr "verification_uri") flow); cbn [negb]; [|discriminate].
  destruct (acquire_token_by_device_flow env (asked w) flow) as [[token|]|e];
    [|reflexivity|discriminate].
  destruct (save_token_cache env (asked (asked w))); discriminate.
Qed.

Lemma new_client_without_id (w : World) :
  opt_str_truthy (OUTLOOK_CLIENT_ID env) = false ->
  new_client env w
  = (Raise (Exn "ValueError" "OUTLOOK_CLIENT_ID environment variable is required"), w).
Proof.
  unfold new_client, opt_str_truthy.
  destruct (OUTLOOK_CLIENT_ID env) as [id|]; [|reflexivity]. intros ->. reflexivity.
Qed.

(** X18.  [authenticate_interactive] makes no Graph request.  When it returns
    [True] the client holds the token of the device flow; when it returns
    [False] the client keeps the token it had.  A flow without a
    [user_code] ends the call with [False] before
    [acquire_token_by_device_flow] is asked. *)
Theorem authenticate_interactive_effects (self : OutlookClient) (w : World) :
  let run := authenticate_interactive env (self, w) in
  exchanges (snd (snd run)) = exchanges w
  /\ (fst run = Ok true ->
      exists flow token,
        initiate_device_flow env w = Ok flow
        /\ acquire_token_by_device_flow env (asked w) flow = Ok (Some token)
        /\ access_token (fst (snd run)) = Some token)
  /\ (fst run = Ok false -> fst (snd run) = self)
  /\ (forall flow,
        initiate_device_flow env w = Ok flow -> dict_has (PStr "user_code") flow = false ->
        run = (Ok false, (self, asked w))).
Proof.
  cbv zeta. unfold authenticate_interactive.
  destruct (initiate_device_flow env w) as [flow|e] eqn:Ei.
  2:{ cbn. repeat split; try discriminate. }
  destruct (dict_has (PStr "user_code") flow) eqn:Eu; cbn [negb].
  2:{ cbn. repeat split; try discriminate. }
  destruct (dict_has (PStr "verification_uri") flow) eqn:Ev; cbn [negb].
  2:{ cbn. repeat split; try discriminate. intros flow' H. inversion H; subst. congruence. }
  destruct (acquire_token_by_device_flow env (asked w) flow) as [[token|]|e] eqn:Ea.
  - destruct (save_token_cache env (asked (asked w))); cbn;
      repeat split; try discriminate;
      try (intros flow' H; inversion H; subst; congruence).
    intros _. exists flow, token. repeat split; assumption.
  - cbn. repeat split; try discriminate.
    intros flow' H. inversion H; subst. congruence.
  - cbn. repeat split; try discriminate.
    intros flow' H. inversion H; subst. congruence.
Qed.

(** X19.  [OutlookClient()] raises a [ValueError] when [OUTLOOK_CLIENT_ID] is
    not set or empty, before anything else happens.  A client that is
    constructed made no request, and it is authenticated exactly when the
    token cache answered a token for the first account. *)
Theorem new_client_effects (w : World) :
  let run := new_client env w in
  (opt_str_truthy (OUTLOOK_CLIENT_ID env) = false ->
   run = (Raise (Exn "ValueError" "OUTLOOK_CLIENT_ID environment variable is required"), w))
  /\ (forall self,
        fst run = Ok self ->
        exchanges (snd run) = exchanges w
        /\ (is_authenticated self = true <->
            exists account rest token,
              get_accounts env w = account :: rest
              /\ acquire_token_silent env w account = Ok (Some (Some token)))).
Proof.
  cbv zeta. split; [apply new_client_without_id|].
  unfold new_client, opt_str_truthy.
  intros self.
  destruct (OUTLOOK_CLIENT_ID env) as [id|]; [|discriminate].
  destruct (str_truthy id); [|discriminate].
  destruct (create_msal_app env w); [|discriminate].
  unfold _load_cached_token.
  destruct (get_accounts env w) as [|account rest].
  - cbn. intros H. inversion H; subst. split; [reflexivity|].
    split; [discriminate|]. intros (acc & rst & tk & Hx & _). discriminate.
  - destruct (acquire_token_silent env w account) as [[[token|]|]|e] eqn:E; cbn;
      intros H; inversion H; subst; (split; [reflexivity|]); cbn; split;
      try discriminate;
      try (intros (acc & rst & tk & Hx & Hy); inversion Hx; subst; congruence).
    intros _. exists account, rest, token. split; [reflexivity|exact E].
Qed.

End Client.
End ClientFacts.

(** ** The sanitizer on whole schemas *)

Module SanitizerFacts.
Import Schema SchemaShapes PyFacts.

Lemma pyval_nested_ind (P : pyval -> Prop) :
  P PNone -> (forall b, P (PBool b)) -> (forall n, P (PInt n)) -> (forall s, P (PStr s)) ->
  (forall l, Forall P l -> P (PList l)) ->
  (forall d, Forall (fun item => P (snd item)) d -> P (PDict d)) ->
  forall v, P v.
Proof.
  intros HN HB HI HS HL HD.
  fix IH 1. intros [| b | n | s | l | d].
  - exact HN.
  - apply HB.
  - apply HI.
  - apply HS.
  - apply HL. induction l as [|x l IHl]; constructor; [apply IH|exact IHl].
  - apply HD. induction d as [|[k x] d IHd]; constructor; [apply IH|exact IHd].
Qed.

Lemma remove_null_dict (items : pydict) :
  remove_null_from_schema (PDict items)
  = match sanitize_items items [] with
    | Ok new_schema => Ok (PDict new_schema)
    | Raise e => Raise e
    end.
Proof.
  cbn [remove_null_from_schema].
  enough (H : forall acc,
             (fix loop (items0 new_schema : pydict) {struct items0} : result pydict :=
                match items0 with
                | [] => Ok new_schema
                | (key, value) :: rest =>
                    if eq_str key "anyOf" && is_list value then
                      match filter not_null_branch (list_items value) with
                      | [] => loop rest new_schema
                      | [only] =>
                          match dict_update new_schema only with
                          | Ok merged => loop rest merged
                          | Raise e => Raise e
                          end
                      | filtered => loop rest (dict_set key (PList filtered) new_schema)
                      end
                    else if eq_str key "type" && is_list value
                            && has_null_string (list_items value) then
                      match filter (fun v => negb (eq_str v "null")) (list_items value) with
                      | [only] => loop rest (dict_set (PStr "type") only new_schema)
                      | filtered =>
                          loop rest (dict_set (PStr "type") (PList filtered) new_schema)
                      end
                    else if eq_str key "type" && eq_str value "null" then loop rest new_schema
                    else if eq_str key "default" && is_none value then loop rest new_schema
                    else if is_dict value || is_list value then
                      match remove_null_from_schema value with
                      | Ok value' => loop rest (dict_set key value' new_schema)
                      | Raise e => Raise e
                      end
                    else loop rest (dict_set key value new_schema)
                end) items acc = sanitize_items items acc).
  { rewrite H. reflexivity. }
  induction items as [|[key value] rest IH]; intros acc; [reflexivity|].
  cbn [sanitize_items].
  repeat match goal with
         | |- context [if ?c then _ else _] => destruct c
         | |- context [match filter ?f ?l with _ => _ end] => destruct (filter f l) as [|? [|? ?]]
         | |- context [match dict_update ?a ?b with _ => _ end] => destruct (dict_update a b)
         | |- context [match remove_null_from_schema ?v with _ => _ end] =>
             destruct (remove_null_from_schema v)
         end; try reflexivity; apply IH.
Qed.

Lemma remove_null_list (l : list pyval) :
  remove_null_from_schema (PList l)
  = match sanitize_each l with
    | Ok l' => Ok (PList l')
    | Raise e => Raise e
    end.
Proof.
  cbn [remove_null_from_schema].
  enough (H : (fix each (l0 : list pyval) : result (list pyval) :=
                 match l0 with
                 | [] => Ok []
                 | item :: rest =>
                     match remove_null_from_schema item with
                     | Raise e => Raise e
                     | Ok item' =>
                         match each rest with
                         | Ok rest' => Ok (item' :: rest')
                         | Raise e => Raise e
                         end
                     end
                 end) l = sanitize_each l).
  { rewrite H. reflexivity. }
  induction l as [|item rest IH]; [reflexivity|].
  cbn [sanitize_each]. destruct (remove_null_from_schema item); [|reflexivity].
  rewrite IH. reflexivity.
Qed.


Lemma has_null_marker_cons (k v : pyval) (rest : pydict) :
  has_null_marker (PDict ((k, v) :: rest))
  = marker_item k v || has_null_marker v || has_null_marker (PDict rest).
Proof. reflexivity. Qed.

Lemma has_null_marker_list_cons (x : pyval) (l : list pyval) :
  has_null_marker (PList (x :: l)) = has_null_marker x || has_null_marker (PList l).
Proof. reflexivity. Qed.

Lemma markers_in_reach_cons (k v : pyval) (rest : pydict) :
  markers_in_reach (PDict ((k, v) :: rest))
  = (if eq_str k "anyOf" && is_list v then forallb plain_branch (list_items v)
     else if eq_str k "type" && is_list v && has_null_string (list_items v) then
       forallb scalar (list_items v)
     else markers_in_reach v)
    && markers_in_reach (PDict rest).
Proof. reflexivity. Qed.

Lemma markers_in_reach_list_cons (x : pyval) (l : list pyval) :
  markers_in_reach (PList (x :: l)) = markers_in_reach x && markers_in_reach (PList l).
Proof. reflexivity. Qed.

Lemma eq_str_key_eqb (k' k : pyval) (lit : string) :
  key_eqb k' k = true -> eq_str k' lit = eq_str k lit.
Proof.
  destruct k', k; cbn; try discriminate; try reflexivity.
  intros H. apply String.eqb_eq in H. subst. reflexivity.
Qed.

Lemma marker_item_key_eqb (k' k v : pyval) :
  key_eqb k' k = true -> marker_item k' v = marker_item k v.
Proof.
  intros H. unfold marker_item.
  rewrite !(eq_str_key_eqb k' k _ H). reflexivity.
Qed.

Lemma scalar_no_marker (v : pyval) : scalar v = true -> has_null_marker v = false.
Proof. destruct v; cbn; try reflexivity; discriminate. Qed.

(** [d[k] = v] brings no marker into a dict without one, when [v] has
    none and the item is none. *)
Lemma dict_set_no_marker (k v : pyval) (d : pydict) :
  has_null_marker (PDict d) = false -> marker_item k v = false ->
  has_null_marker v = false ->
  has_null_marker (PDict (dict_set k v d)) = false.
Proof.
  intros Hd Hk Hv. induction d as [|[k' v'] d IH].
  - cbn [dict_set]. rewrite has_null_marker_cons, Hk, Hv. reflexivity.
  - rewrite has_null_marker_cons in Hd.
    apply orb_false_elim in Hd. destruct Hd as [Hd Hrest].
    apply orb_false_elim in Hd. destruct Hd as [Hk' Hv'].
    cbn [dict_set]. destruct (key_eqb k' k) eqn:E.
    + rewrite has_null_marker_cons, (marker_item_key_eqb _ _ _ E), Hk, Hv, Hrest.
      reflexivity.
    + rewrite has_null_marker_cons, Hk', Hv', (IH Hrest). reflexivity.
Qed.

Lemma dict_update_no_marker (items d : pydict) :
  has_null_marker (PDict d) = false -> has_null_marker (PDict items) = false ->
  has_null_marker
    (PDict (fold_left (fun acc kv => dict_set (fst kv) (snd kv) acc) items d)) = false.
Proof.
  revert d. induction items as [|[k v] items IH]; intros d Hd Hi; [exact Hd|].
  rewrite has_null_marker_cons in Hi.
  apply orb_false_elim in Hi. destruct Hi as [Hi Hrest].
  apply orb_false_elim in Hi. destruct Hi as [Hk Hv].
  cbn [fold_left fst snd]. apply IH; [|exact Hrest].
  apply dict_set_no_marker; assumption.
Qed.

Lemma list_no_marker (l : list pyval) :
  Forall (fun v => has_null_marker v = false) l -> has_null_marker (PList l) = false.
Proof.
  induction 1 as [|x l Hx Hl IH]; [reflexivity|].
  rewrite has_null_marker_list_cons, Hx, IH. reflexivity.
Qed.

(** The sanitizer keeps the kind of a value, and a string as it is. *)
Lemma remove_null_kind (v v' : pyval) :
  remove_null_from_schema v = Ok v' ->
  is_list v' = is_list v /\ is_dict v' = is_dict v /\ is_none v' = is_none v
  /\ forall lit, eq_str v' lit = eq_str v lit.
Proof.
  destruct v; try (intros H; inversion H; subst; repeat split; reflexivity).
  - rewrite remove_null_list. destruct (sanitize_each l); intros H; inversion H.
    repeat split.
  - rewrite remove_null_dict. destruct (sanitize_items d []); intros H; inversion H.
    repeat split.
Qed.

Lemma sanitize_each_null_string (l l' : list pyval) :
  sanitize_each l = Ok l' -> has_null_string l' = has_null_string l.
Proof.
  revert l'. induction l as [|x l IH]; intros l' H; cbn in H.
  - inversion H. reflexivity.
  - destruct (remove_null_from_schema x) as [x'|] eqn:Ex; [|discriminate].
    destruct (sanitize_each l) as [r|]; [|discriminate].
    inversion H; subst. unfold has_null_string in *. cbn [existsb].
    destruct (remove_null_kind _ _ Ex) as (_ & _ & _ & Hs).
    rewrite Hs, (IH r eq_refl). reflexivity.
Qed.

Lemma filter_all {A} (f : A -> bool) (l : list A) : forallb f (filter f l) = true.
Proof.
  induction l as [|x l IH]; [reflexivity|]. cbn [filter].
  destruct (f x) eqn:E; [cbn; rewrite E; exact IH|exact IH].
Qed.

Lemma filter_none_null (l : list pyval) :
  has_null_string (filter (fun v => negb (eq_str v "null")) l) = false.
Proof.
  unfold has_null_string. induction l as [|x l IH]; [reflexivity|]. cbn [filter].
  destruct (eq_str x "null") eqn:E; cbn [negb]; [exact IH|].
  cbn [existsb]. rewrite E, IH. reflexivity.
Qed.

Lemma kept_branches_plain (l : list pyval) :
  forallb plain_branch l = true ->
  Forall (fun b => is_dict b = true /\ has_null_marker b = false) (filter not_null_branch l).
Proof.
  induction l as [|b l IH]; cbn [forallb filter]; [constructor|].
  intros H. apply andb_prop in H. destruct H as [Hb Hl].
  destruct (not_null_branch b) eqn:E; [|exact (IH Hl)].
  constructor; [|exact (IH Hl)].
  unfold plain_branch in Hb. rewrite E in Hb. cbn in Hb.
  apply andb_prop in Hb. destruct Hb as [H1 H2].
  apply negb_true_iff in H2. split; assumption.
Qed.

Lemma kept_strings_scalar (l : list pyval) :
  forallb scalar l = true ->
  Forall (fun v => scalar v = true) (filter (fun v => negb (eq_str v "null")) l).
Proof.
  induction l as [|x l IH]; cbn [forallb filter]; [constructor|].
  intros H. apply andb_prop in H. destruct H as [Hx Hl].
  destruct (negb (eq_str x "null")); [constructor; [exact Hx|]|]; exact (IH Hl).
Qed.

Lemma eq_str_true (k : pyval) (lit : string) : eq_str k lit = true -> k = PStr lit.
Proof.
  destruct k; cbn; try discriminate. intros H. apply String.eqb_eq in H. now subst.
Qed.

Lemma sanitize_items_clean (items : pydict) :
  Forall (fun item => sanitized (snd item)) items ->
  forall acc,
    markers_in_reach (PDict items) = true ->
    has_null_marker (PDict acc) = false ->
    exists out, sanitize_items items acc = Ok out /\ has_null_marker (PDict out) = false.
Proof.
  induction 1 as [|[key value] rest Hvalue Hrest IH]; intros acc Hreach Hacc.
  - exists acc. split; [reflexivity|exact Hacc].
  - rewrite markers_in_reach_cons in Hreach. apply andb_prop in Hreach.
    destruct Hreach as [Hitem Hreach]. cbn [snd] in Hvalue. cbn [sanitize_items].
    destruct (eq_str key "anyOf" && is_list value) eqn:C1.
    { (* an anyOf list *)
      apply andb_prop in C1. destruct C1 as [Hkey _].
      apply eq_str_true in Hkey. subst key.
      pose proof (kept_branches_plain _ Hitem) as Hkept.
      pose proof (filter_all not_null_branch (list_items value)) as Hall.
      destruct (filter not_null_branch (list_items value)) as [|only [|second more]].
      - apply IH; assumption.
      - inversion Hkept as [|? ? [Hd Hm] _]; subst.
        destruct only as [| | | | |d]; try discriminate.
        cbn [dict_update]. apply IH; [exact Hreach|].
        apply dict_update_no_marker; assumption.
      - apply IH; [exact Hreach|].
        apply dict_set_no_marker; [exact Hacc| |].
        + unfold marker_item. cbn [eq_str is_list list_items].
          rewrite Hall. reflexivity.
        + apply list_no_marker. eapply Forall_impl; [|exact Hkept]. intros b [_ Hb]. exact Hb. }
    destruct (eq_str key "type" && is_list value && has_null_string (list_items value))
      eqn:C2.
    { (* a list of types with "null" *)
      pose proof (kept_strings_scalar _ Hitem) as Hkept.
      pose proof (filter_none_null (list_items value)) as Hnone.
      pose proof (filter_all (fun v => negb (eq_str v "null")) (list_items value)) as Hall.
      assert (Hlist : forall filtered,
                 filtered = filter (fun v => negb (eq_str v "null")) (list_items value) ->
                 has_null_marker
                   (PDict (dict_set (PStr "type") (PList filtered) acc)) = false).
      { intros filtered ->. apply dict_set_no_marker; [exact Hacc| |].
        - unfold marker_item. cbn [eq_str is_list list_items is_none]. rewrite Hnone.
          reflexivity.
        - apply list_no_marker. eapply Forall_impl; [|exact Hkept].
          intros v Hv. apply scalar_no_marker. exact Hv. }
      destruct (filter (fun v => negb (eq_str v "null")) (list_items value))
        as [|only [|second more]] eqn:Ef.
      - apply IH; [exact Hreach|]. apply Hlist. reflexivity.
      - apply IH; [exact Hreach|].
        inversion Hkept as [|? ? Hs _]; subst.
        cbn [forallb] in Hall. apply andb_prop in Hall. destruct Hall as [Hn _].
        apply negb_true_iff in Hn.
        apply dict_set_no_marker; [exact Hacc| |apply scalar_no_marker; exact Hs].
        unfold marker_item. cbn [eq_str]. rewrite Hn.
        unfold scalar in Hs. apply negb_true_iff, orb_false_elim in Hs.
        destruct Hs as [_ Hl]. rewrite Hl. destruct only; reflexivity.
      - apply IH; [exact Hreach|]. apply Hlist. reflexivity. }
    destruct (eq_str key "type" && eq_str value "null") eqn:C3.
    { apply IH; assumption. }
    destruct (eq_str key "default" && is_none value) eqn:C4.
    { apply IH; assumption. }
    destruct (is_dict value || is_list value) eqn:C5.
    { (* a nested dict or list *)
      destruct (Hvalue Hitem) as (value' & Ev & Hclean). rewrite Ev.
      apply IH; [exact Hreach|].
      apply dict_set_no_marker; [exact Hacc| |exact Hclean].
      destruct (remove_null_kind _ _ Ev) as (Hl & Hd & Hn & Hs).
      unfold marker_item. rewrite !Hs, Hl, Hn, C3, C4. cbn [orb].
      rewrite !orb_false_r.
      apply orb_false_intro.
      - destruct (eq_str key "type" && is_list value) eqn:Ct; [|reflexivity].
        cbn [andb] in C2 |- *.
        destruct value as [| | | |l|d]; try (apply andb_prop in Ct; destruct Ct; discriminate).
        rewrite remove_null_list in Ev.
        destruct (sanitize_each l) as [l'|] eqn:El; [|discriminate].
        inversion Ev; subst. cbn [list_items] in *.
        rewrite (sanitize_each_null_string _ _ El). exact C2.
      - rewrite C1. reflexivity. }
    (* any other value *)
    apply IH; [exact Hreach|].
    apply dict_set_no_marker; [exact Hacc| |apply scalar_no_marker; unfold scalar; rewrite C5; reflexivity].
    unfold marker_item. rewrite C3, C4.
    apply orb_false_elim in C5. destruct C5 as [_ Hl]. rewrite Hl.
    rewrite !andb_false_r. reflexivity.
Qed.

Lemma sanitize_each_clean (l : list pyval) :
  Forall sanitized l ->
  markers_in_reach (PList l) = true ->
  exists out, sanitize_each l = Ok out /\ has_null_marker (PList out) = false.
Proof.
  induction 1 as [|x l Hx Hl IH]; intros Hreach.
  - exists []. split; reflexivity.
  - rewrite markers_in_reach_list_cons in Hreach. apply andb_prop in Hreach.
    destruct Hreach as [H1 H2].
    destruct (Hx H1) as (x' & Ex & Hx'). destruct (IH H2) as (l' & El & Hl').
    cbn [sanitize_each]. rewrite Ex, El. exists (x' :: l'). split; [reflexivity|].
    rewrite has_null_marker_list_cons, Hx', Hl'. reflexivity.
Qed.

(** X20.  On a schema whose markers are where the sanitizer looks,
    [remove_null_from_schema] returns a schema, and that schema holds no
    nullable-type marker at any depth. *)
Theorem remove_null_removes_the_markers_in_reach (schema : pyval) :
  markers_in_reach schema = true ->
  exists out,
    remove_null_from_schema schema = Ok out /\ has_null_marker out = false.
Proof.
  change (sanitized schema).
  induction schema as [| b | n | s | l IH | d IH] using pyval_nested_ind;
    try (intros _; eexists; split; reflexivity).
  - intros Hreach. rewrite remove_null_list.
    destruct (sanitize_each_clean l IH Hreach) as (out & E & H).
    rewrite E. exists (PList out). split; [reflexivity|exact H].
  - intros Hreach. rewrite remove_null_dict.
    destruct (sanitize_items_clean d IH [] Hreach eq_refl) as (out & E & H).
    rewrite E. exists (PDict out). split; [reflexivity|exact H].
Qed.


Lemma unmarked_cons (k v : pyval) (rest : pydict) :
  unmarked (PDict ((k, v) :: rest))
  = forallb (fun kv => negb (key_eqb k (fst kv))) rest
    && (negb (eq_str k "anyOf" && is_list v) && negb (marker_item k v) && unmarked v)
    && unmarked (PDict rest).
Proof.
  cbn [unmarked distinct_keys].
  destruct (forallb (fun kv => negb (key_eqb k (fst kv))) rest); [|reflexivity].
  destruct (distinct_keys rest); cbn [andb]; [reflexivity|].
  rewrite !andb_false_r. reflexivity.
Qed.

Lemma unmarked_list_cons (x : pyval) (l : list pyval) :
  unmarked (PList (x :: l)) = unmarked x && unmarked (PList l).
Proof. reflexivity. Qed.

(** [d[k] = v] for a key that [d] does not hold. *)
Lemma dict_set_new (k v : pyval) (d : pydict) :
  forallb (fun kv => negb (key_eqb (fst kv) k)) d = true ->
  dict_set k v d = (d ++ [(k, v)])%list.
Proof.
  induction d as [|[k' v'] d IH]; cbn [forallb dict_set app fst]; [reflexivity|].
  intros H. apply andb_prop in H. destruct H as [Hk Hd].
  apply negb_true_iff in Hk. rewrite Hk, (IH Hd). reflexivity.
Qed.

Lemma sanitize_items_kept (items : pydict) :
  Forall (fun item => kept (snd item)) items ->
  forall acc,
    unmarked (PDict items) = true ->
    Forall (fun old => forallb (fun kv => negb (key_eqb (fst old) (fst kv))) items = true)
           acc ->
    sanitize_items items acc = Ok (acc ++ items)%list.
Proof.
  induction 1 as [|[key value] rest Hvalue Hrest IH]; intros acc Hun Hacc.
  - rewrite app_nil_r. reflexivity.
  - rewrite unmarked_cons in Hun. apply andb_prop in Hun. destruct Hun as [Hun Hu].
    apply andb_prop in Hun. destruct Hun as [Hnew Hun].
    apply andb_prop in Hun. destruct Hun as [Hun Hv].
    apply andb_prop in Hun. destruct Hun as [C1 Hm].
    apply negb_true_iff in C1, Hm. cbn [snd] in Hvalue.
    assert (Hset : dict_set key value acc = (acc ++ [(key, value)])%list).
    { apply dict_set_new. clear - Hacc. induction Hacc as [|old acc Ho Hacc IH]; [reflexivity|].
      cbn [forallb fst] in *. apply andb_prop in Ho. destruct Ho as [Ho _].
      rewrite Ho. exact IH. }
    assert (Hnext : sanitize_items rest (acc ++ [(key, value)])
                    = Ok (acc ++ (key, value) :: rest)%list).
    { rewrite (IH _ Hu).
      - rewrite <- app_assoc. reflexivity.
      - apply Forall_app. split.
        + eapply Forall_impl; [|exact Hacc]. intros old Ho. cbn [forallb] in Ho.
          apply andb_prop in Ho. tauto.
        + constructor; [exact Hnew|constructor]. }
    cbn [sanitize_items]. rewrite C1.
    unfold marker_item in Hm.
    apply orb_false_elim in Hm. destruct Hm as [Hm C4].
    apply orb_false_elim in Hm. destruct Hm as [Hm _].
    apply orb_false_elim in Hm. destruct Hm as [C3 C2].
    rewrite C2, C3, C4.
    destruct (is_dict value || is_list value).
    + rewrite (Hvalue Hv), Hset. exact Hnext.
    + rewrite Hset. exact Hnext.
Qed.

Lemma sanitize_each_kept (l : list pyval) :
  Forall kept l -> unmarked (PList l) = true -> sanitize_each l = Ok l.
Proof.
  induction 1 as [|x l Hx Hl IH]; intros Hun; [reflexivity|].
  rewrite unmarked_list_cons in Hun. apply andb_prop in Hun. destruct Hun as [H1 H2].
  cbn [sanitize_each]. rewrite (Hx H1), (IH H2). reflexivity.
Qed.

(** X21.  [remove_null_from_schema] returns a schema without nullable-type
    markers and without [anyOf] lists as it is: the same keys in the same
    order, with the same values at every depth. *)
Theorem remove_null_keeps_an_unmarked_schema (schema : pyval) :
  unmarked schema = true -> remove_null_from_schema schema = Ok schema.
Proof.
  change (kept schema).
  induction schema as [| b | n | s | l IH | d IH] using pyval_nested_ind;
    try (intros _; reflexivity).
  - intros Hun. rewrite remove_null_list, (sanitize_each_kept l IH Hun). reflexivity.
  - intros Hun. rewrite remove_null_dict, (sanitize_items_kept d IH [] Hun); [reflexivity|].
    constructor.
Qed.

End SanitizerFacts.

(** ** The wrapper and the client of the server *)

Module WrapperFacts.
Import Graph Tools Dispatch OutlookServer PyFacts DispatchFacts ClientFacts.
Local Open Scope py_scope.

Lemma check_keywords_type_error (fname : string) (taken open : list string)
    (kw : list (string * arg)) (e : exn) :
  check_keywords fname taken open kw = Raise e -> exn_class e = "TypeError".
Proof.
  induction kw as [|[k a] kw IH]; cbn; [discriminate|].
  destruct (mem k taken); [intros H; inversion H; reflexivity|].
  destruct (mem k open); cbn; [exact IH|intros H; inversion H; reflexivity].
Qed.

Lemma check_keywords_unknown (fname : string) (taken open : list string)
    (kw : list (string * arg)) (k : string) :
  In k (names_of kw) -> mem k open = false ->
  exists e, check_keywords fname taken open kw = Raise e.
Proof.
  induction kw as [|[k' a] kw IH]; cbn; [contradiction|].
  intros Hin Hk.
  destruct (mem k' taken); [eexists; reflexivity|].
  destruct (mem k' open) eqn:Eo; cbn; [|eexists; reflexivity].
  destruct Hin as [E | Hin]; [subst; congruence|]. exact (IH Hin Hk).
Qed.

Lemma bind_positional_type_error (fname : string) (params : list param) (pos : list arg)
    (e : exn) :
  bind_positional fname params pos = Raise e -> exn_class e = "TypeError".
Proof.
  revert params. induction pos as [|a pos IH]; intros [|p params]; cbn; try discriminate.
  - intros H. inversion H. reflexivity.
  - destruct (bind_positional fname params pos) as [[b r]|e'] eqn:E; [discriminate|].
    intros H. inversion H; subst. exact (IH _ E).
Qed.

Lemma fill_type_error (fname : string) (params : list param) (kw : list (string * arg))
    (e : exn) :
  fill fname params kw = Raise e -> exn_class e = "TypeError".
Proof.
  induction params as [|p params IH]; cbn; [discriminate|].
  destruct (match lookup (p_name p) kw with
            | Some a => Some a
            | None => match p_default p with Some d => Some (Data d) | None => None end
            end); [|intros H; inversion H; reflexivity].
  destruct (fill fname params kw) as [b|e']; [discriminate|].
  intros H. inversion H; subst. exact (IH eq_refl).
Qed.

Lemma bind_arguments_type_error (fname : string) (params : list param) (pos : list arg)
    (kw : list (string * arg)) (e : exn) :
  bind_arguments fname params pos kw = Raise e -> exn_class e = "TypeError".
Proof.
  unfold bind_arguments.
  destruct (bind_positional fname params pos) as [[bound rest]|e'] eqn:Ep.
  - destruct (check_keywords fname (names_of bound) (map p_name rest) kw) eqn:Ec.
    + destruct (fill fname rest kw) as [filled|e''] eqn:Ef; [discriminate|].
      intros H. inversion H; subst. exact (fill_type_error _ _ _ _ Ef).
    + intros H. inversion H; subst. exact (check_keywords_type_error _ _ _ _ _ Ec).
  - intros H. inversion H; subst. exact (bind_positional_type_error _ _ _ _ Ep).
Qed.

(** A keyword that names no parameter makes the call fail. *)
Lemma bind_arguments_unknown (fname : string) (params : list param) (pos : list arg)
    (kw : list (string * arg)) (k : string) :
  In k (names_of kw) -> ~ In k (map p_name params) ->
  exists e, bind_arguments fname params pos kw = Raise e.
Proof.
  intros Hin Hout. unfold bind_arguments.
  destruct (bind_positional fname params pos) as [[bound rest]|e'] eqn:Ep;
    [|eexists; reflexivity].
  assert (Hk : mem k (map p_name rest) = false).
  { destruct (mem k (map p_name rest)) eqn:E; [|reflexivity].
    apply mem_In in E. exfalso. apply Hout.
    rewrite (bind_positional_names _ _ _ _ _ Ep). apply in_or_app. right. exact E. }
  destruct (check_keywords_unknown fname (names_of bound) _ kw k Hin Hk) as [e ->].
  eexists. reflexivity.
Qed.

Section Server.
Variable env : Env.
Variable py_repr : pyval -> string.
Variable py_eval : string -> result pyval.
Hypothesis eval_repr_None : py_eval (py_repr PNone) = Ok PNone.

(** The wrapper of a function with a tool signature is made. *)
Lemma wrapper_is_made {Ret} (func : pyfunc Ret) (description tool_id : option string)
    (e : exn) :
  tool_like (f_params func) = true ->
  create_dynamic_wrapper env py_repr py_eval func description tool_id <> Raise e.
Proof.
  intros Hlike. unfold create_dynamic_wrapper. fold (without_client (f_params func)).
  rewrite (exec_def_without_client py_repr py_eval eval_repr_None _ Hlike).
  discriminate.
Qed.

(** A call of the wrapper of a function with a tool signature. *)
Lemma wrapper_call {Ret} (func wrapper : pyfunc Ret) (description tool_id : option string) :
  tool_like (f_params func) = true ->
  create_dynamic_wrapper env py_repr py_eval func description tool_id = Ok wrapper ->
  f_params wrapper = without_client (f_params func)
  /\ forall pos kw,
       match bind_arguments (f_name wrapper) (f_params wrapper) pos kw with
       | Raise e => forall p, call wrapper pos kw p = (Raise e, p)
       | Ok locals =>
           (forall p,
              call wrapper pos kw p
              = (client <- get_client env ;;
                 call func [] (("client", client) :: locals)) p)
           /\ forall client,
                exists locals_of_func,
                  bind_arguments (f_name func) (f_params func) []
                    (("client", client) :: locals) = Ok locals_of_func
       end.
Proof.
  intros Hlike. destruct (tool_like_parts _ Hlike) as (Hclient & Hdistinct & _).
  unfold create_dynamic_wrapper. fold (without_client (f_params func)).
  rewrite (exec_def_without_client py_repr py_eval eval_repr_None _ Hlike).
  intros H. inversion H; subst wrapper. clear H. cbn [f_params f_name f_body].
  split; [reflexivity|].
  intros pos kw.
  destruct (bind_arguments _ (without_client (f_params func)) pos kw) as [locals|e] eqn:Hbind.
  2:{ intros p. unfold call. cbn [f_params f_name f_body]. rewrite Hbind. reflexivity. }
  pose proof (bind_arguments_names _ _ _ _ _ Hbind) as Hnames.
  assert (Hsub : forall n, In n (names_of locals) ->
                           In n (map p_name (f_params func)) /\ n <> "client").
  { intros n Hn. rewrite Hnames in Hn. apply in_map_iff in Hn.
    destruct Hn as (q & <- & Hq). apply filter_In in Hq. destruct Hq as [Hq Hc].
    split; [apply in_map; exact Hq|].
    apply negb_true_iff in Hc. intros E. rewrite E in Hc. discriminate. }
  split.
  - intros p. unfold call at 1. cbn [f_params f_name f_body]. rewrite Hbind.
    rewrite <- Hnames.
    assert (Hd : distinct (names_of ([] ++ locals)) = true).
    { cbn [app]. rewrite Hnames. apply distinct_filter. exact Hdistinct. }
    pose proof (collect_kwargs_self [] locals Hd) as Hc. cbn [app] in Hc.
    unfold bind at 1. unfold lift. rewrite Hc. reflexivity.
  - intros client. unfold bind_arguments.
    rewrite bind_positional_none. cbn [names_of map].
    rewrite check_keywords_open.
    2:{ intros k [<- | Hk]; [exact Hclient|]. apply (Hsub _ Hk). }
    destruct (fill_given (f_name func) (f_params func) (("client", client) :: locals))
      as (filled & Ef & Hfn & Hfl).
    { intros q Hq. destruct (String.eqb_spec (p_name q) "client") as [E|E].
      - left. symmetry. exact E.
      - right. rewrite Hnames. apply in_map. apply filter_In. split; [exact Hq|].
        apply negb_true_iff. apply String.eqb_neq. exact E. }
    rewrite Ef. cbn [app]. exists filled. reflexivity.
Qed.


Lemma get_client_stored (p : Process) :
  state_client p <> None -> get_client env p = (Ok ClientObject, p).
Proof.
  unfold get_client. destruct (state_client p); [reflexivity|congruence].
Qed.

(** X22.  [get_client] twice is [get_client] once: when the first call
    returns, the second finds the client the first one stored, returns it
    and does nothing else, whether that client is authenticated or not. *)
Theorem get_client_twice (p : Process) :
  (get_client env ;;; get_client env) p = get_client env p.
Proof.
  unfold bind. destruct (get_client env p) as [[c|e] p'] eqn:E; [|reflexivity].
  destruct (get_client_singleton env _ _ _ E) as (-> & Hp' & _).
  apply get_client_stored. exact Hp'.
Qed.

(** X23.  When the interactive authentication of the first [get_client] does
    not return [True], the new client is stored all the same.  The next
    [get_client] returns it and starts no authentication; after an
    authentication that returned [False] that client is not authenticated. *)
Theorem get_client_after_failed_authentication (p : Process) (self : OutlookClient)
    (w : World) :
  state_client p = None ->
  new_client env (world p) = (Ok self, w) ->
  Graph.is_authenticated self = false ->
  fst (authenticate_interactive env (self, w)) <> Ok true ->
  let attempt := authenticate_interactive env (self, w) in
  let p' := {| state_client := Some (fst (snd attempt)); world := snd (snd attempt) |} in
  snd (get_client env p) = p'
  /\ (forall e, fst attempt = Raise e -> fst (get_client env p) = Raise e)
  /\ (fst attempt = Ok false ->
      fst (get_client env p) = Ok ClientObject /\ fst (snd attempt) = self)
  /\ get_client env p' = (Ok ClientObject, p').
Proof.
  intros Hs Hn Ha Hno. cbv zeta. unfold get_client at 1 2 3. rewrite Hs, Hn, Ha. cbn [negb].
  pose proof (authenticate_interactive_false env self w) as Hfalse.
  destruct (authenticate_interactive env (self, w)) as [[[|]|e] [self' w']] eqn:E;
    cbn [fst snd] in *.
  - congruence.
  - repeat split; try discriminate; try (apply Hfalse; reflexivity).
  - repeat split; try discriminate. intros e' H. inversion H. reflexivity.
Qed.

(** Without [OUTLOOK_CLIENT_ID], the first [get_client] raises the
    [ValueError] of the constructor and stores nothing. *)
Lemma get_client_without_client_id (p : Process) :
  state_client p = None ->
  opt_str_truthy (OUTLOOK_CLIENT_ID env) = false ->
  get_client env p
  = (Raise (Exn "ValueError" "OUTLOOK_CLIENT_ID environment variable is required"), p).
Proof.
  intros Hs Hid. unfold get_client. rewrite Hs.
  rewrite (new_client_without_id env (world p) Hid). destruct p as [c w]. cbn in Hs |- *. subst c. reflexivity.
Qed.

(** X24.  The wrapper of a tool function takes no [client] argument: a call
    that passes one raises a [TypeError], before [get_client] is called,
    and leaves the process as it was. *)
Theorem wrapper_refuses_a_client_argument {Ret} (func wrapper : pyfunc Ret)
    (description tool_id : option string) (pos : list arg) (kw : list (string * arg))
    (p : Process) :
  tool_like (f_params func) = true ->
  create_dynamic_wrapper env py_repr py_eval func description tool_id = Ok wrapper ->
  In "client" (names_of kw) ->
  exists e, call wrapper pos kw p = (Raise e, p) /\ exn_class e = "TypeError".
Proof.
  intros Hlike Hw Hkw.
  destruct (wrapper_call _ _ _ _ Hlike Hw) as [Hparams Hcall].
  specialize (Hcall pos kw).
  destruct (bind_arguments_unknown (f_name wrapper) (f_params wrapper) pos kw "client" Hkw)
    as [e He].
  { rewrite Hparams. unfold without_client. intros Hin. apply in_map_iff in Hin.
    destruct Hin as (q & Eq & Hq). apply filter_In in Hq. destruct Hq as [_ Hq].
    rewrite Eq in Hq. discriminate. }
  rewrite He in Hcall. exists e. split; [apply Hcall|].
  exact (bind_arguments_type_error _ _ _ _ _ He).
Qed.

(** X25.  An exception of [get_client] is not turned into an envelope.
    Without [OUTLOOK_CLIENT_ID], every call of the wrapper of a tool
    function raises: the [ValueError] of the constructor when the arguments
    fit the parameters, a [TypeError] when they do not.  The process stays
    as it was. *)
Theorem wrapper_call_without_client_id {Ret} (func wrapper : pyfunc Ret)
    (description tool_id : option string) (pos : list arg) (kw : list (string * arg))
    (p : Process) :
  tool_like (f_params func) = true ->
  create_dynamic_wrapper env py_repr py_eval func description tool_id = Ok wrapper ->
  state_client p = None ->
  opt_str_truthy (OUTLOOK_CLIENT_ID env) = false ->
  exists e,
    call wrapper pos kw p = (Raise e, p)
    /\ (e = Exn "ValueError" "OUTLOOK_CLIENT_ID environment variable is required"
        \/ exn_class e = "TypeError")
    /\ (is_ok (bind_arguments (f_name wrapper) (f_params wrapper) pos kw) = true ->
        e = Exn "ValueError" "OUTLOOK_CLIENT_ID environment variable is required").
Proof.
  intros Hlike Hw Hs Hid.
  destruct (wrapper_call _ _ _ _ Hlike Hw) as [_ Hcall].
  specialize (Hcall pos kw).
  destruct (bind_arguments (f_name wrapper) (f_params wrapper) pos kw) as [locals|e] eqn:E.
  - destruct Hcall as [Hcall _]. eexists. split; [|split; [left; reflexivity|reflexivity]].
    rewrite Hcall. unfold bind. rewrite (get_client_without_client_id p Hs Hid). reflexivity.
  - exists e. split; [apply Hcall|]. split; [|discriminate].
    right. exact (bind_arguments_type_error _ _ _ _ _ E).
Qed.

(** X26.  On a server whose client is not authenticated, a call of the
    wrapper of any tool function returns the authentication-required
    envelope, makes no request and leaves the process as it was. *)
Theorem unauthenticated_server_refuses_every_tool (host : Runtime) (fs : Files host)
    (func wrapper : pyfunc (Envelope * list Call))
    (tool_call_of : list (string * arg) -> tool_call)
    (description tool_id : option string) (pos : list arg) (kw : list (string * arg))
    (p : Process) (self : OutlookClient) :
  tool_like (f_params func) = true ->
  (forall locals,
     f_body func locals
     = on_state_client env host fs
         (run_tool (with_outlook_client env host) (tool_call_of locals))) ->
  create_dynamic_wrapper env py_repr py_eval func description tool_id = Ok wrapper ->
  is_ok (bind_arguments (f_name wrapper) (f_params wrapper) pos kw) = true ->
  state_client p = Some self ->
  Graph.is_authenticated self = false ->
  call wrapper pos kw p = (Ok (failure NOT_AUTHENTICATED, []), p).
Proof.
  intros Hlike Hbody Hw Hbind Hs Ha.
  destruct (wrapper_call _ _ _ _ Hlike Hw) as [_ Hcall].
  specialize (Hcall pos kw).
  destruct (bind_arguments (f_name wrapper) (f_params wrapper) pos kw) as [locals|e];
    [|discriminate].
  destruct Hcall as [Hcall Hfunc]. rewrite Hcall. unfold bind.
  rewrite get_client_stored by congruence.
  destruct (Hfunc ClientObject) as (locals_of_func & Ef).
  unfold call. rewrite Ef, Hbody. unfold on_state_client. rewrite Hs.
  rewrite ToolFacts.run_tool_try_except. unfold try_except.
  rewrite ToolFacts.tool_try_unauthenticated by exact Ha.
  destruct p as [c w]. cbn in Hs |- *. subst c. reflexivity.
Qed.

End Server.
End WrapperFacts.

(** ** HTTP exchanges of a tool function *)

Module OutlookClientFacts.
Import Graph GraphShapes Tools ToolShapes OutlookServer GraphFacts ClientFacts ToolFacts.

(** A call of [request] adds at most two exchanges. *)
Lemma request_adds_two (env : Env) (method endpoint : string) (kw : kwargs)
    (s : OutlookClient * World) :
  (List.length (exchanges (snd (snd (Graph.request env method endpoint kw s))))
   <= List.length (exchanges (snd s)) + 2)%nat.
Proof.
  destruct s as [self w]. cbn [snd].
  destruct (request_ways env method endpoint kw self w)
    as [E | (token & headers & a1 & Hself & Hm & Ha1 & [[E _] | (r1 & Hr1 & H401 & Hreload)])].
  - rewrite E. cbn. lia.
  - rewrite E. cbn [snd after_exchange exchanges]. rewrite length_app. cbn. lia.
  - cbv zeta in Hreload. destruct Hreload as [[E _] | (token2 & Hok & Ht2 & _ & E)].
    + rewrite E, load_cached_token_new_exchanges, length_app. cbn. lia.
    + rewrite E. cbn [snd after_exchange exchanges].
      rewrite load_cached_token_new_exchanges, !length_app. cbn. lia.
Qed.

(** X27.  A tool function on an [OutlookClient] makes at most two HTTP
    exchanges for each of its requests: two at most for a call, four for
    [create_draft] and [update_email]. *)
Theorem tool_call_makes_few_exchanges (env : Env) (host : Runtime) (tc : tool_call)
    (st : State (with_outlook_client env host)) :
  let R := with_outlook_client env host in
  let after := snd (run_tool R tc st) in
  let exchanged (s : State R) := List.length (exchanges (snd (client R s))) in
  (exchanged after <= exchanged st + 2 * List.length (new_calls st after))%nat
  /\ (exchanged after <= exchanged st + 2 * List.length (request_sites tc))%nat.
Proof.
  cbv zeta.
  set (R := with_outlook_client env host).
  destruct (run_tool_paced R (fun c => List.length (exchanges (snd c))) 2
              (request_adds_two env) tc st) as (l & E & H).
  destruct (run_tool_follows R tc st) as (l' & E' & H').
  rewrite (new_calls_app R _ _ _ E).
  split; [exact H|].
  rewrite E in E'. apply app_inv_head in E'. subst l'.
  apply is_prefix_length in H'. rewrite length_map in H'. lia.
Qed.

End OutlookClientFacts.

(** ** Examples *)

Module Examples.
Import Graph Tools Dispatch OutlookServer Example.
Import GraphFacts ToolFacts DispatchFacts.
Import GraphShapes SchemaShapes ToolShapes Samples.
Import ClientFacts SanitizerFacts WrapperFacts OutlookClientFacts.
Local Open Scope string_scope.

(** *** The request client *)

(** C1 as it was stated fails in three ways.  A response with status 304
    is not a 2xx response, and its (empty) body is returned as data.  An
    [Authorization] header of the caller replaces the bearer token.  A
    client whose token is the empty string counts as authenticated, and
    [request] raises before it sends anything. *)
Lemma request_claim_fails :
  (let run := Graph.request (scripted_env [304%Z] None) "GET" "/me" [] (signed_in "token") in
   fst run = Ok (PDict [])
   /\ map snd (exchanges (snd (snd run))) = [Ok (response 304 EmptyString)])
  /\ (let run :=
        Graph.request (scripted_env [200%Z] None) "GET" "/me"
          [("headers", PDict [kv "Authorization" (PStr "Basic dXNlcjpwdw==")])]
          (signed_in "token") in
      map (fun x => authorization (fst x)) (exchanges (snd (snd run)))
      = [Some (PStr "Basic dXNlcjpwdw==")])
  /\ (let run :=
        Graph.request (scripted_env [200%Z] None) "GET" "/me" [] (signed_in EmptyString) in
      Graph.is_authenticated (fst (signed_in EmptyString)) = true
      /\ run = (Raise (Exn "Exception"
                         "Not authenticated. Call authenticate_interactive() first."),
                signed_in EmptyString)).
Proof. repeat split. Qed.

(** C1, at a request that is answered 401 and then, with the reloaded
    token, 200. *)
Lemma request_contract_witness :
  let env := scripted_env [401%Z; 200%Z] (Some "fresh") in
  let run := Graph.request env "GET" "/me" [] (signed_in "stale") in
  exists first rest,
    new_exchanges (snd (signed_in "stale")) (snd (snd run)) = first :: rest
    /\ (List.length rest <= 1)%nat.
Proof.
  intros env run.
  destruct (request_contract env "GET" "/me" [] "stale"
              {| exchanges := []; msal_calls := 0 |}
              ltac:(discriminate) I)
    as (first & rest & H1 & _ & H2 & _).
  exists first, rest. split; assumption.
Defined.

(** *** The tool functions *)

(** C2, at a call of [send_email] with a client that is not authenticated. *)
Lemma unauthenticated_call_is_refused_witness :
  let R := scripted_client [Ok (PDict [])] in
  let st := start R (false, 0) tt in
  run_tool R (Call_send_email "Hi" "Test" "a@b.com" None None None None None None None) st
  = (Ok (failure NOT_AUTHENTICATED), st).
Proof.
  intros R st.
  exact (proj1 (unauthenticated_call_is_refused R
                  (Call_send_email "Hi" "Test" "a@b.com" None None None None None None None)
                  st eq_refl)).
Defined.

(** C3 as it was stated fails: when the client raises an exception that has
    no text, the envelope carries an empty error string. *)
Lemma empty_error_text :
  let R := scripted_client [] in
  fst (get_profile R None (start R (true, 0) tt))
  = Ok {| successful := false; data := PDict []; error := Some EmptyString |}.
Proof. reflexivity. Qed.

(** C3, at that call. *)
Lemma envelope_invariant_witness :
  let R := scripted_client [] in
  let envelope := {| successful := false; data := PDict []; error := Some EmptyString |} in
  (successful envelope = true /\ error envelope = None)
  \/ (successful envelope = false /\ data envelope = PDict []
      /\ exists msg, error envelope = Some msg
         /\ (msg = EmptyString ->
             exists e st1,
               tool_try R (Call_get_profile None) (start R (true, 0) tt) = (Raise e, st1)
               /\ exn_msg e = EmptyString)).
Proof.
  intros R envelope.
  exact (envelope_invariant R (Call_get_profile None) (start R (true, 0) tt)
           (snd (get_profile R None (start R (true, 0) tt))) envelope eq_refl).
Defined.

(** C4 as it was stated fails: the request of [update_email]'s draft check
    raises, and the call still returns a success. *)
Lemma failed_draft_check_is_passed_over :
  let R := scripted_client [Raise (Exn "HTTPError" "503 Server Error: Service Unavailable");
                            Ok (PDict [kv "id" (PStr "m1")])] in
  let run := update_email R "m1" (Some "New subject") None None None None None None
               (start R (true, 0) tt) in
  fst run = Ok (success (PDict [kv "id" (PStr "m1")]))
  /\ map call_outcome (calls R (snd run))
     = [Raise (Exn "HTTPError" "503 Server Error: Service Unavailable");
        Ok (PDict [kv "id" (PStr "m1")])].
Proof. split; reflexivity. Qed.

(** Outside the four kinds of exception of C4: an exception that is no
    instance of [Exception] is not caught. *)
Lemma interrupt_passes_through :
  let R := scripted_client [Raise (Exn "KeyboardInterrupt" EmptyString)] in
  fst (get_profile R None (start R (true, 0) tt))
  = Raise (Exn "KeyboardInterrupt" EmptyString).
Proof. reflexivity. Qed.

(** C4, at a call of [get_profile] whose request raises. *)
Lemma exceptions_become_envelopes_witness :
  let R := scripted_client [Raise (Exn "ConnectionError" "Connection refused")] in
  let st := start R (true, 0) tt in
  fst (tool_try R (Call_get_profile None) st)
  = Raise (Exn "ConnectionError" "Connection refused")
  /\ fst (run_tool R (Call_get_profile None) st) = Ok (failure "Connection refused").
Proof.
  intros R st. split; [reflexivity|].
  destruct (exceptions_become_envelopes R (Call_get_profile None) st) as (H1 & _).
  destruct (H1 (Exn "ConnectionError" "Connection refused") eq_refl) as (_ & H2).
  cbn [is_Exception] in H2.
  destruct H2 as [H2 | (H2 & _)]; [exact H2|discriminate H2].
Defined.



(** C8, on a client that answers the request with an empty dict. *)
Lemma list_messages_scenario_witness :
  let R := scripted_client [Ok (PDict [])] in
  let run :=
    list_messages R (Some "inbox") None None None None None (Some false) None None None
      None None None None None None None None None None None None
      (start R (true, 0) tt) in
  exists c,
    new_calls (start R (true, 0) tt) (snd run) = [c]
    /\ call_method c = "GET"
    /\ call_kwargs c = [("params", PDict [kv "$filter" (PStr "isRead eq false")])].
Proof.
  intros R run.
  destruct (list_messages_scenario R (start R (true, 0) tt) eq_refl)
    as (c & H1 & H2 & _ & H3 & _).
  exists c. repeat split; assumption.
Defined.



(** The shapes name entries that requests do hold: in a call with every
    optional parameter given, each shape of the tool function has a request
    that holds something at every field of the shape, and a clause for
    every head. *)
Lemma shapes_are_filled_when_given :
  let R := scripted_client [Ok (PDict [kv "isDraft" (PBool true); kv "id" (PStr "m1")]);
                            Ok (PDict [])] in
  forallb
    (fun tc =>
       let st := snd (run_tool R tc (start R (true, 0) tt)) in
       forallb (fun s => existsb (holds_every_field s) (calls R st)) (request_shapes tc))
    calls_with_everything
  = true.
Proof. vm_compute. reflexivity. Qed.

(** C10 as it was stated fails: the draft check finds that the message is
    not a draft, and the error is about drafts, not about missing fields. *)
Lemma update_of_a_received_message :
  let R := scripted_client [Ok (PDict [kv "isDraft" (PBool false)])] in
  fst (update_email R "m1" None None None None None None None (start R (true, 0) tt))
  = Ok (failure NOT_A_DRAFT)
  /\ NOT_A_DRAFT <> NOTHING_TO_UPDATE.
Proof. split; [reflexivity|discriminate]. Qed.

(** C10, on a client whose answer to the draft check is a draft. *)
Lemma update_email_without_fields_witness :
  let R := scripted_client [Ok (PDict [kv "isDraft" (PBool true)])] in
  let run := update_email R "m1" None None None None None None None (start R (true, 0) tt) in
  exists check,
    new_calls (start R (true, 0) tt) (snd run) = [check] /\ call_method check = "GET".
Proof.
  intros R run.
  destruct (update_email_without_fields R "m1" None (start R (true, 0) tt) eq_refl)
    as (check & H1 & H2 & _).
  exists check. split; assumption.
Defined.

(** *** The dispatcher *)

(** C6, at [get_profile]. *)
Lemma wrapper_binds_the_client_witness :
  let env := scripted_env [200%Z] (Some "token") in
  exists wrapper,
    create_dynamic_wrapper env repr_none eval_none (get_profile_function env)
      (Some "Get the profile.") (Some "outlook_get_profile") = Ok wrapper
    /\ f_params wrapper = [optional "user_id"].
Proof.
  intros env.
  destruct (wrapper_binds_the_client env repr_none eval_none eq_refl
              "get_profile" (get_profile_function env)
              (Some "Get the profile.") (Some "outlook_get_profile"))
    as (wrapper & H1 & H2 & _).
  - unfold tool_signatures. cbn [f_params get_profile_function].
    repeat (first [left; reflexivity | right]).
  - exists wrapper. split; [exact H1|exact H2].
Defined.

(** *** More of the request client *)

(** X13, on a client without a token. *)
Lemma request_without_token_sends_nothing_witness :
  Graph.request (scripted_env [200%Z] None) "GET" "/me" []
    ({| access_token := None |}, empty_world)
  = (Raise NOT_AUTHENTICATED_ERROR, ({| access_token := None |}, empty_world)).
Proof.
  apply (request_without_token_sends_nothing (scripted_env [200%Z] None)).
  reflexivity.
Defined.

(** X14, at a request with a [Prefer] header that is answered 401 and then,
    with the reloaded token, 200. *)
Lemma retry_carries_only_the_default_headers_witness :
  let env := scripted_env [401%Z; 200%Z] (Some "fresh") in
  let run := Graph.request env "GET" "/me/events" prefer_utc (signed_in "stale") in
  let sent := exchanges (snd (snd run)) in
  exists token,
    access_token (fst (snd run)) = Some token
    /\ rq_headers (fst (nth 1 sent no_exchange)) = default_headers token
    /\ authorization (fst (nth 0 sent no_exchange)) = Some (bearer "stale")
    /\ dict_find (PStr "Prefer") (rq_headers (fst (nth 0 sent no_exchange)))
       = Some (PStr "outlook.timezone=UTC").
Proof.
  intros env run sent.
  destruct (retry_carries_only_the_default_headers env "GET" "/me/events" prefer_utc
              {| access_token := Some "stale" |} empty_world
              (nth 0 sent no_exchange) (nth 1 sent no_exchange) eq_refl)
    as (token & H1 & H2 & _).
  exists token. repeat split; assumption || reflexivity.
Defined.

(** X15, at a request with a [Prefer] header. *)
Lemma custom_headers_go_out_with_the_first_request_witness :
  let env := scripted_env [200%Z] None in
  let run := Graph.request env "GET" "/me/events" prefer_utc (signed_in "token") in
  exists first rest,
    new_exchanges empty_world (snd (snd run)) = first :: rest
    /\ dict_find (PStr "Prefer") (rq_headers (fst first)) = Some (PStr "outlook.timezone=UTC")
    /\ dict_find (PStr "Authorization") (rq_headers (fst first)) = Some (bearer "token").
Proof.
  intros env run.
  destruct (custom_headers_go_out_with_the_first_request env "GET" "/me/events" prefer_utc
              {| access_token := Some "token" |} empty_world "token"
              [kv "Prefer" (PStr "outlook.timezone=UTC")]
              eq_refl ltac:(discriminate) eq_refl)
    as (first & rest & H1 & _ & H2 & H3).
  exists first, rest. split; [exact H1|]. split.
  - apply H2; [left; reflexivity|].
    intros v' [E | []]. inversion E. reflexivity.
  - rewrite H3; reflexivity.
Defined.

(** X16, at a request that is answered 200. *)
Lemma request_without_401_keeps_the_client_witness :
  let run := Graph.request (scripted_env [200%Z] None) "GET" "/me" [] (signed_in "token") in
  fst (snd run) = {| access_token := Some "token" |}
  /\ msal_calls (snd (snd run)) = 0%nat.
Proof.
  intros run.
  destruct (request_without_401_keeps_the_client (scripted_env [200%Z] None) "GET" "/me" []
              {| access_token := Some "token" |} empty_world)
    as (H1 & H2 & _).
  - intros x r Hin Hx. vm_compute in Hin. destruct Hin as [<-|[]].
    inversion Hx. discriminate.
  - split; assumption.
Defined.

(** X17, with a token cache that holds a token. *)
Lemma load_cached_token_effects_witness :
  let run := _load_cached_token (scripted_env [] (Some "cached"))
               ({| access_token := None |}, empty_world) in
  exists token, access_token (fst (snd run)) = Some token.
Proof.
  intros run.
  destruct (load_cached_token_effects (scripted_env [] (Some "cached"))
              {| access_token := None |} empty_world) as (_ & H & _).
  destruct (H eq_refl) as (account & rest & token & _ & _ & Ht).
  exists token. exact Ht.
Defined.

(** X18, with a device flow that does not start. *)
Lemma authenticate_interactive_effects_witness :
  let run := authenticate_interactive (scripted_env [] None)
               ({| access_token := None |}, empty_world) in
  fst (snd run) = {| access_token := None |}.
Proof.
  intros run.
  destruct (authenticate_interactive_effects (scripted_env [] None)
              {| access_token := None |} empty_world) as (_ & _ & H & _).
  exact (H eq_refl).
Defined.

(** X19, without [OUTLOOK_CLIENT_ID]. *)
Lemma new_client_effects_witness :
  new_client unconfigured_env empty_world
  = (Raise (Exn "ValueError" "OUTLOOK_CLIENT_ID environment variable is required"),
     empty_world).
Proof.
  exact (proj1 (new_client_effects unconfigured_env empty_world) eq_refl).
Defined.

(** *** More of the schema sanitizer *)

(** X20, on a schema with an optional string. *)
Lemma remove_null_removes_the_markers_in_reach_witness :
  exists out,
    Schema.remove_null_from_schema get_profile_schema = Ok out
    /\ Schema.has_null_marker out = false.
Proof. exact (remove_null_removes_the_markers_in_reach get_profile_schema eq_refl). Defined.

(** X21, on a schema without optional parameters. *)
Lemma remove_null_keeps_an_unmarked_schema_witness :
  Schema.remove_null_from_schema move_message_schema = Ok move_message_schema.
Proof. exact (remove_null_keeps_an_unmarked_schema move_message_schema eq_refl). Defined.
(** *** More of the dispatcher *)

(** X23, with an empty token cache and a device flow that does
    not start. *)
Lemma get_client_after_failed_authentication_witness :
  let env := scripted_env [] None in
  let p' := snd (get_client env fresh_process) in
  fst (get_client env fresh_process) = Ok ClientObject
  /\ get_client env p' = (Ok ClientObject, p').
Proof.
  intros env p'.
  destruct (get_client_after_failed_authentication env fresh_process
              {| access_token := None |} empty_world eq_refl eq_refl eq_refl
              ltac:(discriminate))
    as (H1 & _ & H2 & H3).
  split; [exact (proj1 (H2 eq_refl))|].
  unfold p'. rewrite H1. exact H3.
Defined.

(** X24, at a call of the wrapper of [get_profile] with a [client]. *)
Lemma wrapper_refuses_a_client_argument_witness :
  let env := scripted_env [200%Z] (Some "token") in
  exists wrapper,
    create_dynamic_wrapper env repr_none eval_none (get_profile_function env)
      None (Some "outlook_get_profile") = Ok wrapper
    /\ exists e,
         call wrapper [] [("client", Data (PStr "mine"))] fresh_process
         = (Raise e, fresh_process)
         /\ exn_class e = "TypeError".
Proof.
  intros env.
  destruct (create_dynamic_wrapper env repr_none eval_none (get_profile_function env)
              None (Some "outlook_get_profile")) as [wrapper|e] eqn:Hw;
    [|exfalso; revert Hw; apply wrapper_is_made; reflexivity].
  exists wrapper. split; [reflexivity|].
  refine (wrapper_refuses_a_client_argument env repr_none eval_none eq_refl
            (get_profile_function env) wrapper None (Some "outlook_get_profile")
            [] [("client", Data (PStr "mine"))] fresh_process eq_refl Hw _).
  left. reflexivity.
Defined.

(** X25, at a call of the wrapper of [get_profile]. *)
Lemma wrapper_call_without_client_id_witness :
  exists wrapper,
    create_dynamic_wrapper unconfigured_env repr_none eval_none
      (get_profile_function unconfigured_env) None (Some "outlook_get_profile")
    = Ok wrapper
    /\ exists e, call wrapper [] [] fresh_process = (Raise e, fresh_process).
Proof.
  destruct (create_dynamic_wrapper unconfigured_env repr_none eval_none
              (get_profile_function unconfigured_env) None (Some "outlook_get_profile"))
    as [wrapper|e] eqn:Hw;
    [|exfalso; revert Hw; apply wrapper_is_made; reflexivity].
  exists wrapper. split; [reflexivity|].
  destruct (wrapper_call_without_client_id unconfigured_env repr_none eval_none eq_refl
              (get_profile_function unconfigured_env) wrapper None
              (Some "outlook_get_profile") [] [] fresh_process eq_refl Hw eq_refl eq_refl)
    as (e & H & _).
  exists e. exact H.
Defined.

(** X26, at a call of the wrapper of [get_profile]. *)
Lemma unauthenticated_server_refuses_every_tool_witness :
  let env := scripted_env [200%Z] None in
  exists wrapper,
    create_dynamic_wrapper env repr_none eval_none (get_profile_function env)
      None (Some "outlook_get_profile") = Ok wrapper
    /\ call wrapper [] [] signed_out_process
       = (Ok (failure NOT_AUTHENTICATED, []), signed_out_process).
Proof.
  intros env.
  destruct (create_dynamic_wrapper env repr_none eval_none (get_profile_function env)
              None (Some "outlook_get_profile")) as [wrapper|e] eqn:Hw;
    [|exfalso; revert Hw; apply wrapper_is_made; reflexivity].
  exists wrapper. split; [reflexivity|].
  refine (unauthenticated_server_refuses_every_tool env repr_none eval_none eq_refl
            (plain_host unit (fun _ => false) (fun _ _ _ c => (Ok PNone, c))) tt
            (get_profile_function env) wrapper get_profile_call
            None (Some "outlook_get_profile") [] [] signed_out_process
            {| access_token := None |} eq_refl (fun _ => eq_refl) Hw _ eq_refl eq_refl).
  destruct (wrapper_call env repr_none eval_none eq_refl (get_profile_function env) wrapper
              None (Some "outlook_get_profile") eq_refl Hw) as [Hp _].
  rewrite Hp. reflexivity.
Defined.

(** *** More of the tool functions *)

(** X1, at the request of [get_message] for a user. *)
Lemma requests_address_the_user_witness :
  let R := scripted_client [Ok (PDict [])] in
  let c := {| call_method := "GET"; call_endpoint := "/u1/messages/m1";
              call_kwargs := [("params", PNone)]; call_outcome := Ok (PDict []) |} in
  exists rest, call_endpoint c = "/" ++ "u1" ++ rest.
Proof.
  intros R c.
  refine (requests_address_the_user R (Call_get_message "m1" None (Some "u1"))
            (start R (true, 0) tt) c _).
  left. reflexivity.
Defined.

(** X2, at a call of [send_email]. *)
Lemma tools_leave_the_files_witness :
  let R := scripted_client [Ok (PDict [])] in
  let tc := Call_send_email "Hi" "Test" "a@b.com" None None None None None None None in
  files R (snd (run_tool R tc (start R (true, 0) tt))) = tt.
Proof.
  intros R tc.
  exact (tools_leave_the_files R tc (start R (true, 0) tt) ltac:(discriminate)).
Defined.

(** X3, at a call of [get_profile]. *)
Lemma success_data_is_a_response_witness :
  let R := scripted_client [Ok (PDict [kv "displayName" (PStr "Ada")])] in
  let st := start R (true, 0) tt in
  exists c,
    In c (new_calls st (snd (run_tool R (Call_get_profile None) st)))
    /\ call_outcome c = Ok (PDict [kv "displayName" (PStr "Ada")]).
Proof.
  intros R st.
  refine (success_data_is_a_response R (Call_get_profile None) st
            (success (PDict [kv "displayName" (PStr "Ada")])) _ eq_refl eq_refl).
  cbn. intuition discriminate.
Defined.

(** X10, at a call of [send_email]. *)
Lemma success_follows_an_answer_witness :
  let R := scripted_client [Ok (PDict [])] in
  let tc := Call_send_email "Hi" "Test" "a@b.com" None None None None None None None in
  let st := start R (true, 0) tt in
  exists before c,
    new_calls st (snd (run_tool R tc st)) = (before ++ [c])%list
    /\ is_ok (call_outcome c) = true.
Proof.
  intros R tc st.
  exact (success_follows_an_answer R tc st (success SENT) eq_refl eq_refl).
Defined.

(** X5, at a download of an attachment with content. *)
Lemma download_writes_the_decoded_content_witness :
  let R := scripted_client [Ok (PDict [kv "contentBytes" (PStr "aGk="); kv "name" (PStr "a.txt")])] in
  let st := start R (true, 0) tt in
  let run := download_outlook_attachment R "m1" "a1" "out.txt" None st in
  exists c, new_calls st (snd run) = [c] /\ call_method c = "GET".
Proof.
  intros R st run.
  destruct (download_writes_the_decoded_content R "m1" "a1" "out.txt" None st
              (success (PDict [kv "file_name" (PStr "out.txt");
                               kv "size" (PInt 4);
                               kv "content_type" (PStr "unknown");
                               kv "name" (PStr "a.txt")]))
              eq_refl eq_refl)
    as (c & d & encoded & bytes & H1 & H2 & _).
  exists c. split; assumption.
Defined.

(** X6, with a file that does not exist. *)
Lemma event_attachment_prefers_the_file_witness :
  let R := scripted_client [Ok (PDict [])] in
  let st := start R (true, 0) tt in
  add_event_attachment R "e1" "notes.txt" "#microsoft.graph.fileAttachment"
    (Some "aGk=") (Some "/tmp/notes.txt") (Some "hi") None None st
  = (Ok (failure "File not found: /tmp/notes.txt"), st).
Proof.
  intros R st.
  exact (proj1 (event_attachment_prefers_the_file R "e1" "notes.txt"
                  "#microsoft.graph.fileAttachment" (Some "aGk=") "/tmp/notes.txt"
                  (Some "hi") None None st eq_refl) eq_refl).
Defined.

(** X7, with an upload of the attachment that fails. *)
Lemma create_draft_attaches_in_a_second_request_witness :
  let R := scripted_client [Ok (PDict [kv "id" (PStr "m1")]);
                            Raise (Exn "HTTPError" "413 Client Error")] in
  let st := start R (true, 0) tt in
  let run := create_draft R "Hi" "Test" ["a@b.com"] None None None None
               (Some [kv "name" (PStr "a.txt")]) st in
  fst run = Ok (failure "413 Client Error")
  /\ map call_endpoint (new_calls st (snd run)) = ["/me/messages"; "/me/messages/m1/attachments"].
Proof.
  intros R st run.
  destruct (create_draft_attaches_in_a_second_request R "Hi" "Test" ["a@b.com"]
              None None None None (kv "name" (PStr "a.txt")) [] st
              (nth 0 (new_calls st (snd run)) {| call_method := ""; call_endpoint := "";
                                                call_kwargs := []; call_outcome := Ok PNone |})
              (tl (new_calls st (snd run)))
              [kv "id" (PStr "m1")] eq_refl eq_refl)
    as [_ H].
  destruct (H eq_refl) as (c2 & H1 & _ & H2 & _ & H3 & _).
  split.
  - apply (H3 (Exn "HTTPError" "413 Client Error")).
    assert (E : tl (new_calls st (snd run))
                = [{| call_method := "POST"; call_endpoint := "/me/messages/m1/attachments";
                      call_kwargs := [("json", file_attachment [kv "name" (PStr "a.txt")])];
                      call_outcome := Raise (Exn "HTTPError" "413 Client Error") |}])
      by reflexivity.
    rewrite E in H1. inversion H1. reflexivity.
  - reflexivity.
Defined.

(** X8, at a call for the unread messages of a sender. *)
Lemma list_messages_filters_on_is_read_witness :
  let R := scripted_client [Ok (PDict [])] in
  let st := start R (true, 0) tt in
  let run :=
    list_messages R None None None (Some "a@b.com") None None (Some false) None None None
      None None None None None None None None None None None None st in
  exists c,
    new_calls st (snd run) = [c]
    /\ reach ["$filter"] (argument c InParams)
       = [PStr "from/emailAddress/address eq 'a@b.com' and isRead eq false"].
Proof.
  intros R st run.
  destruct (list_messages_filters_on_is_read R None None None (Some "a@b.com") None None
              false None None None None None None None None None None None None None None
              None st eq_refl)
    as (c & H1 & _ & H2 & _).
  exists c. split; [exact H1|exact H2].
Defined.

(** X9, at two calls of [get_message] on clients that answer
    differently. *)
Lemma requests_depend_on_the_arguments_only_witness :
  let R := scripted_client [Ok (PDict []); Raise (Exn "HTTPError" "404 Client Error")] in
  let tc := Call_get_message "m1" (Some "subject") None in
  let st1 := start R (true, 0) tt in
  let st2 := start R (true, 1) tt in
  map request_of (new_calls st1 (snd (run_tool R tc st1)))
  = map request_of (new_calls st2 (snd (run_tool R tc st2))).
Proof.
  intros R tc st1 st2.
  refine (requests_depend_on_the_arguments_only R tc st1 st2 _ eq_refl eq_refl).
  cbn. intuition discriminate.
Defined.

(** X11, with an interval that is not a number. *)
Lemma get_schedule_rejects_a_bad_interval_witness :
  let R := scripted_client [Ok (PDict [])] in
  let st := start R (true, 0) tt in
  get_schedule R ["a@b.com"] [] [] (Some "soon") st
  = (Ok (failure "invalid literal for int()"), st).
Proof.
  intros R st.
  exact (get_schedule_rejects_a_bad_interval R ["a@b.com"] [] [] "soon"
           (Exn "ValueError" "invalid literal for int()") st eq_refl eq_refl).
Defined.


End Examples.
